(** * DisparaAI campaign workflow orchestrator: a shallow embedding

    The development follows the Python sources of the repository:
    - [disparaai/services/campaign_service.py]        (bulk dispatch),
    - [disparaai/services/session_service.py]         (session store),
    - [disparaai/services/background_copy_service.py] (background generation),
    - [disparaai/workflows/bulk_messaging_workflow.py] and [workflows/steps/*],
    - [disparaai/utils/base64_file_handler.py], [disparaai/utils/phone_validator.py].

    Python dictionaries with a fixed vocabulary of keys are records of
    options (a key is present iff its field is [Some]); the singleton session
    map and the set of active generations are stdpp's [gmap] and [gset];
    external collaborators (messaging gateway, generation service, the
    [phonenumbers] library, the tabular parser) are interfaces given as type
    classes, so every statement holds for all their behaviours. *)

From Stdlib Require Import String Ascii List ZArith NArith Lia Bool Sorting.Sorted.
From stdpp Require Import gmap strings list.
Import ListNotations.

#[local] Open Scope string_scope.
#[local] Open Scope list_scope.

(** ** Python string primitives used by the sources *)

Module PyStr.

(** [s.startswith(prefix)] *)
Fixpoint startswith (prefix s : string) : bool :=
  match prefix, s with
  | EmptyString, _ => true
  | String a p, String b t => if Ascii.eqb a b then startswith p t else false
  | String _ _, EmptyString => false
  end.

(** [needle in hay] on [str]: substring containment. *)
Fixpoint contains (needle hay : string) : bool :=
  if startswith needle hay then true
  else match hay with
       | EmptyString => false
       | String _ t => contains needle t
       end.

(** [any(k in text for k in keywords)] *)
Definition any_in (keywords : list string) (text : string) : bool :=
  existsb (fun k => contains k text) keywords.

(** [s.lower()] on the ASCII letters; bytes of non-ASCII code points are
    kept (every keyword of the sources is already lower case). *)
Definition lower_ascii (c : ascii) : ascii :=
  let n := nat_of_ascii c in
  if (65 <=? n)%nat && (n <=? 90)%nat then ascii_of_nat (n + 32) else c.

Fixpoint lower (s : string) : string :=
  match s with
  | EmptyString => EmptyString
  | String c t => String (lower_ascii c) (lower t)
  end.

(** White space removed by [str.strip()], in the ASCII range: the Unicode
    spaces beyond it (U+00A0 and the like) are kept as the bytes they are. *)
Definition is_space (c : ascii) : bool :=
  let n := nat_of_ascii c in
  ((9 <=? n)%nat && (n <=? 13)%nat) || ((28 <=? n)%nat && (n <=? 32)%nat).

Fixpoint lstrip_chars (l : list ascii) : list ascii :=
  match l with
  | c :: t => if is_space c then lstrip_chars t else l
  | [] => []
  end.

Definition strip (s : string) : string :=
  string_of_list_ascii
    (rev (lstrip_chars (rev (lstrip_chars (list_ascii_of_string s))))).

(** [len(s)]: the number of code points of a UTF-8 encoded text, i.e. the
    bytes that are not continuation bytes [10xxxxxx]. *)
Definition is_continuation (c : ascii) : bool :=
  let n := nat_of_ascii c in (128 <=? n)%nat && (n <? 192)%nat.

Fixpoint len (s : string) : nat :=
  match s with
  | EmptyString => 0
  | String c t => if is_continuation c then len t else S (len t)
  end.

(** [s.replace(old, new)] for a non-empty [old]: occurrences are replaced
    left to right without overlap.  [skip] counts the characters of the
    occurrence just replaced that remain to be dropped. *)
Fixpoint replace_from (old new : string) (skip : nat) (s : string) : string :=
  match s with
  | EmptyString => EmptyString
  | String c t =>
      match skip with
      | S k => replace_from old new k t
      | O => if startswith old s
             then new ++ replace_from old new (String.length old - 1) t
             else String c (replace_from old new 0 t)
      end
  end.

Definition replace (old new s : string) : string := replace_from old new 0 s.

(** [s.split(sep)] for a one-character separator. *)
Fixpoint split_acc (sep : ascii) (cur : list ascii) (s : string) : list string :=
  match s with
  | EmptyString => [string_of_list_ascii (rev cur)]
  | String c t =>
      if Ascii.eqb c sep
      then string_of_list_ascii (rev cur) :: split_acc sep [] t
      else split_acc sep (c :: cur) t
  end.

Definition split (sep : ascii) (s : string) : list string := split_acc sep [] s.

(** [s.split(sep, 1)]: at most one cut, at the first separator. *)
Fixpoint split_once_acc (sep : ascii) (cur : list ascii) (s : string) : list string :=
  match s with
  | EmptyString => [string_of_list_ascii (rev cur)]
  | String c t =>
      if Ascii.eqb c sep
      then [string_of_list_ascii (rev cur); t]
      else split_once_acc sep (c :: cur) t
  end.

Definition split_once (sep : ascii) (s : string) : list string :=
  split_once_acc sep [] s.

(** [s[:n]] and [s[n:]], counted in code points: a leading byte goes with
    the continuation bytes that follow it. *)
Fixpoint drop_conts (s : string) : string :=
  match s with
  | String c t => if is_continuation c then drop_conts t else s
  | EmptyString => EmptyString
  end.

Fixpoint take_conts (s : string) : string :=
  match s with
  | String c t => if is_continuation c then String c (take_conts t) else EmptyString
  | EmptyString => EmptyString
  end.

Fixpoint drop (n : nat) (s : string) : string :=
  match n with
  | O => s
  | S k =>
      match s with
      | EmptyString => EmptyString
      | String _ t => drop k (drop_conts t)
      end
  end.

Fixpoint take (n : nat) (s : string) : string :=
  match n with
  | O => EmptyString
  | S k =>
      match s with
      | EmptyString => EmptyString
      | String c t => String c (take_conts t ++ take k (drop_conts t))
      end
  end.

(** [all(f(c) for c in s)] and [c.isdigit()] on ASCII *)
Fixpoint all_chars (f : ascii -> bool) (s : string) : bool :=
  match s with
  | EmptyString => true
  | String c t => f c && all_chars f t
  end.

Definition is_digit (c : ascii) : bool :=
  let n := nat_of_ascii c in (48 <=? n)%nat && (n <=? 57)%nat.

(** ["\n".join(l)] *)
Definition join_lines (l : list string) : string :=
  String.concat (String (ascii_of_nat 10) EmptyString) l.

Definition newline : ascii := ascii_of_nat 10.
Definition double_quote : string := String (ascii_of_nat 34) EmptyString.

(** [base64.b64encode(data).decode()] *)
Definition b64_alphabet : string :=
  "ABCDEFGHIJKLMNOPQRSTUVWXYZabcdefghijklmnopqrstuvwxyz0123456789+/".

Definition b64_char (n : nat) : ascii :=
  match String.get n b64_alphabet with
  | Some c => c
  | None => "="%char
  end.

Fixpoint b64_groups (l : list ascii) : list ascii :=
  match l with
  | [] => []
  | [a] =>
      let x := nat_of_ascii a in
      [b64_char (x / 4); b64_char ((x mod 4) * 16); "="%char; "="%char]
  | [a; b] =>
      let x := nat_of_ascii a in
      let y := nat_of_ascii b in
      [b64_char (x / 4); b64_char ((x mod 4) * 16 + y / 16);
       b64_char ((y mod 16) * 4); "="%char]
  | a :: b :: c :: t =>
      let x := nat_of_ascii a in
      let y := nat_of_ascii b in
      let z := nat_of_ascii c in
      b64_char (x / 4) :: b64_char ((x mod 4) * 16 + y / 16)
        :: b64_char ((y mod 16) * 4 + z / 64) :: b64_char (z mod 64)
        :: b64_groups t
  end.

Definition b64encode (data : string) : string :=
  string_of_list_ascii (b64_groups (list_ascii_of_string data)).

End PyStr.

(** ** Data model *)

(** [disparaai.models.campaign.PhoneNumber], with the fields its constructor
    calls in the sources give it. *)
Record PhoneNumber := mkPhoneNumber {
  raw : string;
  formatted : string;
  country_code : option string;
  is_valid : bool;
  error_message : option string
}.

(** [campaign_data["progress"]] *)
Record Progress := mkProgress {
  sent : nat;
  delivered : nat;
  failed : nat
}.

(** [campaign_data["stats"]]; [countries] is a dict in insertion order.  The
    float [success_rate] takes no part in any control flow and is left out. *)
Record Stats := mkStats {
  total_numbers : nat;
  valid_numbers : nat;
  invalid_numbers : nat;
  countries : list (string * nat)
}.

(** The value stored under ["file_data"]: bytes, a base64 [str], or anything
    else (including an absent key, for which [.get] gives [None]). *)
Inductive FileData :=
| DataBytes (b : string)
| DataStr (s : string)
| DataOther.

(** [campaign_data["image_file_info"]] / [["csv_file_info"]] *)
Record FileInfo := mkFileInfo {
  filename : option string;
  file_data : FileData;
  size_bytes : nat;
  mime_type : option string;
  image_mime_type : option string
}.

(** The identifiers of [session["workflow_step"]]. *)
Inductive Step :=
| welcome | awaiting_csv | csv_processed | generating_copy | copy_selection
| awaiting_approval | executing_campaign | custom_message | direct_send.

#[global] Instance Step_eq_dec : EqDecision Step.
Proof. solve_decision. Defined.

(** [session["campaign_data"]]: a dict over a fixed set of keys. *)
Record CampaignData := mkCampaignData {
  csv_file_info : option FileInfo;
  phone_numbers : option (list PhoneNumber);
  stats : option Stats;
  image_file_info : option FileInfo;
  context_type : option string;
  text_context : option string;
  copy_options : option (list string);
  copy_styles : option (list string);
  selected_copy : option string;
  campaign_id : option string;
  progress : option Progress
}.

(** [{}] *)
Definition empty_campaign_data : CampaignData :=
  mkCampaignData None None None None None None None None None None None.

Record HistoryEntry := mkHistoryEntry {
  h_timestamp : Z;
  h_user_message : string;
  h_message_type : string
}.

(** A session dict.  Time stamps are readings of a clock passed explicitly
    ([datetime.utcnow()]). *)
Record Session := mkSession {
  user_phone : string;
  workflow_step : Step;
  campaign_data : CampaignData;
  conversation_history : list HistoryEntry;
  last_interaction : Z
}.

Definition with_step (st : Step) (now : Z) (s : Session) : Session :=
  mkSession (user_phone s) st (campaign_data s) (conversation_history s) now.

Definition with_campaign_data (cd : CampaignData) (s : Session) : Session :=
  mkSession (user_phone s) (workflow_step s) cd (conversation_history s)
            (last_interaction s).

Definition set_progress (p : Progress) (cd : CampaignData) : CampaignData :=
  mkCampaignData (csv_file_info cd) (phone_numbers cd) (stats cd)
    (image_file_info cd) (context_type cd) (text_context cd) (copy_options cd)
    (copy_styles cd) (selected_copy cd) (campaign_id cd) (Some p).

Definition set_image_file_info (i : FileInfo) (cd : CampaignData) : CampaignData :=
  mkCampaignData (csv_file_info cd) (phone_numbers cd) (stats cd)
    (Some i) (context_type cd) (text_context cd) (copy_options cd)
    (copy_styles cd) (selected_copy cd) (campaign_id cd) (progress cd).

Definition set_context_type (t : string) (cd : CampaignData) : CampaignData :=
  mkCampaignData (csv_file_info cd) (phone_numbers cd) (stats cd)
    (image_file_info cd) (Some t) (text_context cd) (copy_options cd)
    (copy_styles cd) (selected_copy cd) (campaign_id cd) (progress cd).

Definition set_text_context (t : string) (cd : CampaignData) : CampaignData :=
  mkCampaignData (csv_file_info cd) (phone_numbers cd) (stats cd)
    (image_file_info cd) (context_type cd) (Some t) (copy_options cd)
    (copy_styles cd) (selected_copy cd) (campaign_id cd) (progress cd).

Definition set_copy_options (o : list string) (cd : CampaignData) : CampaignData :=
  mkCampaignData (csv_file_info cd) (phone_numbers cd) (stats cd)
    (image_file_info cd) (context_type cd) (text_context cd) (Some o)
    (copy_styles cd) (selected_copy cd) (campaign_id cd) (progress cd).

Definition set_copy_styles (o : list string) (cd : CampaignData) : CampaignData :=
  mkCampaignData (csv_file_info cd) (phone_numbers cd) (stats cd)
    (image_file_info cd) (context_type cd) (text_context cd) (copy_options cd)
    (Some o) (selected_copy cd) (campaign_id cd) (progress cd).

(** Every text the system sends to a person: the fixed templates of the
    sources, named by what they say, with the values interpolated in them. *)
Inductive Reply :=
| CampaignMessage (text : string)          (* the personalised campaign copy *)
| ImageReceived                            (* "Imagem recebida!" *)
| DescriptionReceived (described : option string)
                                           (* "Descrição recebida!", previewing the text *)
| ContextFound                             (* "Contexto encontrado!" *)
| GenerationRetry                          (* "Erro na geração ... gerar copy: ... enviar direto" *)
| CopyStepError                            (* "Erro na geração / Digite personalizada para continuar" *)
| ContextRequired                          (* "Erro: Contexto Necessário" *)
| CopyOptionsReply (valid : nat) (opts : list (string * string))
| AskCustomMessage                         (* "Digite sua mensagem:" *)
| AskDirectMessage                         (* "Digite mensagem para envio direto:" *)
| InlineContextReceived (described : string)
                                           (* "Contexto recebido!", previewing the text *)
| RequestContext (total : nat)             (* "Geração de Copy com IA ... PRECISO de contexto" *)
| SkipAICopy                               (* "Pular Copy com IA" *)
| CsvStatus (valid : nat) (regions : list string)  (* "Status da Campanha:" *)
| OptionsMenu (total : nat)                (* "N contatos carregados" *)
| ImageError (err : string)                (* "Erro ao processar imagem" *)
| ExecutionStatus (valid s d f : nat) (completed : bool)
                                           (* "Atualização do Status da Campanha:" *)
| CampaignRunning                          (* "Sua campanha está executando atualmente." *)
| WelcomeInstructions                      (* "Para começar, envie uma planilha" *)
| WelcomeDefault                           (* "Digite 'iniciar campanha' ..." *)
| GeneratingStatus                         (* "Gerando copy com IA..." *)
| OtherReply (text : string).

(** What a call that may raise gives back. *)
Inductive Outcome :=
| Returned
| Raised (err : string).

(** The messaging gateway ([EvolutionAPI]): an external service with a state
    of its own; each call answers or raises. *)
Class Gateway (G : Type) := {
  send_text_message : G -> string -> Reply -> G * Outcome;
  send_media_message :
    G -> string -> string -> Reply -> string -> option string -> string -> G * Outcome
    (* to, media_data, caption, media_type, filename, mimetype *)
}.

(** ** Campaign dispatcher ([CampaignService.execute_bulk_campaign]) *)

Module CampaignService.

(** What a concurrent reader of [campaign_data["progress"]] can see: the
    coroutine only yields at its [await]s, so the dict is visible while a
    gateway call is in flight and while the rate-limit sleep runs. *)
Inductive Observation :=
| AwaitSend (to : string) (seen : Progress)
| AwaitSleep (seen : Progress).

Definition seen (o : Observation) : Progress :=
  match o with
  | AwaitSend _ p => p
  | AwaitSleep p => p
  end.

Definition initial_progress : Progress := mkProgress 0 0 0.

Definition on_success (p : Progress) : Progress :=
  mkProgress (S (sent p)) (S (delivered p)) (failed p).

Definition on_failure (p : Progress) : Progress :=
  mkProgress (sent p) (delivered p) (S (failed p)).

(** The image carried along with every send: [(image_data, image_filename,
    image_file_info)] when [has_image] survived the type check. *)
Record ImagePayload := mkImagePayload {
  has_image : bool;
  image_data : option string;
  image_filename : option string;
  image_info : option FileInfo
}.

Definition no_image : ImagePayload := mkImagePayload false None None None.

Definition prepare_image (cd : CampaignData) : ImagePayload :=
  match image_file_info cd with
  | None => no_image
  | Some info =>
      let fname := Some (default "image.jpg" (filename info)) in
      match file_data info with
      | DataBytes b => mkImagePayload true (Some (PyStr.b64encode b)) fname (Some info)
      | DataStr s => mkImagePayload true (Some s) fname (Some info)
      | DataOther => mkImagePayload false None fname (Some info)
      end
  end.

(** [has_image and image_data]: the data must also be a non-empty string. *)
Definition sends_media (img : ImagePayload) : option (string * FileInfo) :=
  if has_image img then
    match image_data img, image_info img with
    | Some d, Some info => if String.eqb d "" then None else Some (d, info)
    | _, _ => None
    end
  else None.

Section Loop.
Context {G : Type} `{Gateway G}.
Variable message_content : string.
Variable img : ImagePayload.
Variable total : nat.   (* len(phone_numbers) *)

(** One pass of the body of the [for] loop up to the end of the gateway
    call. *)
Definition send_one (g : G) (phone : PhoneNumber) : G * Outcome :=
  let personalized_message := PyStr.replace "{{name}}" (raw phone) message_content in
  match sends_media img with
  | Some (d, info) =>
      send_media_message g (formatted phone) d
        (CampaignMessage personalized_message) "image" (image_filename img)
        (default "image/jpeg" (image_mime_type info))
  | None =>
      send_text_message g (formatted phone) (CampaignMessage personalized_message)
  end.

(** [for i, phone in enumerate(phone_numbers)]: the gateway state and the
    progress dict are threaded; the result lists what was observable at
    each suspension, in order. *)
Fixpoint send_loop (g : G) (p : Progress) (i : nat) (phones : list PhoneNumber)
  : G * Progress * list Observation :=
  match phones with
  | [] => (g, p, [])
  | phone :: rest =>
      let '(g1, r) := send_one g phone in
      match r with
      | Returned =>
          let p1 := on_success p in
          let sleep :=
            if (Z.of_nat i <? Z.of_nat total - 1)%Z then [AwaitSleep p1] else [] in
          let '(g2, p2, tr) := send_loop g1 p1 (S i) rest in
          (g2, p2, AwaitSend (formatted phone) p :: sleep ++ tr)
      | Raised _ =>
          let p1 := on_failure p in
          let '(g2, p2, tr) := send_loop g1 p1 (S i) rest in
          (g2, p2, AwaitSend (formatted phone) p :: tr)
      end
  end.
End Loop.

(** What the gateway answered to each recipient of the loop, in order. *)
Fixpoint outcomes {G : Type} `{Gateway G} (message_content : string)
    (img : ImagePayload) (g : G) (phones : list PhoneNumber) : list Outcome :=
  match phones with
  | [] => []
  | phone :: rest =>
      let '(g1, r) := send_one message_content img g phone in
      r :: outcomes message_content img g1 rest
  end.

Definition returned (o : Outcome) : bool :=
  match o with Returned => true | Raised _ => false end.

Definition count_returned (l : list Outcome) : nat := length (List.filter returned l).
Definition count_raised (l : list Outcome) : nat :=
  length (List.filter (fun o => negb (returned o)) l).

(** The recipients for which a gateway call was started, in order. *)
Definition attempted (tr : list Observation) : list string :=
  flat_map (fun o => match o with AwaitSend to _ => [to] | AwaitSleep _ => [] end) tr.

Definition progress_le (p q : Progress) : Prop :=
  sent p <= sent q /\ delivered p <= delivered q /\ failed p <= failed q.

(** The values the progress dict goes through: at creation, at each
    suspension, and when the loop is over. *)
Definition timeline (tr : list Observation) (final : Progress) : list Progress :=
  initial_progress :: (seen <$> tr) ++ [final].

Definition valid_recipients (l : list PhoneNumber) : list PhoneNumber :=
  List.filter is_valid l.

(** [execute_bulk_campaign(session_data)].  A missing ["phone_numbers"] or
    ["selected_copy"] raises [KeyError] before the progress dict exists; the
    outer handler logs it and the session is left as it was. *)
Definition execute_bulk_campaign {G : Type} `{Gateway G} (g : G) (s : Session)
  : G * Session * list Observation :=
  let cd := campaign_data s in
  match phone_numbers cd, selected_copy cd with
  | Some all, Some message_content =>
      let recipients := valid_recipients all in
      let img := prepare_image cd in
      let '(g', p, tr) :=
        send_loop message_content img (length recipients) g initial_progress 0 recipients in
      (g', with_campaign_data (set_progress p cd) s, tr)
  | _, _ => (g, s, [])
  end.

End CampaignService.

(** ** Session store ([SessionService], a process-wide singleton) *)

Module SessionService.

Definition new_session (user : string) (now : Z) : Session :=
  mkSession user welcome empty_campaign_data [] now.

(** [initialize_session(user_phone)]: creates the session on first contact,
    stamps the interaction time and gives the stored dict back. *)
Definition initialize_session (now : Z) (user : string)
    (user_sessions : gmap string Session) : gmap string Session * Session :=
  let s0 := default (new_session user now) (user_sessions !! user) in
  let s := mkSession (user_phone s0) (workflow_step s0) (campaign_data s0)
                     (conversation_history s0) now in
  (<[user := s]> user_sessions, s).

(** [update_workflow_step(session, step)] *)
Definition update_workflow_step (now : Z) (s : Session) (st : Step) : Session :=
  with_step st now s.

(** [get_campaign_data(session)] without a key *)
Definition get_campaign_data (s : Session) : CampaignData := campaign_data s.

(** [store_campaign_data(session, key, value)], one function per key *)
Definition store_campaign_data (f : CampaignData -> CampaignData) (s : Session) : Session :=
  with_campaign_data (f (campaign_data s)) s.

(** [reset_workflow(session)] *)
Definition reset_workflow (now : Z) (s : Session) : Session :=
  mkSession (user_phone s) welcome empty_campaign_data (conversation_history s) now.

End SessionService.

(** ** Incoming messages ([disparaai.models.whatsapp]) *)

Record WhatsAppMedia := mkMedia {
  media_base64 : option string;
  media_filename : option string
}.

Record WhatsAppMessage := mkMessage {
  from_phone : string;
  m_text : option string;
  message_type : string;
  m_media : option WhatsAppMedia
}.

(** [(message.text or "").lower().strip()] *)
Definition normalized_text (m : WhatsAppMessage) : string :=
  PyStr.strip (PyStr.lower (default "" (m_text m))).

(** What a step handler gives back: the session dict after its in-place
    updates and the reply ([None] when a background task owns the reply). *)
Definition Handled : Type := Session * option Reply.

(** [CSVUploadStep.handle], which reaches the file system collaborators. *)
Class CSVUploadStep := {
  csv_upload_handle : WhatsAppMessage -> Session -> Handled
}.

(** ** Welcome step ([WelcomeStep.handle]) *)

Module WelcomeStep.

Definition start_keywords : list string :=
  ["hi"; "hello"; "start"; "campaign"; "bulk"; "begin"; "new";
   "oi"; "olá"; "iniciar"; "campanha"; "comecar"; "começar"; "novo"; "nova"].

Definition set_step_raw (st : Step) (s : Session) : Session :=
  mkSession (user_phone s) st (campaign_data s) (conversation_history s)
            (last_interaction s).

Definition handle `{CSVUploadStep} (message : WhatsAppMessage) (s : Session) : Handled :=
  let text := normalized_text message in
  if PyStr.any_in start_keywords text then
    (set_step_raw awaiting_csv s, Some WelcomeInstructions)
  else if String.eqb (message_type message) "document" && bool_decide (is_Some (m_media message)) then
    csv_upload_handle message (set_step_raw awaiting_csv s)
  else (s, Some WelcomeDefault).

End WelcomeStep.

(** ** Orchestrator: status while a campaign executes
    ([BulkMessagingWorkflow._handle_execution_status]) *)

Module BulkMessagingWorkflow.

Definition progress_sent (cd : CampaignData) : nat :=
  match progress cd with Some p => sent p | None => 0 end.
Definition progress_delivered (cd : CampaignData) : nat :=
  match progress cd with Some p => delivered p | None => 0 end.
Definition progress_failed (cd : CampaignData) : nat :=
  match progress cd with Some p => failed p | None => 0 end.
Definition stats_valid_numbers (cd : CampaignData) : nat :=
  match stats cd with Some st => valid_numbers st | None => 0 end.

(** [progress.get('sent', 0) >= stats.get('valid_numbers', 0)] *)
Definition is_completed (cd : CampaignData) : bool :=
  (stats_valid_numbers cd <=? progress_sent cd)%nat.

Definition _handle_execution_status `{CSVUploadStep}
    (now : Z) (message : WhatsAppMessage) (s : Session) : Handled :=
  let text := normalized_text message in
  let cd := SessionService.get_campaign_data s in
  if PyStr.contains "status" text then
    (s, Some (ExecutionStatus (stats_valid_numbers cd) (progress_sent cd)
                (progress_delivered cd) (progress_failed cd) (is_completed cd)))
  else if is_completed cd then
    WelcomeStep.handle message (SessionService.reset_workflow now s)
  else (s, Some CampaignRunning).

End BulkMessagingWorkflow.

(** ** Copy generation ([CopyGenerationStep], [BackgroundCopyService]) *)

(** The generation service ([CopyGenerationAgent], [ImageAnalysisAgent]).
    [generate_copy_options] re-raises what the model call raises;
    [analyze_image_for_copy] catches everything and always gives a text.  The
    campaign context string is a rendering of the stats, which stand for it. *)
Class GenerationService := {
  generate_copy_options :
    Stats -> option string -> option string -> list (string * string) + string;
  analyze_image_for_copy : FileInfo -> string
}.

Module CopyGenerationStep.

Definition set_copy_selection (s : Session) : Session :=
  mkSession (user_phone s) copy_selection (campaign_data s)
            (conversation_history s) (last_interaction s).

(** [handle(request)], on the session dict [request.session_data] refers
    to.  Returns the dict after the in-place writes, the text for the user,
    and whether the generated options were stored. *)
Definition handle `{GenerationService} (s : Session) : Session * Reply * bool :=
  let cd := campaign_data s in
  match stats cd with
  | None => (s, CopyStepError, false)                (* KeyError: 'stats' *)
  | Some st =>
      if negb (bool_decide (is_Some (image_file_info cd))
               || bool_decide (is_Some (text_context cd)))
      then (s, ContextRequired, false)
      else
        let image_context := analyze_image_for_copy <$> image_file_info cd in
        let text_ctx :=
          match image_file_info cd with
          | Some _ => None
          | None => text_context cd
          end in
        match generate_copy_options st image_context text_ctx with
        | inr _ => (s, CopyStepError, false)
        | inl options =>
            let s1 := SessionService.store_campaign_data
                        (set_copy_options (snd <$> options)) s in
            let s2 := SessionService.store_campaign_data
                        (set_copy_styles (fst <$> options)) s1 in
            let s3 := set_copy_selection s2 in
            match options with
            | _ :: _ :: _ :: _ =>
                (s3, CopyOptionsReply (valid_numbers st) options, true)
            | _ => (s3, CopyStepError, true)         (* IndexError: options[k] *)
            end
        end
  end.

End CopyGenerationStep.

(** Modelled from the spec: [CopyGenerationRequest]
    ([disparaai/models/copy_generation_request.py] is not among the sources).
    "Ephemeral value object built at background-task start: userId,
    contextType (image|text|existing), imageContext/textContext, a request id";
    its [session_data] is the session dict itself, which stays in the store
    under the user's key. *)
Module CopyGenerationRequest.

Inductive ContextType := CtxImage | CtxText | CtxExisting.

Record t := mk {
  user_id : string;
  req_context_type : ContextType;
  image_context : option FileInfo;
  req_text_context : option string
}.

Definition from_session (user : string) (s : Session) : t :=
  let cd := campaign_data s in
  let ct :=
    match context_type cd with
    | Some "image" => CtxImage
    | Some "text" => CtxText
    | _ => CtxExisting
    end in
  mk user ct (image_file_info cd) (text_context cd).

(** "re-validate that context exists (image or text)" *)
Definition has_valid_context (r : t) : bool :=
  bool_decide (is_Some (image_context r)) || bool_decide (is_Some (req_text_context r)).

End CopyGenerationRequest.

Module BackgroundCopyService.

(** One service object: [self.active_generations] and the coroutines it
    handed to the event loop ([asyncio.create_task]) that have not run yet,
    each named by its user. *)
Record Service := mkService {
  active_generations : gset string;
  scheduled : list string
}.

(** [BackgroundCopyService()] *)
Definition fresh : Service := mkService ∅ [].

(** [trigger_background_copy_generation(user_phone, session)] on the
    service object; [session] is the stored dict of [user_phone].
    [create_task_ok] tells whether [asyncio.create_task] returned. *)
Definition trigger (create_task_ok : bool) (svc : Service) (user : string) : Service :=
  if decide (user ∈ active_generations svc) then svc
  else
    let marked := {[user]} ∪ active_generations svc in
    if create_task_ok
    then mkService marked (scheduled svc ++ [user])
    else mkService (marked ∖ {[user]}) (scheduled svc).

Inductive Event :=
| PipelineStarted (user : string)
| Sent (to : string) (r : Reply)           (* a gateway call that returned *)
| SendFailed (to : string) (r : Reply)     (* a gateway call that raised *)
| ResultsWritten (user : string) (before : Session).
                                           (* options stored into this dict *)

(** Everything a background task can touch. *)
Record World (G : Type) := mkWorld {
  user_sessions : gmap string Session;
  gateway : G;
  service : Service;
  events : list Event
}.
Arguments mkWorld {G}.
Arguments user_sessions {G}.
Arguments gateway {G}.
Arguments service {G}.
Arguments events {G}.

Definition trigger_background_copy_generation {G : Type}
    (create_task_ok : bool) (w : World G) (user : string) : World G :=
  mkWorld (user_sessions w) (gateway w)
          (trigger create_task_ok (service w) user) (events w).

(** What the turn handlers of the same process may do to the sessions while
    the task is suspended in one of its three gateway calls. *)
Record Interference := mkInterference {
  during_ack : gmap string Session -> gmap string Session;
  during_result : gmap string Session -> gmap string Session;
  during_retry : gmap string Session -> gmap string Session
}.

Definition quiet : Interference := mkInterference id id id.

Section Task.
Context {G : Type} `{Gateway G} `{GenerationService}.
Variable env : Interference.
Variable now : Z.
Variable user : string.

(** A gateway call together with what is recorded of it. *)
Definition deliver (g : G) (r : Reply) : G * Outcome * Event :=
  let '(g', o) := send_text_message g user r in
  (g', o, match o with Returned => Sent user r | Raised _ => SendFailed user r end).

(** The [except Exception] branch: send the retry text, then put the step
    back; when that send raises, the inner handler only logs. *)
Definition on_exception (w : World G) : World G :=
  let '(g', o, e) := deliver (gateway w) GenerationRetry in
  let sessions1 := during_retry env (user_sessions w) in
  match o with
  | Raised _ => mkWorld sessions1 g' (service w) (events w ++ [e])
  | Returned =>
      let '(sessions2, current_session) :=
        SessionService.initialize_session now user sessions1 in
      let rolled := SessionService.update_workflow_step now current_session csv_processed in
      mkWorld (<[user := rolled]> sessions2) g' (service w) (events w ++ [e])
  end.

(** The [finally] clause. *)
Definition release (w : World G) : World G :=
  mkWorld (user_sessions w) (gateway w)
          (mkService (active_generations (service w) ∖ {[user]})
                     (scheduled (service w)))
          (events w).

Definition confirmation_msg (r : CopyGenerationRequest.t) : Reply :=
  match CopyGenerationRequest.req_context_type r with
  | CopyGenerationRequest.CtxImage => ImageReceived
  | CopyGenerationRequest.CtxText =>
      DescriptionReceived (CopyGenerationRequest.req_text_context r)
  | CopyGenerationRequest.CtxExisting => ContextFound
  end.

(** [_generate_and_deliver_copy(user_phone, session)] *)
Definition _generate_and_deliver_copy (w : World G) : World G :=
  let w0 := mkWorld (user_sessions w) (gateway w) (service w)
                    (events w ++ [PipelineStarted user]) in
  release
    match user_sessions w0 !! user with
    | None => on_exception w0     (* no dict to read: cannot arise from a caller *)
    | Some session =>
        let generation_request := CopyGenerationRequest.from_session user session in
        let '(g1, o1, e1) := deliver (gateway w0) (confirmation_msg generation_request) in
        let w1 := mkWorld (during_ack env (user_sessions w0)) g1 (service w0)
                          (events w0 ++ [e1]) in
        match o1 with
        | Raised _ => on_exception w1
        | Returned =>
            let '(sessions2, current_session) :=
              SessionService.initialize_session now user (user_sessions w1) in
            let w2 := mkWorld sessions2 g1 (service w1) (events w1) in
            if decide (workflow_step current_session = generating_copy) then
              if CopyGenerationRequest.has_valid_context generation_request then
                let '(s', result, wrote) := CopyGenerationStep.handle current_session in
                let ev := if wrote then [ResultsWritten user current_session] else [] in
                let '(g3, o3, e3) := deliver g1 result in
                let w3 := mkWorld (during_result env (<[user := s']> sessions2)) g3
                                  (service w2) (events w2 ++ ev ++ [e3]) in
                match o3 with
                | Raised _ => on_exception w3
                | Returned => w3
                end
              else on_exception w2            (* ValueError: no valid context *)
            else w2                           (* the user moved on: return *)
        end
    end.
End Task.

(** The event loop runs the first scheduled coroutine. *)
Definition run_next {G : Type} `{Gateway G} `{GenerationService}
    (env : Interference) (now : Z) (w : World G) : World G :=
  match scheduled (service w) with
  | [] => w
  | user :: rest =>
      _generate_and_deliver_copy env now user
        (mkWorld (user_sessions w) (gateway w)
                 (mkService (active_generations (service w)) rest) (events w))
  end.

(** The event loop runs every coroutine scheduled so far, in order. *)
Fixpoint run_all {G : Type} `{Gateway G} `{GenerationService}
    (env : Interference) (now : Z) (fuel : nat) (w : World G) : World G :=
  match fuel with
  | O => w
  | S k => run_all env now k (run_next env now w)
  end.

Definition pipelines_started (user : string) (l : list Event) : nat :=
  length (List.filter
            (fun e => match e with
                      | PipelineStarted u => String.eqb u user
                      | _ => false
                      end) l).

(** The events that record a write of generated options. *)
Definition is_write (e : Event) : Prop :=
  match e with ResultsWritten _ _ => True | _ => False end.

(** The coroutines of a user in a queue. *)
Definition pending (u : string) (queue : list string) : nat :=
  length (List.filter (String.eqb u) queue).

End BackgroundCopyService.

(** ** Options after the upload ([PostCSVOptionsStep]) *)

(** [FileProcessingService.process_image_upload]: the stored file info, or
    the [ValueError] it raises. *)
Class FileProcessingService := {
  process_image_upload : WhatsAppMedia -> FileInfo + string
}.

Module PostCSVOptionsStep.

Definition custom_keywords : list string :=
  ["personalizada"; "minha mensagem"; "escrever"; "personalizar"; "customizar"].
Definition direct_keywords : list string :=
  ["enviar direto"; "direto"; "imediato"; "sem personalização"; "envio direto"].
Definition ai_keywords : list string :=
  ["gerar copy"; "gerar"; "ai"; "inteligência artificial"; "criar copy"; "automático"].
Definition status_commands : list string := ["status"; "progress"; "stats"].

Definition _is_custom_message_intent (text : string) : bool :=
  PyStr.any_in custom_keywords text.
Definition _is_direct_send_intent (text : string) : bool :=
  PyStr.any_in direct_keywords text.
Definition _is_ai_copy_intent (text : string) : bool :=
  PyStr.any_in ai_keywords text.

(** [_extract_context_from_command(text)] *)
Definition _extract_context_from_command (text : string) : option string :=
  let text_lower := PyStr.lower text in
  if PyStr.contains "gerar copy:" text_lower then
    match PyStr.split_once ":" text with
    | [_; rest] =>
        let context := PyStr.strip rest in
        if (5 <? PyStr.len context)%nat then Some context else None
    | _ => None
    end
  else None.

Definition _has_context_for_ai_copy (s : Session) : bool :=
  let cd := SessionService.get_campaign_data s in
  bool_decide (is_Some (image_file_info cd)) || bool_decide (is_Some (text_context cd)).

Definition total_valid (s : Session) : nat :=
  match stats (SessionService.get_campaign_data s) with
  | Some st => valid_numbers st
  | None => 0
  end.

Definition _request_context_for_ai_copy (s : Session) : Reply :=
  RequestContext (total_valid s).

(** The session dict after the handler, its return value, and the
    generation coroutines the handler's own [BackgroundCopyService()] handed
    to the event loop. *)
Record Result := mkResult {
  session : Session;
  reply : option Reply;
  spawned : list string
}.

(** [await self.background_copy_service.trigger_background_copy_generation(
      session.get("user_phone"), session)] on the service built in [__init__] *)
Definition trigger_for (s : Session) : list string :=
  BackgroundCopyService.scheduled
    (BackgroundCopyService.trigger true BackgroundCopyService.fresh (user_phone s)).

Definition start_generation (now : Z) (store : CampaignData -> CampaignData)
    (r : option Reply) (s : Session) : Result :=
  let s1 := SessionService.store_campaign_data store s in
  let s2 := SessionService.update_workflow_step now s1 generating_copy in
  mkResult s2 r (trigger_for s2).

(** [len(text.strip()) > 10], for the text of a description *)
Definition long_enough (text : string) : bool :=
  negb (String.eqb text "") && (10 <? PyStr.len (PyStr.strip text))%nat.

Definition is_image_upload (message : WhatsAppMessage) : bool :=
  String.eqb (message_type message) "image" && bool_decide (is_Some (m_media message)).

(** The branches of [handle] on a text, each with its effects. *)
Definition on_custom (now : Z) (s : Session) : Result :=
  mkResult (SessionService.update_workflow_step now s custom_message)
           (Some AskCustomMessage) [].

Definition on_direct (now : Z) (s : Session) : Result :=
  mkResult (SessionService.update_workflow_step now s direct_send)
           (Some AskDirectMessage) [].

Definition on_ai (now : Z) (text : string) (s : Session) : Result :=
  match _extract_context_from_command text with
  | Some inline_context =>
      start_generation now
        (fun cd => set_context_type "text" (set_text_context inline_context cd))
        (Some (InlineContextReceived inline_context)) s
  | None =>
      if _has_context_for_ai_copy s
      then start_generation now id None s
      else mkResult s (Some (_request_context_for_ai_copy s)) []
  end.

Definition on_description (now : Z) (text : string) (s : Session) : Result :=
  start_generation now
    (fun cd => set_context_type "text" (set_text_context text cd)) None s.

Definition on_skip (s : Session) : Result := mkResult s (Some SkipAICopy) [].

Definition on_status (s : Session) : Result :=
  let regions :=
    match stats (SessionService.get_campaign_data s) with
    | Some st => fst <$> countries st
    | None => []
    end in
  mkResult s (Some (CsvStatus (total_valid s) regions)) [].

Definition on_menu (s : Session) : Result :=
  mkResult s (Some (OptionsMenu (total_valid s))) [].

(** [handle(message, session)] *)
Definition handle `{FileProcessingService}
    (now : Z) (message : WhatsAppMessage) (s : Session) : Result :=
  let text := normalized_text message in
  match (if String.eqb (message_type message) "image" then m_media message else None) with
  | Some media =>
      match process_image_upload media with
      | inl file_info =>
          start_generation now
            (fun cd => set_context_type "image" (set_image_file_info file_info cd))
            None s
      | inr err => mkResult s (Some (ImageError err)) []
      end
  | None =>
      if _is_custom_message_intent text then on_custom now s
      else if _is_direct_send_intent text then on_direct now s
      else if _is_ai_copy_intent text then on_ai now text s
      else if long_enough text && negb (PyStr.any_in status_commands text)
      then on_description now text s
      else if PyStr.contains "pular" text then on_skip s
      else if PyStr.any_in status_commands text then on_status s
      else on_menu s
  end.

(** *** The routing as the specification words it: an ordered list of
    intents, the first one matching the text decides. *)
Inductive Intent :=
| CustomMessage | DirectSend | AIGeneration | ContextFallback
| SkipRequest | StatusQuery | Menu.

Definition matches (i : Intent) (text : string) : bool :=
  match i with
  | CustomMessage => _is_custom_message_intent text
  | DirectSend => _is_direct_send_intent text
  | AIGeneration => _is_ai_copy_intent text
  | ContextFallback => long_enough text && negb (PyStr.any_in status_commands text)
  | SkipRequest => PyStr.contains "pular" text
  | StatusQuery => PyStr.any_in status_commands text
  | Menu => true
  end.

Definition first_match (order : list Intent) (text : string) : Intent :=
  default Menu (List.find (fun i => matches i text) order).

Definition respond (i : Intent) (now : Z) (text : string) (s : Session) : Result :=
  match i with
  | CustomMessage => on_custom now s
  | DirectSend => on_direct now s
  | AIGeneration => on_ai now text s
  | ContextFallback => on_description now text s
  | SkipRequest => on_skip s
  | StatusQuery => on_status s
  | Menu => on_menu s
  end.

(** "custom → direct → AI-intent → context-fallback → status query → menu" *)
Definition specified_order : list Intent :=
  [CustomMessage; DirectSend; AIGeneration; ContextFallback; StatusQuery; Menu].

(** The order of the [if]/[elif] chain of [handle]. *)
Definition source_order : list Intent :=
  [CustomMessage; DirectSend; AIGeneration; ContextFallback; SkipRequest;
   StatusQuery; Menu].

End PostCSVOptionsStep.

(** ** Phone validation ([PhoneValidator]) *)

(** The [phonenumbers] library, over its own type of parsed numbers.
    [parse] gives the parsed number or the text of [NumberParseException]. *)
Class PhoneNumbersLib (P : Type) := {
  parse : string -> string -> P + string;
  is_valid_number : P -> bool;
  is_possible_number : P -> bool;
  format_e164 : P -> string;
  region_code_for_number : P -> option string
}.

Module PhoneValidator.

(** [self.region_config[region]]: [(whatsapp_compatible, auto_fix_legacy)] *)
Definition region_config (region : string) : option (bool * bool) :=
  if String.eqb region "BR" then Some (true, true)
  else if String.eqb region "US" then Some (false, false)
  else if String.eqb region "PT" then Some (false, false)
  else None.

Definition whatsapp_compatible (region : string) : bool :=
  match region_config region with Some (w, _) => w | None => false end.

Definition auto_fix_legacy (region : string) : bool :=
  match region_config region with Some (_, a) => a | None => false end.

(** The chained [replace(sep, "")] calls of [_clean_phone_number]. *)
Definition remove_separators (s : string) : string :=
  PyStr.replace "/" ""
    (PyStr.replace "." ""
      (PyStr.replace ")" ""
        (PyStr.replace "(" ""
          (PyStr.replace "-" ""
            (PyStr.replace " " "" s))))).

Definition _clean_phone_number (phone : string) : string :=
  if String.eqb phone "" then ""
  else
    let cleaned := remove_separators (PyStr.strip phone) in
    if PyStr.startswith "55" cleaned && (PyStr.len cleaned =? 13)%nat then
      "+" ++ cleaned
    else if (PyStr.len cleaned =? 11)%nat && PyStr.startswith "1" cleaned then
      "+55" ++ cleaned
    else if (PyStr.len cleaned =? 10)%nat && negb (PyStr.startswith "0" cleaned) then
      "+55" ++ PyStr.take 2 cleaned ++ "9" ++ PyStr.drop 2 cleaned
    else if negb (PyStr.startswith "+" cleaned) && (10 <? PyStr.len cleaned)%nat then
      "+" ++ cleaned
    else cleaned.

Definition mobile_area_codes : list string :=
  ["11"; "12"; "13"; "14"; "15"; "16"; "17"; "18"; "19";
   "21"; "22"; "24";
   "27"; "28";
   "31"; "32"; "33"; "34"; "35"; "37"; "38";
   "41"; "42"; "43"; "44"; "45"; "46";
   "47"; "48"; "49";
   "51"; "53"; "54"; "55";
   "61";
   "62"; "64";
   "63";
   "65"; "66";
   "67";
   "68";
   "69";
   "71"; "73"; "74"; "75"; "77";
   "79";
   "81"; "87";
   "82";
   "83";
   "84";
   "85"; "88";
   "86"; "89";
   "91"; "93"; "94";
   "92"; "97";
   "95";
   "96";
   "98"; "99"].

Definition _fix_brazilian_legacy_mobile (phone : string) : string :=
  if String.eqb phone "" then phone
  else
    let clean := PyStr.replace " " "" (PyStr.replace "-" "" (PyStr.replace "+" "" phone)) in
    if PyStr.startswith "55" clean && (PyStr.len clean =? 12)%nat then
      let area_code := PyStr.take 2 (PyStr.drop 2 clean) in
      let number := PyStr.drop 4 clean in
      if existsb (String.eqb area_code) mobile_area_codes
         && (PyStr.len number =? 8)%nat
         && negb (PyStr.startswith "9" number)
      then "+55" ++ area_code ++ "9" ++ number
      else phone
    else phone.

Section Validation.
Context {P : Type} `{PhoneNumbersLib P}.

Definition accepted (original_phone : string) (parsed : P) : PhoneNumber :=
  mkPhoneNumber original_phone (format_e164 parsed)
                (region_code_for_number parsed) true None.

(** The legacy repair attempted after a failed strict validation: the
    number, its validity and the cleaned text that the rest uses. *)
Definition try_legacy_fix (region : string) (cleaned_phone : string) (parsed : P)
  : P * bool * string :=
  if whatsapp_compatible region && auto_fix_legacy region && String.eqb region "BR"
  then
    let fixed_phone := _fix_brazilian_legacy_mobile cleaned_phone in
    if String.eqb fixed_phone cleaned_phone then (parsed, false, cleaned_phone)
    else
      match parse fixed_phone region with
      | inl reparsed =>
          if is_valid_number reparsed
          then (reparsed, true, fixed_phone)
          else (reparsed, false, cleaned_phone)
      | inr _ => (parsed, false, cleaned_phone)
      end
  else (parsed, false, cleaned_phone).

(** [validate_phone_number(phone, default_region)] *)
Definition validate_phone_number (region : string) (phone : string) : PhoneNumber :=
  let original_phone := phone in
  let cleaned_phone := _clean_phone_number phone in
  match parse cleaned_phone region with
  | inr e =>
      mkPhoneNumber original_phone original_phone None false
                    (Some ("Parse error: " ++ e)%string)
  | inl parsed_number =>
      let '(parsed_number, is_valid, cleaned_phone) :=
        if is_valid_number parsed_number
        then (parsed_number, true, cleaned_phone)
        else try_legacy_fix region cleaned_phone parsed_number in
      if is_valid then accepted original_phone parsed_number
      else if whatsapp_compatible region && is_possible_number parsed_number
      then accepted original_phone parsed_number
      else mkPhoneNumber original_phone cleaned_phone None false
                         (Some "Invalid phone number format")
  end.

(** [country_stats[code] = country_stats.get(code, 0) + 1] *)
Fixpoint bump (code : string) (l : list (string * nat)) : list (string * nat) :=
  match l with
  | [] => [(code, 1)]
  | (k, n) :: t =>
      if String.eqb k code then (k, S n) :: t else (k, n) :: bump code t
  end.

Definition country_stats (validated : list PhoneNumber) : list (string * nat) :=
  fold_left
    (fun acc p =>
       match is_valid p, country_code p with
       | true, Some c => if String.eqb c "" then acc else bump c acc
       | _, _ => acc
       end)
    validated [].

(** [validate_csv_phones_batch(phone_numbers)] *)
Definition validate_csv_phones_batch (region : string) (phone_numbers : list string)
  : list PhoneNumber * Stats :=
  let validated_phones :=
    flat_map
      (fun phone_value =>
         if negb (String.eqb phone_value "")
            && negb (String.eqb (PyStr.strip phone_value) "")
         then [validate_phone_number region (PyStr.strip phone_value)]
         else [])
      phone_numbers in
  let total_count := length validated_phones in
  let valid_count := length (List.filter is_valid validated_phones) in
  (validated_phones,
   mkStats total_count valid_count (total_count - valid_count)
           (country_stats validated_phones)).
End Validation.

End PhoneValidator.

(** ** Contact extraction ([Base64FileHandler]) *)

(** A parsed table: each column with its name and its cells, a cell being the
    [str()] of its value or null. *)
Record Column := mkColumn {
  col_name : string;
  col_values : list (option string)
}.

(** The tabular parser ([polars.read_csv]) and [bytes.decode] tried with
    utf-8, latin1 and cp1252 in turn ([None]: none of them decodes). *)
Class TabularParser := {
  read_csv : string -> list Column + string;
  decode_text : string -> option string
}.

Module Base64FileHandler.

Definition phone_keywords : list string :=
  ["phone"; "telefone"; "numero"; "number"; "cel"; "mobile"; "whatsapp"].

(** [_find_phone_columns(df.columns)], keeping the columns themselves *)
Definition _find_phone_columns (df : list Column) : list Column :=
  List.filter (fun col => PyStr.any_in phone_keywords (PyStr.lower (col_name col))) df.

(** [list(dict.fromkeys(l))]: the first occurrence of each value stays. *)
Fixpoint fromkeys_from (seen : list string) (l : list string) : list string :=
  match l with
  | [] => []
  | x :: t =>
      if existsb (String.eqb x) seen then fromkeys_from seen t
      else x :: fromkeys_from (x :: seen) t
  end.

Definition fromkeys (l : list string) : list string := fromkeys_from [] l.

Definition unvalidated (phone : string) : PhoneNumber :=
  mkPhoneNumber phone phone None false None.

Definition extraction_stats (n : nat) : Stats := mkStats n 0 0 [].

(** The non-null cells of a column, trimmed, the empty ones dropped. *)
Definition column_phones (col : Column) : list string :=
  flat_map
    (fun cell =>
       match cell with
       | Some v => if String.eqb (PyStr.strip v) "" then [] else [PyStr.strip v]
       | None => []
       end)
    (col_values col).

(** One line of the naive parse. *)
Definition fallback_line (line : string) : list PhoneNumber :=
  if String.eqb (PyStr.strip line) "" then []
  else
    match PyStr.split "," (PyStr.replace ";" "," line) with
    | first :: _ =>
        if String.eqb (PyStr.strip first) "" then []
        else [unvalidated (PyStr.replace PyStr.double_quote "" (PyStr.strip first))]
    | [] => []
    end.

(** [_fallback_phone_extraction(file_data, filename)] *)
Definition _fallback_phone_extraction `{TabularParser} (file_data : string)
  : list PhoneNumber * Stats :=
  match decode_text file_data with
  | None => ([], extraction_stats 0)            (* ValueError: could not decode *)
  | Some text_content =>
      if String.eqb text_content "" then ([], extraction_stats 0)
      else
        let lines := PyStr.split PyStr.newline (PyStr.strip text_content) in
        let phone_numbers := flat_map fallback_line (tail lines) in
        (phone_numbers, extraction_stats (length phone_numbers))
  end.

(** [extract_phone_numbers_from_csv(file_data, filename)] *)
Definition extract_phone_numbers_from_csv `{TabularParser} (file_data : string)
  : list PhoneNumber * Stats :=
  match read_csv file_data with
  | inr _ => _fallback_phone_extraction file_data
  | inl df =>
      match _find_phone_columns df, df with
      | [], [] => _fallback_phone_extraction file_data   (* IndexError: columns[0] *)
      | [], first :: _ =>
          let unique_phones := fromkeys (column_phones first) in
          (unvalidated <$> unique_phones, extraction_stats (length unique_phones))
      | phone_columns, _ =>
          let unique_phones := fromkeys (flat_map column_phones phone_columns) in
          (unvalidated <$> unique_phones, extraction_stats (length unique_phones))
      end
  end.

End Base64FileHandler.

(** ** Normalisation pipeline ([FileProcessingService.process_csv_upload],
    from the decoded file bytes on) *)

Module ContactNormalizer.

Definition process_csv_upload {P : Type} `{PhoneNumbersLib P} `{TabularParser}
    (file_data : string) : list PhoneNumber * Stats :=
  let '(phone_objects, _) := Base64FileHandler.extract_phone_numbers_from_csv file_data in
  let phone_strings := raw <$> phone_objects in
  PhoneValidator.validate_csv_phones_batch "BR" phone_strings.

End ContactNormalizer.

(** ** Scripted collaborators, for running the definitions *)

Module Scripted.

(** A gateway that answers its calls from a script, one entry per call, and
    returns normally once the script is used up. *)
Definition answer (script : list Outcome) : list Outcome * Outcome :=
  match script with
  | [] => ([], Returned)
  | o :: rest => (rest, o)
  end.

#[global] Instance gateway : Gateway (list Outcome) := {
  send_text_message script _ _ := answer script;
  send_media_message script _ _ _ _ _ _ := answer script
}.

(** A generation service whose model call always raises. *)
Definition failing_generation : GenerationService := {|
  generate_copy_options _ _ _ := inr "No AI API key found";
  analyze_image_for_copy _ := "Erro ao analisar a imagem."
|}.

(** A generation service that answers three options. *)
Definition three_options : GenerationService := {|
  generate_copy_options _ _ _ :=
    inl [("Profissional", "Prezado {{name}}"); ("Amigável", "Oi {{name}}");
         ("Promocional", "{{name}}, aproveite")];
  analyze_image_for_copy _ := "produto"
|}.

(** A parser that rejects every file, with a decoder for plain texts. *)
Definition rejecting_parser : TabularParser := {|
  read_csv _ := inr "could not parse";
  decode_text data := Some data
|}.

(** A numbering plan reduced to Brazil: the parsed number is the list of
    digits after [+55]; it is valid as a mobile number with eleven digits
    of which the third is 9, and possible with ten or eleven digits. *)
Definition br_parse (number : string) (region : string) : string + string :=
  if PyStr.startswith "+55" number then inl (PyStr.drop 3 number)
  else inr "(1) Could not interpret numbers after plus-sign.".

#[global] Instance br_numbers : PhoneNumbersLib string := {
  parse := br_parse;
  is_valid_number n :=
    (String.length n =? 11)%nat && PyStr.startswith "9" (PyStr.drop 2 n);
  is_possible_number n := (String.length n =? 10)%nat || (String.length n =? 11)%nat;
  format_e164 n := ("+55" ++ n)%string;
  region_code_for_number _ := Some "BR"
}.

Definition no_csv_upload : CSVUploadStep := {|
  csv_upload_handle _ s := (s, Some (OtherReply "Erro ao processar planilha"))
|}.

Definition no_images : FileProcessingService := {|
  process_image_upload _ := inr "No image content received"
|}.

Definition text_message (from text : string) : WhatsAppMessage :=
  mkMessage from (Some text) "text" None.

(** A campaign of three valid recipients and one rejected entry. *)
Definition contact (number : string) (ok : bool) : PhoneNumber :=
  mkPhoneNumber number ("+55" ++ number) (if ok then Some "BR" else None) ok
                (if ok then None else Some "Invalid phone number format").

Definition contacts : list PhoneNumber :=
  [contact "11987650001" true; contact "abc" false;
   contact "21987650002" true; contact "31987650003" true].

Definition campaign (p : option Progress) : CampaignData :=
  mkCampaignData None (Some contacts) (Some (mkStats 4 3 1 [("BR", 3)]))
                 None None None None None (Some "Oi {{name}}, novidades!")
                 (Some "42") p.

Definition owner : string := "5511900000000".

Definition executing (p : option Progress) : Session :=
  mkSession owner executing_campaign (campaign p) [] 0.

(** The gateway raises on its second call only. *)
Definition second_call_raises : list Outcome :=
  [Returned; Raised "HTTP error 500"; Returned].

(** A session waiting for its generated copy, with a text description. *)
Definition described : CampaignData :=
  mkCampaignData None (Some contacts) (Some (mkStats 4 3 1 [("BR", 3)]))
                 None (Some "text") (Some "oferta de 20% em limpeza dental")
                 None None None None None.

Definition generating : Session :=
  mkSession owner generating_copy described [] 0.

Definition uploaded : Session :=
  mkSession owner csv_processed
    (mkCampaignData None (Some contacts) (Some (mkStats 4 3 1 [("BR", 3)]))
                    None None None None None None None None) [] 0.

(** The owner's session in the store, no generation in flight. *)
Definition idle_world (s : Session) : BackgroundCopyService.World (list Outcome) :=
  BackgroundCopyService.mkWorld {[owner := s]} [] BackgroundCopyService.fresh [].

End Scripted.


(** ** Further operations of the session store ([SessionService]) *)

Module SessionStore.

(** [clear_session(user_phone)] *)
Definition clear_session (user : string) (user_sessions : gmap string Session)
  : gmap string Session :=
  delete user user_sessions.

(** [add_message_to_history(session, message_text, message_type)] *)
Definition add_message_to_history (now : Z) (s : Session)
    (message_text : option string) (kind : string) : Session :=
  let shown :=
    match message_text with
    | Some t => if String.eqb t "" then "[Media]" else t
    | None => "[Media]"
    end in
  mkSession (user_phone s) (workflow_step s) (campaign_data s)
            (conversation_history s ++ [mkHistoryEntry now shown kind])
            (last_interaction s).

(** [get_workflow_status(user_phone)]: the step, the campaign data, the last
    interaction and whether there is any history, with the defaults of the
    [.get] calls for an unknown user. *)
Definition get_workflow_status (user : string) (user_sessions : gmap string Session)
  : string * Step * CampaignData * option Z * bool :=
  match user_sessions !! user with
  | Some s =>
      (user, workflow_step s, campaign_data s, Some (last_interaction s),
       (0 <? length (conversation_history s))%nat)
  | None => (user, welcome, empty_campaign_data, None, false)
  end.

(** [cleanup_old_sessions(max_age_hours)], time in seconds: the users whose
    last interaction is before the cutoff are collected, then deleted one by
    one; the result is the store and the number of deletions. *)
Definition sessions_to_remove (cutoff_time : Z) (user_sessions : gmap string Session)
  : list string :=
  fst <$> List.filter (fun us => (last_interaction (snd us) <? cutoff_time)%Z)
                      (map_to_list user_sessions).

Definition cleanup_old_sessions (now : Z) (max_age_hours : Z)
    (user_sessions : gmap string Session) : gmap string Session * nat :=
  let cutoff_time := (now - max_age_hours * 3600)%Z in
  let doomed := sessions_to_remove cutoff_time user_sessions in
  (foldr delete user_sessions doomed, length doomed).

End SessionStore.

(** ** Upload of the contact list ([FileProcessingService.process_csv_upload],
    [CSVUploadStep]) *)

(** [Base64FileHandler.process_base64_file(base64_data, filename, file_type)]:
    base64 decoding and the metadata of the file, or the [ValueError] it
    raises. *)
Class Base64Files := {
  process_base64_file : string -> string -> string -> FileInfo + string
}.

Module FileProcessing.

(** [media.filename or "upload.csv"] *)
Definition upload_name (media : WhatsAppMedia) : string :=
  match media_filename media with
  | Some n => if String.eqb n "" then "upload.csv" else n
  | None => "upload.csv"
  end.

(** [process_csv_upload(media)]: file info, validated records and their
    statistics, or the text of the exception that is re-raised. *)
Definition process_csv_upload {P : Type} `{PhoneNumbersLib P} `{TabularParser}
    `{Base64Files} (media : WhatsAppMedia)
  : (FileInfo * list PhoneNumber * Stats) + string :=
  match media_base64 media with
  | None => inr "No file content received"
  | Some b64 =>
      if String.eqb b64 "" then inr "No file content received"
      else
        match process_base64_file b64 (upload_name media) "csv" with
        | inr e => inr e
        | inl file_info =>
            match file_data file_info with
            | DataBytes bytes =>
                let '(validated_phones, updated_stats) :=
                  ContactNormalizer.process_csv_upload bytes in
                inl (file_info, validated_phones, updated_stats)
            | _ => inr "a bytes-like object is required"
            end
        end
  end.

(** [validate_csv_requirements(filename)] and
    [validate_image_requirements(filename)] *)
Fixpoint endswith_chars (suffix s : list ascii) : bool :=
  match s with
  | [] => match suffix with [] => true | _ => false end
  | c :: t =>
      if (length suffix =? length s)%nat
      then bool_decide (suffix = s)
      else endswith_chars suffix t
  end.

Definition endswith (suffix s : string) : bool :=
  endswith_chars (list_ascii_of_string suffix) (list_ascii_of_string s).

Definition csv_extensions : list string := [".csv"; ".xlsx"; ".xls"].
Definition image_extensions : list string := [".jpg"; ".jpeg"; ".png"; ".gif"; ".webp"].

Definition validate_csv_requirements (filename : string) : bool :=
  negb (String.eqb filename "")
  && existsb (fun ext => endswith ext (PyStr.lower filename)) csv_extensions.

Definition validate_image_requirements (filename : string) : bool :=
  negb (String.eqb filename "")
  && existsb (fun ext => endswith ext (PyStr.lower filename)) image_extensions.

End FileProcessing.

Module CSVUploadStepImpl.

Definition ask_for_spreadsheet : Reply :=
  OtherReply "Por favor, envie uma planilha com números de telefone.".

Definition upload_failed (err : string) : Reply :=
  OtherReply ("Erro ao processar planilha: " ++ err)%string.

(** The dict written to [session["campaign_data"]] on success (its
    ["created_at"] stamp is read nowhere). *)
Definition uploaded_data (file_info : FileInfo) (phones : list PhoneNumber)
    (st : Stats) : CampaignData :=
  mkCampaignData (Some file_info) (Some phones) (Some st)
                 None None None None None None None None.

(** [CSVUploadStep.handle(message, session)] *)
Definition handle {P : Type} `{PhoneNumbersLib P} `{TabularParser} `{Base64Files}
    (message : WhatsAppMessage) (s : Session) : Handled :=
  match (if String.eqb (message_type message) "document" then m_media message else None) with
  | None => (s, Some ask_for_spreadsheet)
  | Some media =>
      match FileProcessing.process_csv_upload media with
      | inl (file_info, phones, st) =>
          (mkSession (user_phone s) csv_processed (uploaded_data file_info phones st)
                     (conversation_history s) (last_interaction s),
           Some (OptionsMenu (valid_numbers st)))
      | inr e => (s, Some (upload_failed e))
      end
  end.

(** The step as the welcome step and the orchestrator use it. *)
Definition step {P : Type} `{PhoneNumbersLib P} `{TabularParser} `{Base64Files}
  : CSVUploadStep := {| csv_upload_handle := handle |}.

End CSVUploadStepImpl.

(** ** The remaining steps and the orchestrator
    ([CopySelectionStep], [ApprovalStep], [CustomMessageStep],
    [DirectSendStep], [BulkMessagingWorkflow.process_message]) *)

(** [CampaignService.create_campaign(session_data)]: the id of the stored
    campaign; the function catches what the database raises and then gives
    ["temp_campaign_id"]. *)
Class CampaignStore := {
  create_campaign : Session -> string
}.

Module Steps.

(** [str.split()]: the maximal runs of characters that are not white space. *)
Fixpoint words_from (cur : list ascii) (s : string) : list string :=
  match s with
  | EmptyString =>
      match cur with
      | [] => []
      | _ => [string_of_list_ascii (rev cur)]
      end
  | String c t =>
      if PyStr.is_space c then
        match cur with
        | [] => words_from [] t
        | _ => string_of_list_ascii (rev cur) :: words_from [] t
        end
      else words_from (c :: cur) t
  end.

Definition words (s : string) : list string := words_from [] s.

Definition set_selected_copy (t : string) (cd : CampaignData) : CampaignData :=
  mkCampaignData (csv_file_info cd) (phone_numbers cd) (stats cd)
    (image_file_info cd) (context_type cd) (text_context cd) (copy_options cd)
    (copy_styles cd) (Some t) (campaign_id cd) (progress cd).

Definition set_campaign_id (t : string) (cd : CampaignData) : CampaignData :=
  mkCampaignData (csv_file_info cd) (phone_numbers cd) (stats cd)
    (image_file_info cd) (context_type cd) (text_context cd) (copy_options cd)
    (copy_styles cd) (selected_copy cd) (Some t) (progress cd).

(** The texts of these steps, named by what they say. *)
Inductive Answer :=
| Known (r : Reply)
| CampaignStarted (valid : nat)                   (* "Campanha iniciada!" *)
| Sending (valid : nat) (text : option string)    (* "Enviando para N contatos..." *)
| SelectedForEditing (option_no copy : string)    (* "Opção N selecionada para edição:" *)
| NeedContext                                     (* "Copy com IA precisa de contexto:" *)
| ChooseOption                                    (* "Escolha uma opção: 1, 2, 3 ..." *)
| AvailableOptions                                (* "Opções disponíveis:" *)
| EditingCampaign (total : nat)                   (* "Editando campanha para N contatos:" *)
| ConfirmChoice                                   (* "Por favor, confirme sua escolha:" *)
| AskCustomAgain                                  (* "Por favor, digite sua mensagem personalizada:" *)
| MessageDefined (total : nat) (text : string)    (* "Mensagem definida para N contatos:" *)
| AskDirectAgain.                                 (* "Por favor, digite a mensagem que deseja enviar diretamente:" *)

(** What a step leaves: the session dict, its return value, and whether it
    handed [execute_bulk_campaign(session)] to the event loop. *)
Record Outcome := mkOutcome {
  session : Session;
  answer : option Answer;
  dispatch : bool
}.

Definition valid_of (s : Session) : nat :=
  match stats (SessionService.get_campaign_data s) with
  | Some st => valid_numbers st
  | None => 0
  end.

(** The common tail of the three handlers that start a campaign: the step,
    the campaign record and its id. *)
Definition begin_execution `{CampaignStore} (now : Z) (s : Session) : Session :=
  let s1 := SessionService.update_workflow_step now s executing_campaign in
  SessionService.store_campaign_data (set_campaign_id (create_campaign s1)) s1.

(** [campaign_data.get("copy_options", [])] *)
Definition stored_options (s : Session) : list string :=
  default [] (copy_options (SessionService.get_campaign_data s)).

(** ["copy_options" in campaign_data and campaign_data["copy_options"]] *)
Definition has_copy_options (s : Session) : bool :=
  match copy_options (SessionService.get_campaign_data s) with
  | Some (_ :: _) => true
  | _ => false
  end.

(** [int(option_num) - 1] for the three accepted numerals *)
Definition option_index (numeral : string) : option nat :=
  if String.eqb numeral "1" then Some 0
  else if String.eqb numeral "2" then Some 1
  else if String.eqb numeral "3" then Some 2
  else None.

Definition text_of (message : WhatsAppMessage) : string :=
  PyStr.strip (default "" (m_text message)).

Definition one_of (l : list string) (t : string) : bool := existsb (String.eqb t) l.

Module CopySelectionStep.

Definition handle `{CampaignStore} (now : Z) (message : WhatsAppMessage) (s : Session)
  : Outcome :=
  let text := text_of message in
  if PyStr.startswith "enviar " (PyStr.lower text) && (length (words text) =? 2)%nat then
    match words text with
    | [_; option_num] =>
        match option_index option_num with
        | Some selected_index =>
            match nth_error (stored_options s) selected_index with
            | Some selected_copy =>
                let s1 := SessionService.store_campaign_data
                            (set_selected_copy selected_copy) s in
                let s2 := begin_execution now s1 in
                mkOutcome s2 (Some (CampaignStarted (valid_of s))) true
            | None => mkOutcome s None false
            end
        | None => mkOutcome s None false
        end
    | _ => mkOutcome s None false
    end
  else
    match option_index text with
    | Some selected_index =>
        match nth_error (stored_options s) selected_index with
        | Some selected_copy =>
            let s1 := SessionService.store_campaign_data
                        (set_selected_copy selected_copy) s in
            mkOutcome (SessionService.update_workflow_step now s1 awaiting_approval)
                      (Some (SelectedForEditing text selected_copy)) false
        | None => mkOutcome s None false
        end
    | None =>
        if one_of ["custom"; "personalizada"; "personalizado"] (PyStr.lower text) then
          mkOutcome (SessionService.update_workflow_step now s custom_message)
                    (Some (Known AskCustomMessage)) false
        else if PyStr.contains "gerar copy" (PyStr.lower text) then
          mkOutcome (SessionService.update_workflow_step now s csv_processed)
                    (Some NeedContext) false
        else if has_copy_options s then mkOutcome s (Some ChooseOption) false
        else mkOutcome s (Some AvailableOptions) false
    end.

End CopySelectionStep.

Module ApprovalStep.

Definition handle `{CampaignStore} (now : Z) (message : WhatsAppMessage) (s : Session)
  : Outcome :=
  let text := normalized_text message in
  if one_of ["send"; "enviar"; "enviar agora"] text then
    let s1 := begin_execution now s in
    mkOutcome s1 (Some (Sending (valid_of s1) None)) true
  else if one_of ["edit"; "editar"] text then
    if has_copy_options s then
      mkOutcome (SessionService.update_workflow_step now s copy_selection)
                (Some ChooseOption) false
    else
      mkOutcome (SessionService.update_workflow_step now s csv_processed)
                (Some (EditingCampaign (valid_of s))) false
  else mkOutcome s (Some ConfirmChoice) false.

End ApprovalStep.

Module CustomMessageStep.

Definition handle (now : Z) (message : WhatsAppMessage) (s : Session) : Outcome :=
  let custom_message := text_of message in
  if String.eqb custom_message "" then mkOutcome s (Some AskCustomAgain) false
  else
    let s1 := SessionService.store_campaign_data (set_selected_copy custom_message) s in
    let s2 := SessionService.update_workflow_step now s1 awaiting_approval in
    mkOutcome s2 (Some (MessageDefined (valid_of s2) custom_message)) false.

End CustomMessageStep.

Module DirectSendStep.

Definition handle `{CampaignStore} (now : Z) (message : WhatsAppMessage) (s : Session)
  : Outcome :=
  let direct_message := text_of message in
  if String.eqb direct_message "" then mkOutcome s (Some AskDirectAgain) false
  else
    let s1 := SessionService.store_campaign_data (set_selected_copy direct_message) s in
    let s2 := begin_execution now s1 in
    mkOutcome s2 (Some (Sending (valid_of s2) (Some direct_message))) true.

End DirectSendStep.

End Steps.

Module Orchestrator.

(** What one turn leaves: the session store, the reply, the generation
    coroutines and the dispatch coroutines handed to the event loop (each
    named by its user). *)
Record Turn := mkTurn {
  user_sessions : gmap string Session;
  response : option Steps.Answer;
  generations : list string;
  dispatches : list string
}.

Definition of_handled (h : Handled) : Steps.Outcome :=
  Steps.mkOutcome (fst h) (Steps.Known <$> snd h) false.

(** The routing of [process_message] on the current step, on the session
    dict with the message already in its history. *)
Definition route {P : Type} `{PhoneNumbersLib P} `{TabularParser} `{Base64Files}
    `{FileProcessingService} `{CampaignStore}
    (now : Z) (message : WhatsAppMessage) (s : Session)
  : Steps.Outcome * list string :=
  match workflow_step s with
  | welcome =>
      (of_handled (@WelcomeStep.handle CSVUploadStepImpl.step message s), [])
  | awaiting_csv => (of_handled (CSVUploadStepImpl.handle message s), [])
  | csv_processed =>
      let r := PostCSVOptionsStep.handle now message s in
      (Steps.mkOutcome (PostCSVOptionsStep.session r)
                       (Steps.Known <$> PostCSVOptionsStep.reply r) false,
       PostCSVOptionsStep.spawned r)
  | generating_copy => (Steps.mkOutcome s (Some (Steps.Known GeneratingStatus)) false, [])
  | copy_selection => (Steps.CopySelectionStep.handle now message s, [])
  | awaiting_approval => (Steps.ApprovalStep.handle now message s, [])
  | executing_campaign =>
      (of_handled
         (@BulkMessagingWorkflow._handle_execution_status CSVUploadStepImpl.step
            now message s), [])
  | custom_message => (Steps.CustomMessageStep.handle now message s, [])
  | direct_send => (Steps.DirectSendStep.handle now message s, [])
  end.

(** [process_message(message)].  [workflow_session_state[user_phone]] holds
    the session dict itself, so its update changes nothing. *)
Definition process_message {P : Type} `{PhoneNumbersLib P} `{TabularParser}
    `{Base64Files} `{FileProcessingService} `{CampaignStore}
    (now : Z) (message : WhatsAppMessage) (sessions : gmap string Session) : Turn :=
  let user := from_phone message in
  let '(sessions1, s) := SessionService.initialize_session now user sessions in
  let s1 := SessionStore.add_message_to_history now s (m_text message)
              (message_type message) in
  let '(o, gens) := route now message s1 in
  mkTurn (<[user := Steps.session o]> sessions1) (Steps.answer o) gens
         (if Steps.dispatch o then [user] else []).

End Orchestrator.

(** The separators that [_clean_phone_number] removes. *)
Module PhoneText.

Definition separators : list ascii :=
  [" "; "-"; "("; ")"; "."; "/"]%char.

Definition is_separator (c : ascii) : bool := existsb (Ascii.eqb c) separators.

(** The records that [country_stats] counts: valid, with a country code. *)
Definition counted (p : PhoneNumber) : bool :=
  is_valid p && match country_code p with
                | Some c => negb (String.eqb c "")
                | None => false
                end.

End PhoneText.

(** ** More scripted collaborators *)

Module Fixtures.

(** A parser that reads every file as the same two-column table. *)
Definition two_columns : list Column :=
  [mkColumn "Nome" [Some "Ana"; Some "Bia"; None; Some "Ana"];
   mkColumn "Telefone" [Some " 11987650001"; Some "21987650002"; None;
                        Some "11987650001 "]].

Definition table_parser : TabularParser := {|
  read_csv _ := inl two_columns;
  decode_text data := Some data
|}.

(** Base64 handling that takes the payload as the file bytes. *)
Definition plain_files : Base64Files := {|
  process_base64_file b64 name _ :=
    inl (mkFileInfo (Some name) (DataBytes b64) (String.length b64)
                    (Some "text/csv") None)
|}.

(** A campaign store that numbers every campaign 42. *)
Definition store_42 : CampaignStore := {| create_campaign _ := "42" |}.

Definition document (from name payload : string) : WhatsAppMessage :=
  mkMessage from None "document" (Some (mkMedia (Some payload) (Some name))).

(** Turns of the owner that run while the task waits for the gateway to
    deliver its acknowledgement, and leave the owner's session at
    [custom_message]. *)
Definition moved_on : BackgroundCopyService.Interference :=
  BackgroundCopyService.mkInterference
    (alter (fun s => SessionService.update_workflow_step 8 s custom_message)
           Scripted.owner)
    id id.

End Fixtures.

(** ** What the properties below count and assume *)

Module DispatchTrace.

(** The rate-limit sleeps of a run. *)
Definition pauses (tr : list CampaignService.Observation) : nat :=
  length (List.filter
            (fun o => match o with
                      | CampaignService.AwaitSleep _ => true
                      | CampaignService.AwaitSend _ _ => false
                      end) tr).

End DispatchTrace.

(** What a session must hold at each step for the code that runs next: the
    contacts and their statistics once a list is uploaded, and the message
    once the campaign waits for approval or runs. *)
Module Readiness.

Definition present {A : Type} (o : option A) : bool :=
  match o with Some _ => true | None => false end.

Definition has_contacts (cd : CampaignData) : bool :=
  present (phone_numbers cd) && present (stats cd).

Definition ready (s : Session) : bool :=
  match workflow_step s with
  | welcome | awaiting_csv => true
  | awaiting_approval | executing_campaign =>
      has_contacts (campaign_data s) && present (selected_copy (campaign_data s))
  | _ => has_contacts (campaign_data s)
  end.

End Readiness.

Module SessionFrame.

(** The part of a session that no step handler writes. *)
Definition same_owner_and_history (s s' : Session) : Prop :=
  user_phone s' = user_phone s /\ conversation_history s' = conversation_history s.

End SessionFrame.

Module StoreReadiness.

(** The store holds a ready session for [user], with these contacts and
    statistics. *)
Definition holds (user : string) (all : list PhoneNumber) (st : Stats)
    (m : gmap string Session) : Prop :=
  exists s, m !! user = Some s /\
            phone_numbers (campaign_data s) = Some all /\
            stats (campaign_data s) = Some st /\
            Readiness.ready s = true.

End StoreReadiness.

(** * Properties *)

(** ** The definitions at work *)

Example contains_substring : PyStr.contains "direto" "enviar direto agora" = true.
Proof. reflexivity. Qed.

Example replace_placeholder :
  PyStr.replace "{{name}}" "Ana" "Oi {{name}}, {{name}}!" = "Oi Ana, Ana!".
Proof. reflexivity. Qed.

Example b64encode_padding :
  PyStr.b64encode "Man" = "TWFu" /\ PyStr.b64encode "Ma" = "TWE=".
Proof. split; reflexivity. Qed.

Example normalized_text_of_message :
  normalized_text (Scripted.text_message Scripted.owner "  Gerar COPY ") = "gerar copy".
Proof. reflexivity. Qed.

Example len_counts_code_points : PyStr.len "olá" = 3 /\ String.length "olá" = 4.
Proof. split; reflexivity. Qed.

Example fromkeys_keeps_first :
  Base64FileHandler.fromkeys ["b"; "a"; "b"; "c"; "a"] = ["b"; "a"; "c"].
Proof. reflexivity. Qed.

Example clean_with_country_code :
  PhoneValidator._clean_phone_number "+55 (11) 98765-4321" = "+5511987654321".
Proof. reflexivity. Qed.

(** The later repair, on a number that came with its country code. *)
Example fix_inserts_ninth_digit :
  PhoneValidator._fix_brazilian_legacy_mobile "+551187654321" = "+5511987654321".
Proof. reflexivity. Qed.

(** Its guard: eight digits that begin with 9 are left as they are. *)
Example fix_skips_leading_nine :
  PhoneValidator._fix_brazilian_legacy_mobile "+551198765432" = "+551198765432".
Proof. reflexivity. Qed.

Example inline_context_extracted :
  PostCSVOptionsStep._extract_context_from_command
    "gerar copy: oferta de 20% em limpeza dental"
  = Some "oferta de 20% em limpeza dental".
Proof. reflexivity. Qed.

(** The inline-context scenario: the text is stored, the step becomes
    [generating_copy] and one generation coroutine is handed over. *)
Example inline_context_starts_generation :
  let r := @PostCSVOptionsStep.handle Scripted.no_images 7
             (Scripted.text_message Scripted.owner
                "gerar copy: oferta de 20% em limpeza dental")
             Scripted.uploaded in
  workflow_step (PostCSVOptionsStep.session r) = generating_copy /\
  text_context (campaign_data (PostCSVOptionsStep.session r))
    = Some "oferta de 20% em limpeza dental" /\
  PostCSVOptionsStep.spawned r = [Scripted.owner].
Proof. vm_compute. auto. Qed.

(** ** Campaign dispatcher *)

Section DispatchLoop.
Context {G : Type} `{Gateway G}.
Variable message_content : string.
Variable img : CampaignService.ImagePayload.
Variable total : nat.

Import CampaignService.

Lemma progress_le_refl p : progress_le p p.
Proof. unfold progress_le; lia. Qed.

Lemma progress_le_trans p q r : progress_le p q -> progress_le q r -> progress_le p r.
Proof. unfold progress_le; lia. Qed.

Lemma progress_le_success p : progress_le p (on_success p).
Proof. unfold progress_le, on_success; simpl; lia. Qed.

Lemma progress_le_failure p : progress_le p (on_failure p).
Proof. unfold progress_le, on_failure; simpl; lia. Qed.

(** Unfolding of one iteration. *)
Lemma send_loop_cons g p i phone rest :
  send_loop message_content img total g p i (phone :: rest) =
  let '(g1, r) := send_one message_content img g phone in
  let p1 := match r with Returned => on_success p | Raised _ => on_failure p end in
  let sleep := match r with
               | Returned => if (Z.of_nat i <? Z.of_nat total - 1)%Z
                             then [AwaitSleep p1] else []
               | Raised _ => []
               end in
  let '(g2, p2, tr) := send_loop message_content img total g1 p1 (S i) rest in
  (g2, p2, AwaitSend (formatted phone) p :: sleep ++ tr).
Proof.
  simpl. destruct (send_one message_content img g phone) as [g1 [|e]];
    destruct (send_loop _ _ _ g1 _ (S i) rest) as [[g2 p2] tr]; reflexivity.
Qed.

(** Every recipient is attempted, whatever the gateway answers. *)
Lemma send_loop_attempted phones : forall g p i,
  attempted (send_loop message_content img total g p i phones).2 = formatted <$> phones.
Proof.
  induction phones as [|phone rest IH]; intros g p i; [reflexivity|].
  rewrite send_loop_cons.
  destruct (send_one message_content img g phone) as [g1 r].
  cbv zeta. specialize (IH g1 (match r with Returned => on_success p | Raised _ => on_failure p end) (S i)).
  destruct (send_loop _ _ _ g1 _ (S i) rest) as [[g2 p2] tr].
  rewrite fmap_cons, <- IH. cbn [snd].
  unfold attempted. cbn [flat_map]. rewrite flat_map_app.
  destruct r; [destruct (_ <? _)%Z|]; reflexivity.
Qed.

(** The final counters count the answers of the gateway. *)
Lemma send_loop_final phones : forall g p i,
  let pf := (send_loop message_content img total g p i phones).1.2 in
  let outs := outcomes message_content img g phones in
  sent pf = sent p + count_returned outs /\
  delivered pf = delivered p + count_returned outs /\
  failed pf = failed p + count_raised outs.
Proof.
  induction phones as [|phone rest IH]; intros g p i.
  - simpl. unfold count_returned, count_raised. simpl. lia.
  - rewrite send_loop_cons. simpl outcomes.
    destruct (send_one message_content img g phone) as [g1 r].
    cbv zeta.
    specialize (IH g1 (match r with Returned => on_success p | Raised _ => on_failure p end) (S i)).
    destruct (send_loop _ _ _ g1 _ (S i) rest) as [[g2 p2] tr].
    simpl in *. unfold count_returned, count_raised in *.
    destruct r; simpl in *; lia.
Qed.

Lemma outcomes_length phones : forall g,
  length (outcomes message_content img g phones) = length phones.
Proof.
  induction phones as [|phone rest IH]; intros g; [reflexivity|].
  simpl. destruct (send_one message_content img g phone) as [g1 r]. simpl.
  by rewrite IH.
Qed.

Lemma count_split (l : list Outcome) : count_returned l + count_raised l = length l.
Proof.
  unfold count_returned, count_raised.
  induction l as [|[|e] l IH]; simpl; lia.
Qed.

(** Bounds and order of what is observable during the loop. *)
Lemma send_loop_observed phones : forall g p i,
  let r := send_loop message_content img total g p i phones in
  progress_le p r.1.2 /\
  Forall (fun o => progress_le p (seen o) /\ progress_le (seen o) r.1.2) r.2 /\
  StronglySorted progress_le (seen <$> r.2) /\
  (delivered p = sent p ->
   delivered r.1.2 = sent r.1.2 /\
   Forall (fun o => delivered (seen o) = sent (seen o)) r.2).
Proof.
  induction phones as [|phone rest IH]; intros g p i.
  - simpl. split; [|split; [|split; [|intros Hd; split]]];
      auto using progress_le_refl; constructor.
  - rewrite send_loop_cons.
    destruct (send_one message_content img g phone) as [g1 r].
    cbv zeta.
    set (p1 := match r with Returned => on_success p | Raised _ => on_failure p end).
    assert (Hp1 : progress_le p p1)
      by (destruct r; [apply progress_le_success | apply progress_le_failure]).
    assert (Hd1 : delivered p = sent p -> delivered p1 = sent p1)
      by (destruct r; simpl; intros; lia).
    set (sleep := match r with
                  | Returned => if (Z.of_nat i <? Z.of_nat total - 1)%Z
                                then [AwaitSleep p1] else []
                  | Raised _ => []
                  end).
    assert (Hsleep : Forall (fun o => seen o = p1) sleep).
    { subst sleep. destruct r; [destruct (_ <? _)%Z|]; repeat constructor. }
    clearbody sleep.
    specialize (IH g1 p1 (S i)).
    destruct (send_loop _ _ _ g1 _ (S i) rest) as [[g2 p2] tr].
    simpl in *. destruct IH as (Hle & Hall & Hsorted & Hdel).
    assert (Hpp2 : progress_le p p2) by eauto using progress_le_trans.
    assert (Hrest : Forall (fun o => progress_le p1 (seen o) /\ progress_le (seen o) p2)
                           (sleep ++ tr)).
    { apply Forall_app; split; [|exact Hall].
      eapply Forall_impl; [exact Hsleep|]. simpl. intros o ->.
      split; [apply progress_le_refl | exact Hle]. }
    split; [|split; [|split; [|intros Hd; split]]].
    + exact Hpp2.
    + constructor; [split; [apply progress_le_refl | exact Hpp2]|].
      eapply Forall_impl; [exact Hrest|]. simpl. intros o [? ?].
      split; eauto using progress_le_trans.
    + constructor.
      * rewrite fmap_app.
        clear Hrest Hdel. induction sleep as [|o sl IHs]; [exact Hsorted|].
        apply Forall_cons in Hsleep as [Ho Hsl]. simpl. constructor; [by apply IHs|].
        apply Forall_app; split.
        -- apply Forall_fmap. eapply Forall_impl; [exact Hsl|]. simpl.
           intros o' ->. rewrite Ho. apply progress_le_refl.
        -- apply Forall_fmap. eapply Forall_impl; [exact Hall|]. simpl.
           intros o' [? _]. by rewrite Ho.
      * apply Forall_fmap. eapply Forall_impl; [exact Hrest|]. simpl.
        intros o [? _]. eauto using progress_le_trans.
    + apply Hdel. auto.
    + constructor; [simpl; assumption|].
      apply Forall_app; split.
      * eapply Forall_impl; [exact Hsleep|]. simpl. intros o ->. auto.
      * apply Hdel. auto.
Qed.
End DispatchLoop.

Section Dispatch.
Context {G : Type} `{Gateway G}.
Import CampaignService.

(** The run, once the two keys it reads are known to be present. *)
Lemma execute_bulk_campaign_run (g : G) (s : Session) all msg :
  phone_numbers (campaign_data s) = Some all ->
  selected_copy (campaign_data s) = Some msg ->
  let r := send_loop msg (prepare_image (campaign_data s))
             (length (valid_recipients all)) g initial_progress 0
             (valid_recipients all) in
  execute_bulk_campaign g s =
    (r.1.1, with_campaign_data (set_progress r.1.2 (campaign_data s)) s, r.2).
Proof.
  intros Hall Hmsg. unfold execute_bulk_campaign. rewrite Hall, Hmsg.
  cbv zeta. destruct (send_loop _ _ _ _ _ _ _) as [[g' p] tr]. reflexivity.
Qed.

(** C1. In every bulk dispatch run over the valid phone records, a gateway
    call that raises for one recipient adds one to [failed] only, and the
    loop goes on to every remaining recipient: all valid recipients are
    attempted in order, [sent] and [delivered] count the calls that
    returned and [failed] those that raised.  In particular, with three
    recipients of which the second call raises, the counters end at
    sent 2, delivered 2, failed 1 and the third recipient is attempted. *)
Theorem dispatch_isolates_recipient_failures (g : G) (s : Session) all msg :
  phone_numbers (campaign_data s) = Some all ->
  selected_copy (campaign_data s) = Some msg ->
  let run := execute_bulk_campaign g s in
  let recipients := valid_recipients all in
  let outs := outcomes msg (prepare_image (campaign_data s)) g recipients in
  attempted run.2 = formatted <$> recipients /\
  progress (campaign_data run.1.2) =
    Some (mkProgress (count_returned outs) (count_returned outs) (count_raised outs)) /\
  (forall a b c e,
      recipients = [a; b; c] -> outs = [Returned; Raised e; Returned] ->
      progress (campaign_data run.1.2) = Some (mkProgress 2 2 1) /\
      attempted run.2 = [formatted a; formatted b; formatted c]).
Proof.
  intros Hall Hmsg run recipients outs.
  assert (Hatt : attempted run.2 = formatted <$> recipients).
  { subst run. rewrite (execute_bulk_campaign_run g s all msg Hall Hmsg).
    cbn [snd]. apply send_loop_attempted. }
  assert (Hfin : progress (campaign_data run.1.2) =
            Some (mkProgress (count_returned outs) (count_returned outs)
                             (count_raised outs))).
  { subst run. rewrite (execute_bulk_campaign_run g s all msg Hall Hmsg).
    cbn [fst snd]. simpl. f_equal.
    pose proof (send_loop_final msg (prepare_image (campaign_data s))
                  (length (valid_recipients all)) (valid_recipients all)
                  g initial_progress 0) as (Hs & Hd & Hf).
    fold recipients outs in Hs, Hd, Hf.
    destruct (send_loop _ _ _ _ _ _ _).1.2 as [ps pd pf].
    simpl in *. congruence. }
  split; [exact Hatt|]. split; [exact Hfin|].
  intros a b c e Hrec Houts. rewrite Hfin, Hatt, Hrec, Houts. split; reflexivity.
Qed.

(** C5. Throughout a bulk dispatch run the three counters never decrease;
    at every observation point [sent + failed] is at most the number of
    valid recipients; and when the loop has visited all recipients,
    [sent + failed] is exactly that number. *)
Theorem dispatch_progress_invariant (g : G) (s : Session) all msg :
  phone_numbers (campaign_data s) = Some all ->
  selected_copy (campaign_data s) = Some msg ->
  let run := execute_bulk_campaign g s in
  let n := length (valid_recipients all) in
  exists final,
    progress (campaign_data run.1.2) = Some final /\
    StronglySorted progress_le (timeline run.2 final) /\
    Forall (fun p => sent p + failed p <= n) (timeline run.2 final) /\
    sent final + failed final = n.
Proof.
  intros Hall Hmsg run n. subst run.
  rewrite (execute_bulk_campaign_run g s all msg Hall Hmsg). cbn [fst snd].
  pose proof (send_loop_observed msg (prepare_image (campaign_data s)) n
                (valid_recipients all) g initial_progress 0) as (Hle & Hobs & Hsort & _).
  pose proof (send_loop_final msg (prepare_image (campaign_data s)) n
                (valid_recipients all) g initial_progress 0) as (Hs & _ & Hf).
  pose proof (outcomes_length msg (prepare_image (campaign_data s))
                (valid_recipients all) g) as Hlen.
  pose proof (count_split (outcomes msg (prepare_image (campaign_data s)) g
                             (valid_recipients all))) as Hsplit.
  fold n in Hlen. cbv zeta in *.
  destruct (send_loop _ _ _ _ _ _ _) as [[g' final] tr]. cbn [fst snd] in *.
  exists final. simpl progress.
  assert (Hsum : sent final + failed final = n) by (simpl in Hs, Hf; lia).
  split; [reflexivity|]. split; [|split; [|exact Hsum]].
  - unfold timeline. constructor.
    + clear Hsum Hs Hf. induction tr as [|o tr IH]; simpl.
      * repeat constructor.
      * apply Forall_cons in Hobs as [[_ Ho] Hobs].
        inversion Hsort as [|? ? Hs' Hfo]; subst.
        constructor; [by apply IH|].
        apply Forall_app; split; [exact Hfo|]. constructor; [exact Ho | constructor].
    + apply Forall_app; split; [|constructor; [exact Hle | constructor]].
      apply Forall_fmap. eapply Forall_impl; [exact Hobs|]. simpl. by intros o [? _].
  - unfold timeline. constructor; [simpl; lia|].
    apply Forall_app; split; [|repeat constructor; lia].
    apply Forall_fmap. eapply Forall_impl; [exact Hobs|]. simpl.
    intros o [_ (? & _ & ?)]. lia.
Qed.

(** C10. At every observation point during a bulk dispatch run and after
    it, [progress.delivered] equals [progress.sent]: both are incremented
    together on a send that returned, and nothing else moves [delivered]. *)
Theorem delivered_always_equals_sent (g : G) (s : Session) all msg :
  phone_numbers (campaign_data s) = Some all ->
  selected_copy (campaign_data s) = Some msg ->
  let run := execute_bulk_campaign g s in
  exists final,
    progress (campaign_data run.1.2) = Some final /\
    Forall (fun p => delivered p = sent p) (timeline run.2 final).
Proof.
  intros Hall Hmsg run. subst run.
  rewrite (execute_bulk_campaign_run g s all msg Hall Hmsg). cbn [fst snd].
  pose proof (send_loop_observed msg (prepare_image (campaign_data s))
                (length (valid_recipients all))
                (valid_recipients all) g initial_progress 0) as (_ & _ & _ & Hdel).
  cbv zeta in Hdel.
  destruct (send_loop _ _ _ _ _ _ _) as [[g' final] tr]. cbn [fst snd] in *.
  destruct (Hdel eq_refl) as [Hfin Hobs].
  exists final. split; [reflexivity|].
  unfold timeline. constructor; [reflexivity|].
  apply Forall_app; split; [|repeat constructor; exact Hfin].
  apply Forall_fmap. exact Hobs.
Qed.
End Dispatch.

(** The scenario of the specification, run on the scripted gateway. *)
Lemma dispatch_isolates_recipient_failures_witness :
  phone_numbers (campaign_data (Scripted.executing None)) = Some Scripted.contacts /\
  selected_copy (campaign_data (Scripted.executing None)) = Some "Oi {{name}}, novidades!" /\
  progress (campaign_data
              (CampaignService.execute_bulk_campaign
                 Scripted.second_call_raises (Scripted.executing None)).1.2)
    = Some (mkProgress 2 2 1) /\
  CampaignService.attempted
    (CampaignService.execute_bulk_campaign
       Scripted.second_call_raises (Scripted.executing None)).2
    = ["+5511987650001"; "+5521987650002"; "+5531987650003"].
Proof.
  split; [reflexivity|]. split; [reflexivity|].
  exact (proj2 (proj2 (dispatch_isolates_recipient_failures
                         Scripted.second_call_raises (Scripted.executing None)
                         Scripted.contacts "Oi {{name}}, novidades!" eq_refl eq_refl))
           (Scripted.contact "11987650001" true) (Scripted.contact "21987650002" true)
           (Scripted.contact "31987650003" true) "HTTP error 500" eq_refl eq_refl).
Defined.

Lemma dispatch_progress_invariant_witness :
  phone_numbers (campaign_data (Scripted.executing None)) = Some Scripted.contacts /\
  selected_copy (campaign_data (Scripted.executing None)) = Some "Oi {{name}}, novidades!" /\
  exists final,
    progress (campaign_data
                (CampaignService.execute_bulk_campaign
                   Scripted.second_call_raises (Scripted.executing None)).1.2)
      = Some final /\
    StronglySorted CampaignService.progress_le
      (CampaignService.timeline
         (CampaignService.execute_bulk_campaign
            Scripted.second_call_raises (Scripted.executing None)).2 final) /\
    Forall (fun p => sent p + failed p <= 3)
      (CampaignService.timeline
         (CampaignService.execute_bulk_campaign
            Scripted.second_call_raises (Scripted.executing None)).2 final) /\
    sent final + failed final = 3.
Proof.
  split; [reflexivity|]. split; [reflexivity|].
  exact (dispatch_progress_invariant Scripted.second_call_raises
           (Scripted.executing None) Scripted.contacts "Oi {{name}}, novidades!"
           eq_refl eq_refl).
Defined.

Lemma delivered_always_equals_sent_witness :
  phone_numbers (campaign_data (Scripted.executing None)) = Some Scripted.contacts /\
  selected_copy (campaign_data (Scripted.executing None)) = Some "Oi {{name}}, novidades!" /\
  exists final,
    progress (campaign_data
                (CampaignService.execute_bulk_campaign
                   Scripted.second_call_raises (Scripted.executing None)).1.2)
      = Some final /\
    Forall (fun p => delivered p = sent p)
      (CampaignService.timeline
         (CampaignService.execute_bulk_campaign
            Scripted.second_call_raises (Scripted.executing None)).2 final).
Proof.
  split; [reflexivity|]. split; [reflexivity|].
  exact (delivered_always_equals_sent Scripted.second_call_raises
           (Scripted.executing None) Scripted.contacts "Oi {{name}}, novidades!"
           eq_refl eq_refl).
Defined.

(** ** Orchestrator: completion of a campaign *)

Section ExecutionStatus.
Context `{CSVUploadStep}.
Import BulkMessagingWorkflow.

Lemma reset_workflow_step now s :
  workflow_step (SessionService.reset_workflow now s) = welcome.
Proof. reflexivity. Qed.

(** The dispatcher writes nothing but the progress dict. *)
Lemma execute_bulk_campaign_session {G : Type} `{Gateway G} (g : G) (s : Session) :
  let s' := (CampaignService.execute_bulk_campaign g s).1.2 in
  workflow_step s' = workflow_step s /\
  stats (campaign_data s') = stats (campaign_data s) /\
  user_phone s' = user_phone s /\
  conversation_history s' = conversation_history s.
Proof.
  unfold CampaignService.execute_bulk_campaign.
  destruct (phone_numbers (campaign_data s)) as [all|]; [|by simpl].
  destruct (selected_copy (campaign_data s)) as [msg|]; [|by simpl].
  destruct (CampaignService.send_loop _ _ _ _ _ _ _) as [[g' p] tr]. by simpl.
Qed.

(** C2. While the step is [executing_campaign], completion is computed by
    comparing [progress.sent] with [stats.valid_numbers]: for a message that
    is not a status query, once [sent] equals that count the workflow is
    reset to [welcome] and the message is handled as a welcome-step message;
    while [sent] is below it the in-progress text is returned and the session
    (its step included) is unchanged.  The dispatcher itself pushes no done
    event: it leaves the step and the stats as they are. *)
Theorem completion_is_inferred_from_counters (now : Z) (message : WhatsAppMessage)
    (s : Session) :
  PyStr.contains "status" (normalized_text message) = false ->
  (progress_sent (campaign_data s) = stats_valid_numbers (campaign_data s) ->
   _handle_execution_status now message s
     = WelcomeStep.handle message (SessionService.reset_workflow now s) /\
   workflow_step (SessionService.reset_workflow now s) = welcome) /\
  (progress_sent (campaign_data s) < stats_valid_numbers (campaign_data s) ->
   _handle_execution_status now message s = (s, Some CampaignRunning)) /\
  (forall (G : Type) (gw : Gateway G) (g : G),
     workflow_step (CampaignService.execute_bulk_campaign g s).1.2 = workflow_step s /\
     stats (campaign_data (CampaignService.execute_bulk_campaign g s).1.2)
       = stats (campaign_data s)).
Proof.
  intros Hstatus. unfold _handle_execution_status, is_completed.
  rewrite Hstatus. unfold SessionService.get_campaign_data.
  split; [|split].
  - intros Heq. rewrite Heq, Nat.leb_refl. split; reflexivity.
  - intros Hlt. apply Nat.leb_gt in Hlt. by rewrite Hlt.
  - intros G gw g.
    destruct (execute_bulk_campaign_session g s) as (Hs & Hst & _). by split.
Qed.
End ExecutionStatus.

(** A finished campaign of three recipients: the next plain message starts
    over at the welcome step. *)
Lemma completion_is_inferred_from_counters_witness :
  PyStr.contains "status"
    (normalized_text (Scripted.text_message Scripted.owner "Obrigado")) = false /\
  @BulkMessagingWorkflow._handle_execution_status Scripted.no_csv_upload 7
      (Scripted.text_message Scripted.owner "Obrigado")
      (Scripted.executing (Some (mkProgress 3 3 0)))
    = (mkSession Scripted.owner welcome empty_campaign_data [] 7, Some WelcomeDefault).
Proof.
  split; [reflexivity|].
  etransitivity.
  - exact (proj1 (proj1 (@completion_is_inferred_from_counters Scripted.no_csv_upload 7
                    (Scripted.text_message Scripted.owner "Obrigado")
                    (Scripted.executing (Some (mkProgress 3 3 0))) eq_refl) eq_refl)).
  - reflexivity.
Defined.

(** ** Background generation *)

Section Background.
Context {G : Type} `{Gateway G} `{GenerationService}.
Import BackgroundCopyService.

Lemma pipelines_started_app user l1 l2 :
  pipelines_started user (l1 ++ l2) = pipelines_started user l1 + pipelines_started user l2.
Proof. unfold pipelines_started. by rewrite List.filter_app, length_app. Qed.

Lemma deliver_event_not_start user (g : G) r u :
  pipelines_started u [(deliver user g r).2] = 0.
Proof.
  unfold deliver. destruct (send_text_message g user r) as [g' [|e]]; reflexivity.
Qed.

Lemma deliver_fst user (g : G) r :
  (deliver user g r).1 = send_text_message g user r.
Proof. unfold deliver. by destruct (send_text_message g user r) as [g' [|e]]. Qed.

(** The handler for failures starts no pipeline and touches no marker. *)
Lemma on_exception_frame env now user (w : World G) u :
  pipelines_started u (events (on_exception env now user w)) = pipelines_started u (events w) /\
  service (on_exception env now user w) = service w.
Proof.
  unfold on_exception.
  pose proof (deliver_event_not_start user (gateway w) GenerationRetry u) as He.
  destruct (deliver user (gateway w) GenerationRetry) as [[g' o] e]. simpl in He.
  destruct o as [|err].
  - destruct (SessionService.initialize_session _ _ _) as [sessions2 cur]. simpl.
    rewrite pipelines_started_app, He. split; [lia|reflexivity].
  - simpl. rewrite pipelines_started_app, He. split; [lia|reflexivity].
Qed.

(** One run of the task starts exactly one pipeline, for its own user, and
    ends with the user's marker cleared and the queue as it was. *)
Lemma task_frame env now user (w : World G) u :
  pipelines_started u (events (_generate_and_deliver_copy env now user w))
    = pipelines_started u (events w) + (if String.eqb user u then 1 else 0) /\
  scheduled (service (_generate_and_deliver_copy env now user w)) = scheduled (service w) /\
  active_generations (service (_generate_and_deliver_copy env now user w))
    = active_generations (service w) ∖ {[user]}.
Proof.
  unfold _generate_and_deliver_copy.
  set (w0 := mkWorld (user_sessions w) (gateway w) (service w)
                     (events w ++ [PipelineStarted user])).
  assert (Hw0 : pipelines_started u (events w0)
                = pipelines_started u (events w) + (if String.eqb user u then 1 else 0)).
  { subst w0. simpl. rewrite pipelines_started_app. f_equal.
    unfold pipelines_started. simpl. by destruct (String.eqb user u). }
  assert (Hsv0 : service w0 = service w) by reflexivity.
  clearbody w0.
  assert (Hrel : forall w' : World G, pipelines_started u (events w') = pipelines_started u (events w0) ->
                            service w' = service w ->
          pipelines_started u (events (release user w'))
            = pipelines_started u (events w) + (if String.eqb user u then 1 else 0) /\
          scheduled (service (release user w')) = scheduled (service w) /\
          active_generations (service (release user w'))
            = active_generations (service w) ∖ {[user]}).
  { intros w' He Hs. unfold release. simpl. rewrite He, Hw0, Hs. done. }
  assert (Hexc : forall w' : World G, pipelines_started u (events w') = pipelines_started u (events w0) ->
                            service w' = service w ->
          pipelines_started u (events (on_exception env now user w'))
            = pipelines_started u (events w0) /\
          service (on_exception env now user w') = service w).
  { intros w' He Hs. destruct (on_exception_frame env now user w' u) as [-> ->]. done. }
  destruct (user_sessions w0 !! user) as [session|].
  2:{ apply Hrel; apply Hexc; auto. }
  pose proof (deliver_event_not_start user (gateway w0)
                (confirmation_msg (CopyGenerationRequest.from_session user session)) u) as He1.
  destruct (deliver user (gateway w0) _) as [[g1 o1] e1]. simpl in He1.
  assert (Hack : pipelines_started u (events w0 ++ [e1]) = pipelines_started u (events w0))
    by (rewrite pipelines_started_app, He1; lia).
  destruct o1 as [|err1].
  2:{ apply Hrel; apply Hexc; simpl; auto. }
  destruct (SessionService.initialize_session _ _ _) as [sessions2 current_session].
  destruct (decide (workflow_step current_session = generating_copy)) as [Hstep|Hstep].
  2:{ apply Hrel; simpl; auto. }
  destruct (CopyGenerationRequest.has_valid_context _).
  2:{ apply Hrel; apply Hexc; simpl; auto. }
  destruct (CopyGenerationStep.handle current_session) as [[s' result] wrote].
  pose proof (deliver_event_not_start user g1 result u) as He3.
  destruct (deliver user g1 result) as [[g3 o3] e3]. simpl in He3.
  assert (Hres : pipelines_started u
                   (events w0 ++ [e1] ++
                    (if wrote then [ResultsWritten user current_session] else []) ++ [e3])
                 = pipelines_started u (events w0)).
  { rewrite !pipelines_started_app, He1, He3. destruct wrote; simpl; lia. }
  destruct o3 as [|err3].
  - apply Hrel; simpl; rewrite <- ?app_assoc; auto.
  - apply Hrel; apply Hexc; simpl; rewrite <- ?app_assoc; auto.
Qed.
End Background.

Section Coordinator.
Context {G : Type} `{Gateway G} `{GenerationService}.
Import BackgroundCopyService.

(** Running the event loop starts one pipeline per scheduled coroutine. *)
Lemma run_all_started env now u fuel : forall w : World G,
  pipelines_started u (events (run_all env now fuel w))
    = pipelines_started u (events w) + pending u (take fuel (scheduled (service w))).
Proof.
  induction fuel as [|k IH]; intros w.
  - simpl. rewrite take_0. unfold pending. simpl. lia.
  - simpl run_all. rewrite IH. unfold run_next.
    destruct (scheduled (service w)) as [|user rest] eqn:Hq.
    + rewrite Hq. rewrite !take_nil. reflexivity.
    + destruct (task_frame env now user
                  (mkWorld (user_sessions w) (gateway w)
                           (mkService (active_generations (service w)) rest) (events w)) u)
        as (-> & -> & _).
      simpl. unfold pending. simpl. rewrite (String.eqb_sym u user).
      destruct (String.eqb user u); simpl; lia.
Qed.

(** C4. [trigger(userId, session)] while a generation is marked active for
    that user is a no-op: the active set, the sessions, the gateway and the
    queue of coroutines are as before, so nothing is sent and no second
    pipeline starts.  Hence two triggers in a row for a user with no
    generation in flight leave one coroutine, and the event loop executes
    exactly one generation pipeline for that user. *)
Theorem duplicate_trigger_is_noop (user : string) :
  (forall (create_task_ok : bool) (w : World G),
      user ∈ active_generations (service w) ->
      trigger_background_copy_generation create_task_ok w user = w) /\
  (forall (create_task_ok : bool) env now fuel (w : World G),
      user ∉ active_generations (service w) ->
      pending user (scheduled (service w)) = 0 ->
      let once := trigger_background_copy_generation true w user in
      let twice := trigger_background_copy_generation create_task_ok once user in
      twice = once /\
      scheduled (service twice) = scheduled (service w) ++ [user] /\
      (length (scheduled (service twice)) <= fuel ->
       pipelines_started user (events (run_all env now fuel twice))
         = S (pipelines_started user (events w)))).
Proof.
  assert (Hnoop : forall (ok : bool) (w : World G),
             user ∈ active_generations (service w) ->
             trigger_background_copy_generation ok w user = w).
  { intros ok w Hin. unfold trigger_background_copy_generation, trigger.
    rewrite decide_True by exact Hin. by destruct w. }
  split; [exact Hnoop|].
  intros ok env now fuel w Hout Hpend once twice.
  assert (Honce : service once
                  = mkService ({[user]} ∪ active_generations (service w))
                              (scheduled (service w) ++ [user])).
  { subst once. unfold trigger_background_copy_generation, trigger. simpl.
    by rewrite decide_False by exact Hout. }
  assert (Htwice : twice = once).
  { subst twice. apply Hnoop. rewrite Honce. simpl. set_solver. }
  split; [exact Htwice|]. rewrite Htwice, Honce. simpl.
  split; [reflexivity|]. intros Hfuel.
  rewrite run_all_started, Honce. simpl.
  rewrite take_ge by exact Hfuel.
  unfold pending in *. rewrite List.filter_app, length_app, Hpend. simpl.
  rewrite String.eqb_refl. subst once. simpl. lia.
Qed.
End Coordinator.

(** Two triggers in a row for the owner, then the event loop. *)
Lemma duplicate_trigger_is_noop_witness :
  let once := BackgroundCopyService.trigger_background_copy_generation true
                (Scripted.idle_world Scripted.generating) Scripted.owner in
  Scripted.owner ∈ BackgroundCopyService.active_generations
                     (BackgroundCopyService.service once) /\
  BackgroundCopyService.trigger_background_copy_generation true once Scripted.owner = once /\
  BackgroundCopyService.pipelines_started Scripted.owner
    (BackgroundCopyService.events
       (@BackgroundCopyService.run_all _ _ Scripted.three_options
          BackgroundCopyService.quiet 9 1
          (BackgroundCopyService.trigger_background_copy_generation true once Scripted.owner)))
  = 1.
Proof.
  intros once.
  assert (Hin : Scripted.owner ∈ BackgroundCopyService.active_generations
                                   (BackgroundCopyService.service once)).
  { apply (bool_decide_unpack _). vm_compute. exact I. }
  split; [exact Hin|]. split.
  - exact (proj1 (@duplicate_trigger_is_noop _ _ Scripted.three_options Scripted.owner)
             true once Hin).
  - refine (proj2 (proj2 (proj2 (@duplicate_trigger_is_noop _ _ Scripted.three_options
                                   Scripted.owner)
                            true BackgroundCopyService.quiet 9%Z 1
                            (Scripted.idle_world Scripted.generating) _ eq_refl)) _).
    + apply (bool_decide_unpack _). vm_compute. exact I.
    + vm_compute. lia.
Defined.

Section StaleResults.
Context {G : Type} `{Gateway G} `{GenerationService}.
Import BackgroundCopyService.
#[local] Arguments SessionService.initialize_session : simpl never.

(** The step stores the options only when it reports so. *)
Lemma handle_unwritten (s : Session) :
  (CopyGenerationStep.handle s).2 = false -> (CopyGenerationStep.handle s).1.1 = s.
Proof.
  unfold CopyGenerationStep.handle.
  destruct (stats (campaign_data s)) as [st|]; [|done].
  destruct (negb _); [done|].
  destruct (generate_copy_options _ _ _) as [options|err]; [|done].
  destruct options as [|? [|? [|? ?]]]; simpl; discriminate.
Qed.

Lemma handle_written (s : Session) :
  (CopyGenerationStep.handle s).2 = true ->
  workflow_step (CopyGenerationStep.handle s).1.1 = copy_selection /\
  is_Some (copy_options (campaign_data (CopyGenerationStep.handle s).1.1)) /\
  is_Some (copy_styles (campaign_data (CopyGenerationStep.handle s).1.1)).
Proof.
  unfold CopyGenerationStep.handle.
  destruct (stats (campaign_data s)) as [st|]; [|done].
  destruct (negb _); [done|].
  destruct (generate_copy_options _ _ _) as [options|err]; [|done].
  destruct options as [|? [|? [|? ?]]]; simpl; intros _; eauto.
Qed.

Lemma deliver_not_write user (g : G) r : ~ is_write (deliver user g r).2.
Proof. unfold deliver. destruct (send_text_message g user r) as [g' [|e]]; simpl; tauto. Qed.

Lemma on_exception_events env now user (w : World G) :
  exists e, events (on_exception env now user w) = events w ++ [e] /\ ~ is_write e.
Proof.
  unfold on_exception.
  pose proof (deliver_not_write user (gateway w) GenerationRetry) as Hnw.
  destruct (deliver user (gateway w) GenerationRetry) as [[g' o] e]. simpl in Hnw.
  exists e. split; [|exact Hnw].
  destruct o; [destruct (SessionService.initialize_session _ _ _)|]; reflexivity.
Qed.

Lemma release_events user (w : World G) : events (release user w) = events w.
Proof. reflexivity. Qed.

Lemma release_sessions user (w : World G) : user_sessions (release user w) = user_sessions w.
Proof. reflexivity. Qed.

(** C9. A background generation task writes its results (copy options, copy
    styles, the step [copy_selection]) only into a session whose step is
    [generating_copy] at the moment of the write: it re-reads the session
    after its last suspension before the write and checks the step; the
    dict it then writes into is the one it has just read.  When the step is
    no longer [generating_copy], the write is abandoned: the stored sessions
    stay as read and nothing more is sent. *)
Theorem results_written_only_while_generating env now user (w : World G)
    (session : Session) :
  user_sessions w !! user = Some session ->
  let ack := confirmation_msg (CopyGenerationRequest.from_session user session) in
  let reread :=
    SessionService.initialize_session now user (during_ack env (user_sessions w)) in
  let w' := _generate_and_deliver_copy env now user w in
  (forall u before,
      ResultsWritten u before ∈ events w' ->
      ResultsWritten u before ∈ events w \/
      (u = user /\ before = reread.2 /\ workflow_step before = generating_copy /\
       (CopyGenerationStep.handle before).2 = true)) /\
  ((send_text_message (gateway w) user ack).2 = Returned ->
   workflow_step reread.2 <> generating_copy ->
   user_sessions w' = reread.1 /\
   events w' = events w ++ [PipelineStarted user; Sent user ack]).
Proof.
  intros Hs ack reread w'. subst w'.
  assert (Hreread : SessionService.initialize_session now user
                      (during_ack env (user_sessions w)) = reread) by reflexivity.
  clearbody reread. unfold _generate_and_deliver_copy.
  cbn [user_sessions gateway service events]. rewrite Hs. fold ack.
  pose proof (deliver_not_write user (gateway w) ack) as Hnw1.
  pose proof (deliver_fst user (gateway w) ack) as Hfst1.
  destruct (deliver user (gateway w) ack) as [[g1 o1] e1] eqn:Hd1.
  cbn [fst snd] in Hnw1, Hfst1. cbn [user_sessions gateway service events].
  destruct o1 as [|err1].
  - (* the acknowledgment was delivered *)
    rewrite Hreread. destruct reread as [sessions2 current_session]. cbn [fst snd].
    assert (He1 : e1 = Sent user ack).
    { unfold deliver in Hd1. rewrite <- Hfst1 in Hd1. cbn in Hd1. congruence. }
    destruct (decide (workflow_step current_session = generating_copy)) as [Hstep|Hstep].
    + split; [|intros _ Hne; exfalso; apply Hne; exact Hstep].
      destruct (CopyGenerationRequest.has_valid_context _).
      * destruct (CopyGenerationStep.handle current_session) as [[s' result] wrote] eqn:Hh.
        pose proof (deliver_not_write user g1 result) as Hnw3.
        destruct (deliver user g1 result) as [[g3 o3] e3]. cbn [snd] in Hnw3.
        cbn [user_sessions gateway service events].
        assert (Hmid : forall u before,
                  ResultsWritten u before ∈
                    ((events w ++ [PipelineStarted user]) ++ [e1]) ++
                    (if wrote then [ResultsWritten user current_session] else []) ++ [e3] ->
                  ResultsWritten u before ∈ events w \/
                  (u = user /\ before = current_session /\
                   workflow_step before = generating_copy /\
                   (CopyGenerationStep.handle before).2 = true)).
        { intros u before Hin.
          rewrite !elem_of_app, !list_elem_of_singleton in Hin.
          destruct Hin as [[[Hin|Hin]|Hin]|[Hin|Hin]]; subst; cbn in *;
            try tauto; try discriminate.
          destruct wrote; [|by apply elem_of_nil in Hin].
          apply list_elem_of_singleton in Hin. injection Hin as -> ->.
          right. rewrite Hh. auto. }
        destruct o3 as [|err3].
        -- rewrite release_events. cbn [events]. exact Hmid.
        -- rewrite release_events.
           match goal with |- context [on_exception env now user ?w3] =>
             destruct (on_exception_events env now user w3) as (e & -> & Hnw)
           end.
           cbn [events]. intros u before Hin. apply elem_of_app in Hin as [Hin|Hin].
           ++ apply Hmid. exact Hin.
           ++ apply list_elem_of_singleton in Hin. subst e. by destruct Hnw.
      * rewrite release_events.
        match goal with |- context [on_exception env now user ?w3] =>
          destruct (on_exception_events env now user w3) as (e & -> & Hnw)
        end.
        cbn [events]. intros u before Hin.
        rewrite !elem_of_app, !list_elem_of_singleton in Hin.
        destruct Hin as [[[Hin|Hin]|Hin]|Hin]; subst; cbn in *;
          try tauto; try discriminate.
    + split.
      * rewrite release_events. cbn [events]. intros u before Hin.
        rewrite !elem_of_app, !list_elem_of_singleton in Hin.
        destruct Hin as [[Hin|Hin]|Hin]; subst; cbn in *; try tauto; discriminate.
      * intros _ _. rewrite release_events, release_sessions.
        cbn [events user_sessions]. rewrite <- app_assoc, He1. split; reflexivity.
  - (* the acknowledgment raised *)
    split.
    + rewrite release_events.
      match goal with |- context [on_exception env now user ?w3] =>
        destruct (on_exception_events env now user w3) as (e & -> & Hnw)
      end.
      cbn [events]. intros u before Hin.
      rewrite !elem_of_app, !list_elem_of_singleton in Hin.
      destruct Hin as [[[Hin|Hin]|Hin]|Hin]; subst; cbn in *;
        try tauto; try discriminate.
    + intros Hret. rewrite <- Hfst1 in Hret. cbn in Hret. discriminate.
Qed.
End StaleResults.

(** Two runs of the task on the owner's session at [generating_copy], the
    gateway delivering every message.  When nobody interferes, the options
    are written, into the session re-read at [generating_copy].  When the
    owner has moved on to [custom_message] while the acknowledgement was in
    flight, the write is abandoned: the store is as re-read, with the step
    [custom_message], nothing is written and nothing more is sent. *)
Lemma results_written_only_while_generating_witness :
  let w := Scripted.idle_world Scripted.generating in
  let ack := BackgroundCopyService.confirmation_msg
               (CopyGenerationRequest.from_session Scripted.owner Scripted.generating) in
  let task env :=
    @BackgroundCopyService._generate_and_deliver_copy _ _ Scripted.three_options
       env 9 Scripted.owner w in
  let reread env :=
    SessionService.initialize_session 9 Scripted.owner
      (BackgroundCopyService.during_ack env (BackgroundCopyService.user_sessions w)) in
  BackgroundCopyService.user_sessions w !! Scripted.owner = Some Scripted.generating /\
  ((exists before,
      BackgroundCopyService.ResultsWritten Scripted.owner before
        ∈ BackgroundCopyService.events (task BackgroundCopyService.quiet)) /\
   (forall u before,
      BackgroundCopyService.ResultsWritten u before
        ∈ BackgroundCopyService.events (task BackgroundCopyService.quiet) ->
      u = Scripted.owner /\
      before = (reread BackgroundCopyService.quiet).2 /\
      workflow_step before = generating_copy)) /\
  ((send_text_message (BackgroundCopyService.gateway w) Scripted.owner ack).2 = Returned /\
   workflow_step (reread Fixtures.moved_on).2 = custom_message /\
   workflow_step (reread Fixtures.moved_on).2 <> generating_copy) /\
  (BackgroundCopyService.user_sessions (task Fixtures.moved_on)
     = (reread Fixtures.moved_on).1 /\
   BackgroundCopyService.events (task Fixtures.moved_on)
     = [BackgroundCopyService.PipelineStarted Scripted.owner;
        BackgroundCopyService.Sent Scripted.owner ack] /\
   workflow_step <$> (BackgroundCopyService.user_sessions (task Fixtures.moved_on)
                        !! Scripted.owner) = Some custom_message /\
   copy_options <$> (campaign_data
                       <$> (BackgroundCopyService.user_sessions (task Fixtures.moved_on)
                              !! Scripted.owner)) = Some None).
Proof.
  cbv zeta.
  assert (Hs : BackgroundCopyService.user_sessions (Scripted.idle_world Scripted.generating)
                 !! Scripted.owner = Some Scripted.generating)
    by (vm_compute; reflexivity).
  assert (Hack : (send_text_message
                    (BackgroundCopyService.gateway (Scripted.idle_world Scripted.generating))
                    Scripted.owner
                    (BackgroundCopyService.confirmation_msg
                       (CopyGenerationRequest.from_session Scripted.owner
                          Scripted.generating))).2 = Returned) by reflexivity.
  assert (Hmoved : workflow_step
                     (SessionService.initialize_session 9 Scripted.owner
                        (BackgroundCopyService.during_ack Fixtures.moved_on
                           (BackgroundCopyService.user_sessions
                              (Scripted.idle_world Scripted.generating)))).2
                   = custom_message) by (vm_compute; reflexivity).
  assert (Hne : workflow_step
                  (SessionService.initialize_session 9 Scripted.owner
                     (BackgroundCopyService.during_ack Fixtures.moved_on
                        (BackgroundCopyService.user_sessions
                           (Scripted.idle_world Scripted.generating)))).2
                <> generating_copy) by (rewrite Hmoved; discriminate).
  split; [exact Hs|]. split; [split|split; [by repeat split|]].
  - eexists. vm_compute. do 2 apply list_elem_of_further. apply list_elem_of_here.
  - intros u before Hin.
    destruct (proj1 (@results_written_only_while_generating _ _ Scripted.three_options
                       BackgroundCopyService.quiet 9 Scripted.owner
                       (Scripted.idle_world Scripted.generating) Scripted.generating Hs)
                u before Hin) as [Hold|(Hu & Hb & Hstep & _)].
    + cbn in Hold. by apply elem_of_nil in Hold.
    + by repeat split.
  - destruct (proj2 (@results_written_only_while_generating _ _ Scripted.three_options
                       Fixtures.moved_on 9 Scripted.owner
                       (Scripted.idle_world Scripted.generating) Scripted.generating Hs)
                Hack Hne) as [Hstore Hevents].
    split; [exact Hstore|]. split; [exact Hevents|].
    rewrite Hstore. split; vm_compute; reflexivity.
Defined.

(** ** A generation that fails inside the step *)

(** C3, at an input where the code departs from it.  The owner waits at
    [generating_copy] with a text description, the gateway delivers every
    message and the model call of the generation service raises.
    [CopyGenerationStep.handle] turns the exception into its own error text,
    so the task sees no failure: it delivers that text, not the retry
    message, and the step stays [generating_copy]. *)
Theorem generation_failure_leaves_generating_copy :
  let w' := @BackgroundCopyService._generate_and_deliver_copy _ _
              Scripted.failing_generation BackgroundCopyService.quiet 9
              Scripted.owner (Scripted.idle_world Scripted.generating) in
  workflow_step <$> (BackgroundCopyService.user_sessions w' !! Scripted.owner)
    = Some generating_copy /\
  BackgroundCopyService.events w'
    = [BackgroundCopyService.PipelineStarted Scripted.owner;
       BackgroundCopyService.Sent Scripted.owner
         (DescriptionReceived (Some "oferta de 20% em limpeza dental"));
       BackgroundCopyService.Sent Scripted.owner CopyStepError].
Proof. split; vm_compute; reflexivity. Qed.

(** The sibling path: when the task itself sees the failure (here the
    session has no context), the retry message is delivered and the step is
    put back to [csv_processed]. *)
Lemma missing_context_rolls_back :
  let waiting := mkSession Scripted.owner generating_copy
                   (campaign_data Scripted.uploaded) [] 0 in
  let w' := @BackgroundCopyService._generate_and_deliver_copy _ _
              Scripted.failing_generation BackgroundCopyService.quiet 9
              Scripted.owner (Scripted.idle_world waiting) in
  workflow_step <$> (BackgroundCopyService.user_sessions w' !! Scripted.owner)
    = Some csv_processed /\
  BackgroundCopyService.events w'
    = [BackgroundCopyService.PipelineStarted Scripted.owner;
       BackgroundCopyService.Sent Scripted.owner ContextFound;
       BackgroundCopyService.Sent Scripted.owner GenerationRetry].
Proof. split; vm_compute; reflexivity. Qed.

(** ** Routing after the upload *)

Section Routing.
Context `{FileProcessingService}.
Import PostCSVOptionsStep.

Lemma not_image_upload message :
  is_image_upload message = false ->
  (if String.eqb (message_type message) "image" then m_media message else None) = None.
Proof.
  unfold is_image_upload. destruct (String.eqb _ _); [|done].
  destruct (m_media message) as [media|]; [|done].
  intros Hf. cbn in Hf. first [discriminate | rewrite bool_decide_true in Hf by eauto; discriminate].
Qed.

(** The [if]/[elif] chain is the first match in [source_order]. *)
Lemma handle_first_match now message s :
  is_image_upload message = false ->
  handle now message s
    = respond (first_match source_order (normalized_text message)) now
              (normalized_text message) s.
Proof.
  intros Himg. unfold handle. rewrite (not_image_upload _ Himg).
  unfold first_match, source_order. simpl.
  repeat match goal with
         | |- context [if ?b then _ else _] => destruct b; simpl; try reflexivity
         end.
Qed.

(** C6, as amended.  In the [csv_processed] step a text is routed by the
    first match in the fixed order custom message, direct send, AI
    generation, free-text context fallback, skip request ("pular"), status
    query, options menu; in particular a text with both a custom-message
    keyword and a direct-send keyword is routed as custom message. *)
Theorem text_routing_order now message s :
  is_image_upload message = false ->
  handle now message s
    = respond (first_match source_order (normalized_text message)) now
              (normalized_text message) s /\
  (_is_custom_message_intent (normalized_text message) = true ->
   handle now message s = on_custom now s /\
   workflow_step (session (handle now message s)) = custom_message /\
   reply (handle now message s) = Some AskCustomMessage).
Proof.
  intros Himg. split; [by apply handle_first_match|].
  intros Hcustom. rewrite (handle_first_match now message s Himg).
  unfold first_match, source_order. simpl. rewrite Hcustom. simpl. auto.
Qed.
End Routing.

(** "personalizada" and "direto" in one text: custom message wins. *)
Lemma text_routing_order_witness :
  let message := Scripted.text_message Scripted.owner "Personalizada, mas direto" in
  PostCSVOptionsStep.is_image_upload message = false /\
  PostCSVOptionsStep._is_direct_send_intent (normalized_text message) = true /\
  @PostCSVOptionsStep.handle Scripted.no_images 7 message Scripted.uploaded
    = PostCSVOptionsStep.on_custom 7 Scripted.uploaded.
Proof.
  intros message. split; [reflexivity|]. split; [reflexivity|].
  exact (proj1 (proj2 (@text_routing_order Scripted.no_images 7 message
                         Scripted.uploaded eq_refl) eq_refl)).
Defined.

(** C6 as stated fails: the order of the specification has no skip request,
    so it sends "pular status" to the status query, while the code answers
    the skip text. *)
Lemma text_routing_specified_order_counterexample :
  let message := Scripted.text_message Scripted.owner "pular status" in
  PostCSVOptionsStep.is_image_upload message = false /\
  PostCSVOptionsStep.first_match PostCSVOptionsStep.specified_order
    (normalized_text message) = PostCSVOptionsStep.StatusQuery /\
  PostCSVOptionsStep.reply
    (@PostCSVOptionsStep.handle Scripted.no_images 7 message Scripted.uploaded)
    = Some SkipAICopy /\
  @PostCSVOptionsStep.handle Scripted.no_images 7 message Scripted.uploaded
    <> PostCSVOptionsStep.respond
         (PostCSVOptionsStep.first_match PostCSVOptionsStep.specified_order
            (normalized_text message))
         7 (normalized_text message) Scripted.uploaded.
Proof.
  intros message. split; [reflexivity|]. split; [reflexivity|]. split; [reflexivity|].
  vm_compute. discriminate.
Qed.

(** ** Contact extraction *)

Section Extraction.
Import Base64FileHandler.

Lemma existsb_eqb_In (x : string) (l : list string) :
  existsb (String.eqb x) l = true <-> In x l.
Proof.
  rewrite existsb_exists. split.
  - intros (y & Hy & Heq). apply String.eqb_eq in Heq. by subst.
  - intros Hin. exists x. split; [exact Hin | apply String.eqb_refl].
Qed.

Lemma fromkeys_from_spec seen l :
  NoDup (fromkeys_from seen l) /\
  forall x, In x (fromkeys_from seen l) <-> In x l /\ ~ In x seen.
Proof.
  revert seen. induction l as [|y t IH]; intros seen; simpl.
  - split; [constructor | intros x; tauto].
  - destruct (existsb (String.eqb y) seen) eqn:Hy.
    + apply existsb_eqb_In in Hy. destruct (IH seen) as [Hnd Hin].
      split; [exact Hnd|]. intros x. rewrite Hin. split; [tauto|].
      intros [[<-|Hx] Hns]; [contradiction | tauto].
    + assert (Hny : ~ In y seen).
      { intros Hin. apply existsb_eqb_In in Hin. congruence. }
      destruct (IH (y :: seen)) as [Hnd Hin]. split.
      * apply NoDup_cons. split; [|exact Hnd].
        rewrite list_elem_of_In, Hin. simpl. tauto.
      * intros x. simpl. rewrite Hin. simpl. split.
        -- intros [<-|[Hx Hns]]; tauto.
        -- intros [[<-|Hx] Hns]; [tauto|].
           destruct (String.eqb_spec y x) as [->|Hne]; [tauto|]. right. tauto.
Qed.

(** The tabular path keeps one record per raw value. *)
Lemma tabular_path_deduplicates `{TabularParser} (file_data : string) df :
  read_csv file_data = inl df -> df <> [] ->
  NoDup (raw <$> (extract_phone_numbers_from_csv file_data).1).
Proof.
  intros Hread Hdf. unfold extract_phone_numbers_from_csv. rewrite Hread.
  assert (Hraw : forall l : list string, raw <$> (unvalidated <$> l) = l).
  { intros l. induction l as [|x l IH]; [done|].
    rewrite !fmap_cons, IH. reflexivity. }
  destruct (_find_phone_columns df) as [|c cs]; [destruct df as [|first rest]; [done|]|];
    cbn [fst]; rewrite Hraw; apply fromkeys_from_spec.
Qed.
End Extraction.

(** C7, at an input where the code departs from it.  The parser rejects the
    file (its rows have more fields than the header), so extraction goes
    through the line-splitting fallback, which keeps every line: the number
    listed twice gives two records with the same [raw]. *)
Theorem fallback_path_keeps_duplicates :
  let file_data := PyStr.join_lines ["telefone"; "11987654321,Ana"; "21987654321,Bia";
                                      "11987654321,Ana"] in
  let records :=
    (@ContactNormalizer.process_csv_upload string Scripted.br_numbers
       Scripted.rejecting_parser file_data).1 in
  raw <$> records = ["11987654321"; "21987654321"; "11987654321"] /\
  ~ NoDup (raw <$> records).
Proof.
  intros file_data records.
  assert (Hraw : raw <$> records = ["11987654321"; "21987654321"; "11987654321"])
    by (vm_compute; reflexivity).
  split; [exact Hraw|]. rewrite Hraw. intros Hnd.
  apply NoDup_cons in Hnd as [Hnotin _]. apply Hnotin.
  apply list_elem_of_In. simpl. auto.
Qed.

(** ** Phone normalisation *)

Section DigitStrings.
Import PyStr.

Lemma all_chars_impl (f g : ascii -> bool) (s : string) :
  (forall c, f c = true -> g c = true) -> all_chars f s = true -> all_chars g s = true.
Proof.
  intros Hfg. induction s as [|c t IH]; [done|]. simpl.
  intros [Hc Ht]%andb_prop. by rewrite (Hfg c Hc), IH.
Qed.

Lemma digit_not_continuation c : is_digit c = true -> negb (is_continuation c) = true.
Proof. destruct c as [[] [] [] [] [] [] [] []]; vm_compute; congruence. Qed.

Lemma digit_is_not c0 c :
  is_digit c0 = false -> is_digit c = true -> negb (Ascii.eqb c0 c) = true.
Proof.
  intros H0 Hc. destruct (Ascii.eqb_spec c0 c) as [->|]; [congruence | reflexivity].
Qed.

Lemma len_plain (s : string) :
  all_chars (fun c => negb (is_continuation c)) s = true -> len s = String.length s.
Proof.
  induction s as [|c t IH]; [done|]. simpl. intros [Hc Ht]%andb_prop.
  apply negb_true_iff in Hc. rewrite Hc. by rewrite IH.
Qed.

Lemma take_conts_plain (s : string) :
  all_chars (fun c => negb (is_continuation c)) s = true -> take_conts s = "".
Proof.
  destruct s as [|c t]; [done|]. simpl. intros [Hc _]%andb_prop.
  apply negb_true_iff in Hc. by rewrite Hc.
Qed.

Lemma drop_conts_plain (s : string) :
  all_chars (fun c => negb (is_continuation c)) s = true -> drop_conts s = s.
Proof.
  destruct s as [|c t]; [done|]. simpl. intros [Hc _]%andb_prop.
  apply negb_true_iff in Hc. by rewrite Hc.
Qed.

(** Replacing a character that does not occur changes nothing. *)
Lemma replace_absent (c0 : ascii) (new s : string) :
  all_chars (fun c => negb (Ascii.eqb c0 c)) s = true ->
  replace (String c0 "") new s = s.
Proof.
  unfold replace. induction s as [|c t IH]; [done|]. simpl.
  intros [Hc Ht]%andb_prop. apply negb_true_iff in Hc. rewrite Hc. by rewrite IH.
Qed.

Lemma replace_leading (c0 : ascii) (s : string) :
  replace (String c0 "") "" (String c0 s) = replace (String c0 "") "" s.
Proof.
  unfold replace. cbn [replace_from startswith]. rewrite Ascii.eqb_refl.
  destruct s; reflexivity.
Qed.

Lemma replace_digits (c0 : ascii) (new s : string) :
  is_digit c0 = false -> all_chars is_digit s = true ->
  replace (String c0 "") new s = s.
Proof.
  intros H0 Hs. apply replace_absent.
  eapply all_chars_impl; [|exact Hs]. intros c. by apply digit_is_not.
Qed.

Lemma len_digits (s : string) : all_chars is_digit s = true -> len s = String.length s.
Proof.
  intros Hs. apply len_plain. eapply all_chars_impl; [|exact Hs].
  apply digit_not_continuation.
Qed.
End DigitStrings.

Section LegacyRepair.
Context {P : Type} `{PhoneNumbersLib P}.
Import PhoneValidator.

Lemma mobile_area_code_shape (aa : string) :
  In aa mobile_area_codes ->
  exists a1 a2, aa = String a1 (String a2 "") /\
                PyStr.is_digit a1 = true /\ PyStr.is_digit a2 = true /\
                Ascii.eqb "0" a1 = false.
Proof.
  unfold mobile_area_codes. simpl.
  intros Hin. repeat (destruct Hin as [<-|Hin]; [eexists _, _; repeat split; reflexivity|]).
  contradiction.
Qed.

(** What [_clean_phone_number] makes of area code + eight digits. *)
Lemma clean_local_legacy (raw_phone aa n8 : string) :
  In aa mobile_area_codes ->
  String.length n8 = 8 -> PyStr.all_chars PyStr.is_digit n8 = true ->
  remove_separators (PyStr.strip raw_phone) = (aa ++ n8)%string ->
  _clean_phone_number raw_phone = ("+55" ++ aa ++ "9" ++ n8)%string.
Proof.
  intros Haa Hlen Hdig Hclean.
  destruct (mobile_area_code_shape aa Haa) as (a1 & a2 & -> & Ha1 & Ha2 & Hzero).
  assert (Hplain : PyStr.all_chars (fun c => negb (PyStr.is_continuation c)) n8 = true).
  { eapply all_chars_impl; [|exact Hdig]. apply digit_not_continuation. }
  pose proof (digit_not_continuation a1 Ha1) as Hc1. apply negb_true_iff in Hc1.
  pose proof (digit_not_continuation a2 Ha2) as Hc2. apply negb_true_iff in Hc2.
  change (String a1 (String a2 "") ++ n8)%string with (String a1 (String a2 n8)) in Hclean.
  change ("+55" ++ String a1 (String a2 "") ++ "9" ++ n8)%string
    with (String "+" (String "5" (String "5" (String a1 (String a2 (String "9" n8)))))).
  unfold _clean_phone_number.
  destruct raw_phone as [|r0 rest]; [vm_compute in Hclean; discriminate|].
  cbn [String.eqb]. cbv zeta. rewrite Hclean.
  assert (Hl : PyStr.len (String a1 (String a2 n8)) = 10).
  { cbn [PyStr.len]. rewrite Hc1, Hc2.
    rewrite (len_plain n8 Hplain), Hlen. reflexivity. }
  rewrite Hl. cbn [Nat.eqb]. rewrite andb_false_r. cbn [andb].
  cbn [PyStr.startswith]. rewrite Hzero. cbn [negb].
  cbn [PyStr.take PyStr.drop PyStr.take_conts PyStr.drop_conts].
  rewrite Hc2. cbn [PyStr.take PyStr.drop].
  rewrite (take_conts_plain n8 Hplain), (drop_conts_plain n8 Hplain).
  reflexivity.
Qed.

(** The later repair leaves such a cleaned number alone: it already has
    thirteen digits. *)
Lemma fix_leaves_canonical (aa n8 : string) :
  In aa mobile_area_codes ->
  String.length n8 = 8 -> PyStr.all_chars PyStr.is_digit n8 = true ->
  _fix_brazilian_legacy_mobile ("+55" ++ aa ++ "9" ++ n8)%string
    = ("+55" ++ aa ++ "9" ++ n8)%string.
Proof.
  intros Haa Hlen Hdig.
  destruct (mobile_area_code_shape aa Haa) as (a1 & a2 & -> & Ha1 & Ha2 & _).
  set (digits := String "5" (String "5" (String a1 (String a2 (String "9" n8))))).
  assert (Hd : PyStr.all_chars PyStr.is_digit digits = true).
  { subst digits. cbn [PyStr.all_chars]. rewrite Ha1, Ha2, Hdig. reflexivity. }
  change ("+55" ++ String a1 (String a2 "") ++ "9" ++ n8)%string with (String "+" digits).
  unfold _fix_brazilian_legacy_mobile. cbn [String.eqb].
  assert (Hplus : PyStr.replace "+" "" (String "+" digits) = digits).
  { rewrite replace_leading. by apply replace_digits. }
  rewrite Hplus, (replace_digits "-" "" digits eq_refl Hd),
    (replace_digits " " "" digits eq_refl Hd).
  rewrite (len_digits digits Hd). subst digits. cbn [String.length]. rewrite Hlen.
  cbn [Nat.eqb]. rewrite andb_false_r. reflexivity.
Qed.

(** C8. For a raw Brazilian local number that lacks the ninth mobile digit
    (a known mobile area code followed by eight digits, with or without
    separators), under the default region BR, normalisation inserts the
    digit before validation, the resulting record is valid and its
    [formatted] value is the canonical E.164 text with the inserted digit.
    The [phonenumbers] library is assumed to parse the repaired number, to
    find it valid or at least possible, and to print it back in E.164. *)
Theorem legacy_local_number_is_repaired (raw_phone aa n8 : string) (parsed : P) :
  In aa mobile_area_codes ->
  String.length n8 = 8 -> PyStr.all_chars PyStr.is_digit n8 = true ->
  remove_separators (PyStr.strip raw_phone) = (aa ++ n8)%string ->
  parse ("+55" ++ aa ++ "9" ++ n8)%string "BR" = inl parsed ->
  is_valid_number parsed = true \/ is_possible_number parsed = true ->
  format_e164 parsed = ("+55" ++ aa ++ "9" ++ n8)%string ->
  _clean_phone_number raw_phone = ("+55" ++ aa ++ "9" ++ n8)%string /\
  is_valid (validate_phone_number "BR" raw_phone) = true /\
  formatted (validate_phone_number "BR" raw_phone) = ("+55" ++ aa ++ "9" ++ n8)%string /\
  raw (validate_phone_number "BR" raw_phone) = raw_phone.
Proof.
  intros Haa Hlen Hdig Hclean Hparse Hok Hfmt.
  pose proof (clean_local_legacy raw_phone aa n8 Haa Hlen Hdig Hclean) as Hc.
  split; [exact Hc|].
  unfold validate_phone_number. cbv zeta. rewrite Hc, Hparse.
  destruct (is_valid_number parsed) eqn:Hvalid.
  - cbn. rewrite Hfmt. auto.
  - unfold try_legacy_fix.
    change (whatsapp_compatible "BR" && auto_fix_legacy "BR" && String.eqb "BR" "BR")
      with true. cbv iota.
    rewrite (fix_leaves_canonical aa n8 Haa Hlen Hdig), String.eqb_refl.
    destruct Hok as [Hv|Hposs]; [congruence|].
    change (whatsapp_compatible "BR") with true. rewrite Hposs.
    cbn. rewrite Hfmt. auto.
Qed.
End LegacyRepair.

(** "(11) 8765-4321" becomes +55 11 9 8765 4321. *)
Lemma legacy_local_number_is_repaired_witness :
  In "11" PhoneValidator.mobile_area_codes /\
  String.length "87654321" = 8 /\
  PyStr.all_chars PyStr.is_digit "87654321" = true /\
  PhoneValidator.remove_separators (PyStr.strip "(11) 8765-4321") = "1187654321" /\
  is_valid (PhoneValidator.validate_phone_number "BR" "(11) 8765-4321") = true /\
  formatted (PhoneValidator.validate_phone_number "BR" "(11) 8765-4321")
    = "+5511987654321".
Proof.
  split; [simpl; auto|]. split; [reflexivity|]. split; [reflexivity|].
  split; [reflexivity|].
  pose proof (@legacy_local_number_is_repaired string Scripted.br_numbers
                "(11) 8765-4321" "11" "87654321" "11987654321"
                (or_introl eq_refl) eq_refl eq_refl eq_refl eq_refl
                (or_introl eq_refl) eq_refl) as (_ & Hvalid & Hfmt & _).
  split; [exact Hvalid | exact Hfmt].
Defined.

(** * Further properties *)

(** ** Session store *)

Section SessionStoreFacts.
Import SessionStore.

(** X1. [initialize_session] gives back the dict that is in the store under
    the user's key, stamped with the current time; an existing session keeps
    its step, campaign data and history, a new one starts at [welcome] with
    empty data; no other user's session is touched. *)
Theorem initialize_session_keeps_state (now : Z) (user : string)
    (m : gmap string Session) :
  let r := SessionService.initialize_session now user m in
  r.1 !! user = Some r.2 /\
  (forall u, u <> user -> r.1 !! u = m !! u) /\
  last_interaction r.2 = now /\
  match m !! user with
  | Some old =>
      workflow_step r.2 = workflow_step old /\
      campaign_data r.2 = campaign_data old /\
      conversation_history r.2 = conversation_history old /\
      user_phone r.2 = user_phone old
  | None => r.2 = SessionService.new_session user now
  end.
Proof.
  unfold SessionService.initialize_session. cbn [fst snd].
  split; [apply lookup_insert_eq|]. split.
  - intros u Hu. by rewrite lookup_insert_ne.
  - split; [reflexivity|]. destruct (m !! user) as [old|]; simpl; auto.
Qed.

Lemma NoDup_fst_filter {A B : Type} (f : A * B -> bool) (l : list (A * B)) :
  NoDup (fst <$> l) -> NoDup (fst <$> List.filter f l).
Proof.
  induction l as [|x l IH]; [done|]. rewrite fmap_cons. intros Hnd.
  apply NoDup_cons in Hnd as [Hx Hnd]. simpl. destruct (f x); [|by apply IH].
  rewrite fmap_cons. apply NoDup_cons. split; [|by apply IH].
  intros Hin. apply Hx. apply list_elem_of_fmap in Hin as (y & Hy & Hin).
  apply list_elem_of_fmap. exists y. split; [exact Hy|].
  apply list_elem_of_In, filter_In in Hin. apply list_elem_of_In. tauto.
Qed.

Lemma size_foldr_delete (m : gmap string Session) (ks : list string) :
  NoDup ks -> Forall (fun k => is_Some (m !! k)) ks ->
  size m = size (foldr delete m ks) + length ks.
Proof.
  induction ks as [|k ks IH]; intros Hnd Hall; [simpl; lia|].
  apply NoDup_cons in Hnd as [Hk Hnd]. apply Forall_cons in Hall as [Hsome Hall].
  simpl. rewrite (IH Hnd Hall).
  assert (Hlk : is_Some (foldr delete m ks !! k)).
  { by rewrite lookup_foldr_delete_not_elem_of. }
  rewrite (map_size_delete_Some _ _ Hlk). destruct Hlk as [x Hx].
  assert (size (foldr delete m ks) <> 0).
  { intros Hz. apply map_size_empty_inv in Hz. rewrite Hz in Hx.
    by rewrite lookup_empty in Hx. }
  lia.
Qed.

Lemma sessions_to_remove_spec (cutoff : Z) (m : gmap string Session) (u : string) :
  u ∈ sessions_to_remove cutoff m <->
  exists s, m !! u = Some s /\ (last_interaction s < cutoff)%Z.
Proof.
  unfold sessions_to_remove. rewrite list_elem_of_fmap. split.
  - intros ([k s] & -> & Hin). apply list_elem_of_In, filter_In in Hin as [Hin Hold].
    apply list_elem_of_In, elem_of_map_to_list in Hin. exists s. split; [exact Hin|].
    simpl in Hold. by apply Z.ltb_lt.
  - intros (s & Hs & Hold). exists (u, s). split; [reflexivity|].
    apply list_elem_of_In, filter_In. split.
    + apply list_elem_of_In, elem_of_map_to_list. exact Hs.
    + simpl. by apply Z.ltb_lt.
Qed.

(** X2. [cleanup_old_sessions] deletes exactly the sessions whose last
    interaction is older than [max_age_hours], leaves every other session as
    it is, and returns the number of sessions it deleted. *)
Theorem cleanup_removes_exactly_the_old (now hours : Z) (m : gmap string Session) :
  let cutoff := (now - hours * 3600)%Z in
  let r := cleanup_old_sessions now hours m in
  (forall u s, r.1 !! u = Some s <->
               m !! u = Some s /\ (cutoff <= last_interaction s)%Z) /\
  size m = size r.1 + r.2.
Proof.
  intros cutoff r. subst r. unfold cleanup_old_sessions. cbn [fst snd]. fold cutoff.
  split.
  - intros u s. rewrite lookup_foldr_delete_Some, sessions_to_remove_spec. split.
    + intros [Hnot Hs]. split; [exact Hs|].
      destruct (Z.le_gt_cases cutoff (last_interaction s)) as [|Hlt]; [done|].
      exfalso. apply Hnot. eauto.
    + intros [Hs Hrecent]. split; [|exact Hs].
      intros (s' & Hs' & Hold). rewrite Hs in Hs'. injection Hs' as <-. lia.
  - apply size_foldr_delete.
    + unfold sessions_to_remove. apply NoDup_fst_filter, NoDup_fst_map_to_list.
    + apply Forall_forall. intros k Hk. apply sessions_to_remove_spec in Hk as (s & -> & _).
      eauto.
Qed.

(** X3. After [clear_session] the next contact of that user starts over at
    [welcome] with empty campaign data and an empty history, while the other
    users keep their sessions. *)
Theorem clear_session_starts_over (now : Z) (user : string) (m : gmap string Session) :
  (SessionService.initialize_session now user (clear_session user m)).2
    = SessionService.new_session user now /\
  (forall u, u <> user -> clear_session user m !! u = m !! u) /\
  get_workflow_status user (clear_session user m)
    = (user, welcome, empty_campaign_data, None, false).
Proof.
  unfold clear_session, SessionService.initialize_session, get_workflow_status.
  rewrite lookup_delete_eq. cbn. split; [reflexivity|]. split; [|reflexivity].
  intros u Hu. by rewrite lookup_delete_ne.
Qed.
End SessionStoreFacts.

(** ** Phone validation *)

Section ValidatorFacts.
Context {P : Type} `{PhoneNumbersLib P}.
Import PhoneValidator.

(** X4. Every record of [validate_phone_number] keeps the string it was
    given as [raw]; it is valid exactly when it carries no error message, and
    an invalid record has no country code. *)
Theorem validated_record_is_consistent (region phone : string) :
  let r := validate_phone_number region phone in
  raw r = phone /\
  (is_valid r = true <-> error_message r = None) /\
  (is_valid r = false -> country_code r = None).
Proof.
  unfold validate_phone_number. cbv zeta.
  destruct (parse (_clean_phone_number phone) region) as [parsed|e];
    [|cbn; repeat split; intros; congruence].
  set (attempt := if is_valid_number parsed
                  then (parsed, true, _clean_phone_number phone)
                  else try_legacy_fix region (_clean_phone_number phone) parsed).
  destruct attempt as [[p v] c].
  destruct v; [cbn; repeat split; intros; congruence|].
  destruct (whatsapp_compatible region && is_possible_number p);
    cbn; repeat split; intros; congruence.
Qed.

(** X5. For a region that is not configured as WhatsApp-compatible (US, PT
    and every region without an entry), a number is accepted only when the
    library parses its cleaned form and finds it strictly valid; the record
    then carries the library's E.164 formatting. *)
Theorem strict_regions_accept_only_valid (region phone : string) :
  whatsapp_compatible region = false ->
  is_valid (validate_phone_number region phone) = true ->
  exists parsed,
    parse (_clean_phone_number phone) region = inl parsed /\
    is_valid_number parsed = true /\
    formatted (validate_phone_number region phone) = format_e164 parsed.
Proof.
  intros Hw. unfold validate_phone_number. cbv zeta.
  destruct (parse (_clean_phone_number phone) region) as [parsed|e]; [|cbn; discriminate].
  destruct (is_valid_number parsed) eqn:Hv.
  - cbn. intros _. eauto.
  - unfold try_legacy_fix. rewrite Hw. cbn. discriminate.
Qed.
End ValidatorFacts.

(** A Brazilian number in international form, validated under region PT. *)
Lemma strict_regions_accept_only_valid_witness :
  PhoneValidator.whatsapp_compatible "PT" = false /\
  is_valid (@PhoneValidator.validate_phone_number string Scripted.br_numbers
              "PT" "+55 11 98765-4321") = true /\
  exists parsed,
    @parse string Scripted.br_numbers
      (PhoneValidator._clean_phone_number "+55 11 98765-4321") "PT" = inl parsed /\
    @is_valid_number string Scripted.br_numbers parsed = true /\
    formatted (@PhoneValidator.validate_phone_number string Scripted.br_numbers
                 "PT" "+55 11 98765-4321")
      = @format_e164 string Scripted.br_numbers parsed.
Proof.
  split; [reflexivity|]. split; [reflexivity|].
  exact (@strict_regions_accept_only_valid string Scripted.br_numbers
           "PT" "+55 11 98765-4321" eq_refl eq_refl).
Defined.

Section CleanedText.
Import PyStr PhoneValidator.

Lemma all_chars_app (f : ascii -> bool) (s1 s2 : string) :
  all_chars f (s1 ++ s2) = all_chars f s1 && all_chars f s2.
Proof.
  induction s1 as [|c t IH]; [reflexivity|].
  change (String c t ++ s2)%string with (String c (t ++ s2)).
  cbn [all_chars]. rewrite IH. by rewrite andb_assoc.
Qed.

(** Removing a character leaves none of it and adds nothing. *)
Lemma replace_char_from (c0 : ascii) (s : string) :
  replace (String c0 "") "" s
  = match s with
    | EmptyString => EmptyString
    | String c t =>
        if Ascii.eqb c0 c then replace (String c0 "") "" t
        else String c (replace (String c0 "") "" t)
    end.
Proof.
  destruct s as [|c t]; [reflexivity|]. unfold replace. cbn [replace_from startswith].
  destruct (Ascii.eqb c0 c); [|reflexivity]. by destruct t.
Qed.

Lemma replace_removes (c0 : ascii) (s : string) :
  all_chars (fun c => negb (Ascii.eqb c0 c)) (replace (String c0 "") "" s) = true.
Proof.
  induction s as [|c t IH]; [reflexivity|]. rewrite replace_char_from.
  destruct (Ascii.eqb c0 c) eqn:Hc; [exact IH|]. cbn [all_chars]. by rewrite Hc, IH.
Qed.

Lemma replace_keeps (f : ascii -> bool) (c0 : ascii) (s : string) :
  all_chars f s = true -> all_chars f (replace (String c0 "") "" s) = true.
Proof.
  induction s as [|c t IH]; [done|]. rewrite replace_char_from. cbn [all_chars].
  intros [Hc Ht]%andb_prop. destruct (Ascii.eqb c0 c); [by apply IH|].
  cbn [all_chars]. by rewrite Hc, IH.
Qed.

Lemma all_chars_drop_conts f s : all_chars f s = true -> all_chars f (drop_conts s) = true.
Proof.
  induction s as [|c t IH]; [done|]. cbn [drop_conts all_chars]. intros Hs.
  destruct (is_continuation c); [|exact Hs]. apply andb_prop in Hs as [_ Ht]. by apply IH.
Qed.

Lemma all_chars_take_conts f s : all_chars f s = true -> all_chars f (take_conts s) = true.
Proof.
  induction s as [|c t IH]; [done|]. cbn [take_conts all_chars].
  intros [Hc Ht]%andb_prop. destruct (is_continuation c); [|reflexivity].
  cbn [all_chars]. by rewrite Hc, IH.
Qed.

Lemma all_chars_drop f n : forall s, all_chars f s = true -> all_chars f (drop n s) = true.
Proof.
  induction n as [|k IH]; intros s Hs; [exact Hs|]. destruct s as [|c t]; [done|].
  cbn [drop]. apply IH, all_chars_drop_conts. by apply andb_prop in Hs as [_ Ht].
Qed.

Lemma all_chars_take f n : forall s, all_chars f s = true -> all_chars f (take n s) = true.
Proof.
  induction n as [|k IH]; intros s Hs; [reflexivity|]. destruct s as [|c t]; [done|].
  cbn [take all_chars]. apply andb_prop in Hs as [Hc Ht]. rewrite Hc. cbn [andb].
  rewrite all_chars_app, (all_chars_take_conts f t Ht).
  by rewrite IH by (by apply all_chars_drop_conts).
Qed.

Lemma all_chars_and (f g : ascii -> bool) (s : string) :
  all_chars f s = true -> all_chars g s = true ->
  all_chars (fun c => f c && g c) s = true.
Proof.
  induction s as [|c t IH]; [done|]. cbn [all_chars].
  intros [Hf Hft]%andb_prop [Hg Hgt]%andb_prop. by rewrite Hf, Hg, IH.
Qed.

Lemma remove_separators_clean (s : string) :
  all_chars (fun c => negb (PhoneText.is_separator c)) (remove_separators s) = true.
Proof.
  unfold remove_separators.
  set (s1 := replace " " "" s). set (s2 := replace "-" "" s1).
  set (s3 := replace "(" "" s2). set (s4 := replace ")" "" s3).
  set (s5 := replace "." "" s4). set (s6 := replace "/" "" s5).
  assert (H1 : all_chars (fun c => negb (Ascii.eqb " " c)) s6 = true).
  { subst s6 s5 s4 s3 s2. do 5 apply replace_keeps. apply replace_removes. }
  assert (H2 : all_chars (fun c => negb (Ascii.eqb "-" c)) s6 = true).
  { subst s6 s5 s4 s3. do 4 apply replace_keeps. apply replace_removes. }
  assert (H3 : all_chars (fun c => negb (Ascii.eqb "(" c)) s6 = true).
  { subst s6 s5 s4. do 3 apply replace_keeps. apply replace_removes. }
  assert (H4 : all_chars (fun c => negb (Ascii.eqb ")" c)) s6 = true).
  { subst s6 s5. do 2 apply replace_keeps. apply replace_removes. }
  assert (H5 : all_chars (fun c => negb (Ascii.eqb "." c)) s6 = true).
  { subst s6. apply replace_keeps. apply replace_removes. }
  assert (H6 : all_chars (fun c => negb (Ascii.eqb "/" c)) s6 = true)
    by apply replace_removes.
  clearbody s6. clear s1 s2 s3 s4 s5.
  induction s6 as [|c t IH]; [reflexivity|]. cbn [all_chars] in *.
  apply andb_prop in H1 as [A1 B1]. apply andb_prop in H2 as [A2 B2].
  apply andb_prop in H3 as [A3 B3]. apply andb_prop in H4 as [A4 B4].
  apply andb_prop in H5 as [A5 B5]. apply andb_prop in H6 as [A6 B6].
  rewrite (IH B1 B2 B3 B4 B5 B6), andb_true_r.
  unfold PhoneText.is_separator, PhoneText.separators. cbn [existsb].
  rewrite (Ascii.eqb_sym c " "), (Ascii.eqb_sym c "-"), (Ascii.eqb_sym c "("),
    (Ascii.eqb_sym c ")"), (Ascii.eqb_sym c "."), (Ascii.eqb_sym c "/").
  apply negb_true_iff in A1, A2, A3, A4, A5, A6.
  by rewrite A1, A2, A3, A4, A5, A6.
Qed.

(** X6. Whatever the input, the text [_clean_phone_number] hands to the
    parser contains no space, dash, parenthesis, dot or slash. *)
Theorem cleaned_number_has_no_separator (phone : string) :
  all_chars (fun c => negb (PhoneText.is_separator c)) (_clean_phone_number phone) = true.
Proof.
  unfold _clean_phone_number. destruct (String.eqb phone ""); [reflexivity|]. cbv zeta.
  pose proof (remove_separators_clean (strip phone)) as Hc.
  set (cleaned := remove_separators (strip phone)) in *. clearbody cleaned.
  assert (Happ : forall pre : string,
             all_chars (fun c => negb (PhoneText.is_separator c)) pre = true ->
             all_chars (fun c => negb (PhoneText.is_separator c)) (pre ++ cleaned) = true).
  { intros pre Hpre. by rewrite all_chars_app, Hpre, Hc. }
  destruct (startswith "55" cleaned && _); [by apply Happ|].
  destruct ((len cleaned =? 11)%nat && _); [by apply Happ|].
  destruct ((len cleaned =? 10)%nat && _).
  - rewrite !all_chars_app, (all_chars_take _ 2 cleaned Hc), (all_chars_drop _ 2 cleaned Hc).
    reflexivity.
  - destruct (negb _ && _); [by apply Happ | exact Hc].
Qed.
End CleanedText.

Section LegacyFix.
Import PyStr PhoneValidator.

Lemma existsb_eqb_codes (aa : string) :
  existsb (String.eqb aa) mobile_area_codes = true -> In aa mobile_area_codes.
Proof.
  rewrite existsb_exists. intros (y & Hy & Heq). apply String.eqb_eq in Heq. by subst.
Qed.

Lemma app_cons (c : ascii) (s t : string) :
  (String c s ++ t)%string = String c (s ++ t).
Proof. reflexivity. Qed.

Lemma app_empty_l (t : string) : ("" ++ t)%string = t.
Proof. reflexivity. Qed.

Lemma app_assoc_str (a b c : string) : ((a ++ b) ++ c)%string = (a ++ (b ++ c))%string.
Proof.
  induction a as [|x a IH]; [reflexivity|]. rewrite !app_cons. by rewrite IH.
Qed.

Lemma take_drop_conts (s : string) : (take_conts s ++ drop_conts s)%string = s.
Proof.
  induction s as [|c t IH]; [reflexivity|]. cbn [take_conts drop_conts].
  destruct (is_continuation c); [|reflexivity]. by rewrite app_cons, IH.
Qed.

(** [s[:n] + s[n:] == s] *)
Lemma take_drop (n : nat) : forall s, (take n s ++ drop n s)%string = s.
Proof.
  induction n as [|k IH]; intros s; [reflexivity|]. destruct s as [|c t]; [reflexivity|].
  cbn [take drop]. rewrite app_cons, app_assoc_str, IH. by rewrite take_drop_conts.
Qed.

Lemma drop_drop (a b : nat) : forall s, drop (a + b) s = drop b (drop a s).
Proof.
  induction a as [|k IH]; intros s; [reflexivity|]. destruct s as [|c t].
  - cbn [Nat.add drop]. by destruct b.
  - cbn [Nat.add drop]. apply IH.
Qed.

(** The two ways out of [_fix_brazilian_legacy_mobile]. *)
Lemma fix_shape (phone : string) :
  _fix_brazilian_legacy_mobile phone = phone \/
  exists aa number,
    let clean := replace " " "" (replace "-" "" (replace "+" "" phone)) in
    In aa mobile_area_codes /\ len number = 8 /\ startswith "9" number = false /\
    startswith "55" clean = true /\ drop 2 clean = (aa ++ number)%string /\
    _fix_brazilian_legacy_mobile phone = ("+55" ++ aa ++ "9" ++ number)%string.
Proof.
  unfold _fix_brazilian_legacy_mobile.
  destruct (String.eqb phone ""); [by left|]. cbv zeta.
  set (clean := replace " " "" (replace "-" "" (replace "+" "" phone))).
  destruct (startswith "55" clean) eqn:H55; [|by left].
  destruct (len clean =? 12)%nat eqn:Hlen; [|by left]. cbn [andb].
  destruct (existsb _ mobile_area_codes) eqn:Hcode; [|by left].
  destruct (len (drop 4 clean) =? 8)%nat eqn:H8; [|by left].
  destruct (startswith "9" (drop 4 clean)) eqn:H9; [by left|]. cbn [andb negb].
  right. exists (take 2 (drop 2 clean)), (drop 4 clean).
  apply existsb_eqb_codes in Hcode. apply Nat.eqb_eq in H8.
  split; [exact Hcode|]. split; [exact H8|]. split; [exact H9|].
  split; [reflexivity|]. split; [|reflexivity].
  change (drop 4 clean) with (drop (2 + 2) clean).
  rewrite (drop_drop 2 2 clean). symmetry. apply take_drop.
Qed.

(** X7. [_fix_brazilian_legacy_mobile] either gives the number back
    unchanged or, for a number that reads 55, a known mobile area code and
    eight further characters not beginning with 9, gives it back with [+55]
    in front and a 9 inserted after the area code. *)
Theorem fix_changes_only_by_inserting (phone : string) :
  _fix_brazilian_legacy_mobile phone = phone \/
  exists aa number,
    let clean := replace " " "" (replace "-" "" (replace "+" "" phone)) in
    In aa mobile_area_codes /\ len number = 8 /\ startswith "9" number = false /\
    startswith "55" clean = true /\ drop 2 clean = (aa ++ number)%string /\
    _fix_brazilian_legacy_mobile phone = ("+55" ++ aa ++ "9" ++ number)%string.
Proof. exact (fix_shape phone). Qed.

Lemma len_cons_plain (c : ascii) (s : string) :
  is_continuation c = false -> len (String c s) = S (len s).
Proof. intros Hc. cbn [len]. by rewrite Hc. Qed.

(** X8. The repair is idempotent: a number it has repaired is not given a
    second 9. *)
Theorem fix_is_idempotent (phone : string) :
  _fix_brazilian_legacy_mobile (_fix_brazilian_legacy_mobile phone)
  = _fix_brazilian_legacy_mobile phone.
Proof.
  destruct (fix_shape phone)
    as [Hsame|(aa & number & Haa & Hlen & _ & _ & Hdrop & ->)]; [by rewrite !Hsame|].
  cbv zeta in Hdrop.
  assert (Hnum : forall c0, In c0 ["+"; "-"; " "]%char ->
             all_chars (fun c => negb (Ascii.eqb c0 c)) number = true).
  { intros c0 Hc0.
    assert (Hclean : all_chars (fun c => negb (Ascii.eqb c0 c))
                       (replace " " "" (replace "-" "" (replace "+" "" phone))) = true).
    { destruct Hc0 as [<-|[<-|[<-|[]]]].
      - do 2 apply replace_keeps. apply replace_removes.
      - apply replace_keeps. apply replace_removes.
      - apply replace_removes. }
    apply (all_chars_drop _ 2) in Hclean. rewrite Hdrop, all_chars_app in Hclean.
    by apply andb_prop in Hclean as [_ ?]. }
  destruct (mobile_area_code_shape aa Haa) as (a1 & a2 & -> & Ha1 & Ha2 & _).
  set (digits := String "5" (String "5" (String a1 (String a2 (String "9" number))))).
  change ("+55" ++ String a1 (String a2 "") ++ "9" ++ number)%string
    with (String "+" digits).
  assert (Hd : forall c0, In c0 ["+"; "-"; " "]%char ->
             all_chars (fun c => negb (Ascii.eqb c0 c)) digits = true).
  { intros c0 Hc0. subst digits. cbn [all_chars]. rewrite (Hnum c0 Hc0).
    assert (Hnd : is_digit c0 = false) by (destruct Hc0 as [<-|[<-|[<-|[]]]]; reflexivity).
    rewrite (digit_is_not c0 a1 Hnd Ha1), (digit_is_not c0 a2 Hnd Ha2).
    rewrite (digit_is_not c0 "5" Hnd eq_refl), (digit_is_not c0 "9" Hnd eq_refl).
    reflexivity. }
  unfold _fix_brazilian_legacy_mobile. cbn [String.eqb]. cbv zeta.
  rewrite replace_leading.
  rewrite (replace_absent "+" "" digits) by (apply Hd; simpl; auto).
  rewrite (replace_absent "-" "" digits) by (apply Hd; simpl; auto).
  rewrite (replace_absent " " "" digits) by (apply Hd; simpl; auto).
  assert (Hl : len digits = 13).
  { subst digits.
    pose proof (digit_not_continuation a1 Ha1) as Hc1. apply negb_true_iff in Hc1.
    pose proof (digit_not_continuation a2 Ha2) as Hc2. apply negb_true_iff in Hc2.
    rewrite !len_cons_plain by (assumption || reflexivity). by rewrite Hlen. }
  rewrite Hl. cbn [Nat.eqb]. by rewrite andb_false_r.
Qed.
End LegacyFix.

Section BatchStatistics.
Context {P : Type} `{PhoneNumbersLib P}.
Import PhoneValidator.

Lemma bump_sum (code : string) (l : list (string * nat)) :
  sum_list (snd <$> bump code l) = S (sum_list (snd <$> l)).
Proof.
  induction l as [|[k n] t IH]; [reflexivity|]. cbn [bump].
  destruct (String.eqb k code); rewrite !fmap_cons; cbn [snd].
  - change (sum_list (S n :: (snd <$> t))) with (S n + sum_list (snd <$> t)).
    change (sum_list (n :: (snd <$> t))) with (n + sum_list (snd <$> t)). lia.
  - change (sum_list (n :: (snd <$> bump code t)))
      with (n + sum_list (snd <$> bump code t)).
    change (sum_list (n :: (snd <$> t))) with (n + sum_list (snd <$> t)).
    rewrite IH. lia.
Qed.

Lemma bump_keys (code : string) (l : list (string * nat)) :
  NoDup (fst <$> l) -> NoDup (fst <$> bump code l) /\
  forall k, k ∈ (fst <$> bump code l) <-> k = code \/ k ∈ (fst <$> l).
Proof.
  induction l as [|[k n] t IH]; intros Hnd.
  - cbn. split; [apply NoDup_singleton|]. intros k. rewrite list_elem_of_singleton.
    rewrite elem_of_nil. tauto.
  - rewrite fmap_cons in Hnd. apply NoDup_cons in Hnd as [Hk Hnd]. cbn [bump fst] in *.
    destruct (String.eqb_spec k code) as [->|Hne].
    + rewrite !fmap_cons. cbn [fst]. split; [by apply NoDup_cons|].
      intros k'. rewrite elem_of_cons. tauto.
    + destruct (IH Hnd) as [Hnd' Hin]. rewrite !fmap_cons. cbn [fst]. split.
      * apply NoDup_cons. split; [|exact Hnd']. rewrite Hin. intros [?|?]; [done|].
        contradiction.
      * intros k'. rewrite !elem_of_cons, Hin. tauto.
Qed.

Lemma country_stats_from (validated : list PhoneNumber) : forall acc,
  NoDup (fst <$> acc) ->
  let r := fold_left
             (fun acc p =>
                match is_valid p, country_code p with
                | true, Some c => if String.eqb c "" then acc else bump c acc
                | _, _ => acc
                end) validated acc in
  NoDup (fst <$> r) /\
  sum_list (snd <$> r) = sum_list (snd <$> acc) + length (List.filter PhoneText.counted validated).
Proof.
  induction validated as [|p t IH]; intros acc Hnd; [cbn; split; [done|lia]|].
  cbn [fold_left List.filter]. unfold PhoneText.counted at 1.
  destruct (is_valid p); [|cbn [andb]; by apply IH].
  destruct (country_code p) as [c|]; [|cbn [andb]; by apply IH].
  destruct (String.eqb c ""); [cbn [andb negb]; by apply IH|]. cbn [andb negb].
  destruct (IH (bump c acc) (proj1 (bump_keys c acc Hnd))) as [Hnd' Hsum].
  split; [exact Hnd'|]. rewrite Hsum, bump_sum. cbn [length]. lia.
Qed.

(** X9. The statistics of [validate_csv_phones_batch] agree with its
    records: [total_numbers] is their number, [valid_numbers] the number of
    valid ones (the recipients the dispatcher will keep), [invalid_numbers]
    the rest; blank entries are skipped; the country table has one entry per
    country and its counts add up to the valid records that carry a country
    code. *)
Theorem batch_statistics_are_consistent (region : string) (phones : list string) :
  let r := validate_csv_phones_batch region phones in
  total_numbers r.2 = length r.1 /\
  valid_numbers r.2 = length (CampaignService.valid_recipients r.1) /\
  total_numbers r.2 = valid_numbers r.2 + invalid_numbers r.2 /\
  length r.1 = length (List.filter (fun v => negb (String.eqb (PyStr.strip v) "")) phones) /\
  NoDup (fst <$> countries r.2) /\
  sum_list (snd <$> countries r.2) = length (List.filter PhoneText.counted r.1).
Proof.
  unfold validate_csv_phones_batch. cbv zeta. cbn [fst snd total_numbers valid_numbers
    invalid_numbers countries].
  set (validated := flat_map _ phones).
  split; [reflexivity|]. split; [reflexivity|]. split.
  { pose proof (filter_length_le is_valid validated). lia. }
  split.
  { subst validated. induction phones as [|v t IH]; [reflexivity|].
    cbn [flat_map List.filter]. rewrite length_app, IH.
    destruct (String.eqb v "") eqn:Hv.
    - apply String.eqb_eq in Hv. subst v. reflexivity.
    - cbn [negb andb]. destruct (String.eqb (PyStr.strip v) ""); reflexivity. }
  unfold country_stats.
  destruct (country_stats_from validated [] (NoDup_nil_2)) as [Hnd Hsum].
  split; [exact Hnd | exact Hsum].
Qed.
End BatchStatistics.

(** ** Contact extraction and upload *)

Section ExtractionFacts.
Import Base64FileHandler.

Lemma fromkeys_from_seen (l : list string) : forall s1 s2,
  (forall z, existsb (String.eqb z) s1 = existsb (String.eqb z) s2) ->
  fromkeys_from s1 l = fromkeys_from s2 l.
Proof.
  induction l as [|y t IH]; intros s1 s2 Heq; [reflexivity|]. cbn [fromkeys_from].
  rewrite (Heq y). destruct (existsb (String.eqb y) s2); [by apply IH|].
  f_equal. apply IH. intros z. cbn [existsb]. by rewrite Heq.
Qed.

Lemma filter_filter_same {A : Type} (f : A -> bool) (l : list A) :
  List.filter f (List.filter f l) = List.filter f l.
Proof.
  induction l as [|x l IH]; [reflexivity|]. cbn [List.filter].
  destruct (f x) eqn:Hx; [|exact IH]. cbn [List.filter]. by rewrite Hx, IH.
Qed.

Lemma fromkeys_from_cons (x : string) (l : list string) : forall seen,
  fromkeys_from (x :: seen) l
  = List.filter (fun y => negb (String.eqb y x)) (fromkeys_from seen l).
Proof.
  induction l as [|y t IH]; intros seen; [reflexivity|]. cbn [fromkeys_from existsb].
  destruct (existsb (String.eqb y) seen) eqn:Hseen.
  - rewrite orb_true_r. apply IH.
  - rewrite orb_false_r. destruct (String.eqb y x) eqn:Hyx.
    + apply String.eqb_eq in Hyx. subst y. cbn [List.filter].
      rewrite String.eqb_refl. cbn [negb orb].
      rewrite (IH seen). by rewrite filter_filter_same.
    + cbn [List.filter]. rewrite Hyx. cbn [negb]. f_equal.
      rewrite <- (IH (y :: seen)). apply fromkeys_from_seen.
      intros z. cbn [existsb]. by rewrite !orb_assoc, (orb_comm (String.eqb z y)).
Qed.

(** X10. [list(dict.fromkeys(l))] keeps the first occurrence of every value
    and drops the later ones: the head stays in front and is removed from
    what the rest gives; the result has no duplicates and the same values as
    the input. *)
Theorem fromkeys_keeps_first_occurrences (x : string) (l : list string) :
  fromkeys (x :: l) = x :: List.filter (fun y => negb (String.eqb y x)) (fromkeys l) /\
  NoDup (fromkeys l) /\
  (forall y, In y (fromkeys l) <-> In y l).
Proof.
  split; [|split].
  - unfold fromkeys. cbn [fromkeys_from existsb]. f_equal. apply fromkeys_from_cons.
  - apply fromkeys_from_spec.
  - intros y. unfold fromkeys. rewrite (proj2 (fromkeys_from_spec [] l) y). simpl. tauto.
Qed.

Lemma fmap_unvalidated (l : list string) : raw <$> (unvalidated <$> l) = l.
Proof. induction l as [|x l IH]; [done|]. rewrite !fmap_cons, IH. reflexivity. Qed.

(** X11. When the parser reads the file as a table with at least one
    column, the extracted records are the distinct trimmed non-empty cells
    of the phone columns (of the first column when no name matches), in
    first-seen order, none of them validated yet, and [total_numbers] is
    their number. *)
Theorem tabular_extraction_is_deduplicated `{TabularParser} (file_data : string)
    (df : list Column) (first : Column) (others : list Column) :
  read_csv file_data = inl df -> df = first :: others ->
  let chosen := match _find_phone_columns df with [] => [first] | cols => cols end in
  let r := extract_phone_numbers_from_csv file_data in
  raw <$> r.1 = fromkeys (flat_map column_phones chosen) /\
  NoDup (raw <$> r.1) /\
  Forall (fun p => is_valid p = false /\ formatted p = raw p) r.1 /\
  total_numbers r.2 = length r.1 /\ valid_numbers r.2 = 0.
Proof.
  intros Hread -> chosen r. subst r chosen. unfold extract_phone_numbers_from_csv.
  rewrite Hread.
  assert (Hall : forall l : list string,
             Forall (fun p => is_valid p = false /\ formatted p = raw p) (unvalidated <$> l)).
  { intros l. apply Forall_fmap, Forall_forall. by intros. }
  destruct (_find_phone_columns (first :: others)) as [|c cs]; cbn [fst snd flat_map].
  - rewrite app_nil_r, fmap_unvalidated. split; [reflexivity|].
    split; [apply fromkeys_from_spec|]. split; [apply Hall|].
    cbn. by rewrite length_fmap.
  - rewrite fmap_unvalidated. split; [reflexivity|].
    split; [apply fromkeys_from_spec|]. split; [apply Hall|].
    cbn. by rewrite length_fmap.
Qed.
End ExtractionFacts.

(** A table whose phone column lists one number twice, with stray blanks. *)
Lemma tabular_extraction_is_deduplicated_witness :
  @read_csv Fixtures.table_parser "any" = inl Fixtures.two_columns /\
  raw <$> (@Base64FileHandler.extract_phone_numbers_from_csv
             Fixtures.table_parser "any").1
    = ["11987650001"; "21987650002"] /\
  NoDup (raw <$> (@Base64FileHandler.extract_phone_numbers_from_csv
                    Fixtures.table_parser "any").1).
Proof.
  split; [reflexivity|].
  pose proof (@tabular_extraction_is_deduplicated Fixtures.table_parser "any"
                Fixtures.two_columns _ _ eq_refl eq_refl) as (Hraw & Hnd & _).
  split; [exact Hraw | exact Hnd].
Defined.

Section FallbackFacts.
Context `{TabularParser}.
Import Base64FileHandler.

Lemma split_acc_no_separator (sep : ascii) (s : string) : forall cur,
  PyStr.all_chars (fun c => negb (Ascii.eqb c sep)) s = true ->
  PyStr.split_acc sep cur s
  = [string_of_list_ascii (rev cur ++ list_ascii_of_string s)].
Proof.
  induction s as [|c t IH]; intros cur Hs.
  - cbn. by rewrite app_nil_r.
  - cbn [PyStr.all_chars] in Hs. apply andb_prop in Hs as [Hc Ht].
    apply negb_true_iff in Hc. cbn [PyStr.split_acc]. rewrite Hc, (IH _ Ht).
    cbn [rev list_ascii_of_string]. by rewrite <- app_assoc.
Qed.

Lemma fallback_line_unvalidated (line : string) :
  Forall (fun p => is_valid p = false /\ formatted p = raw p) (fallback_line line).
Proof.
  unfold fallback_line. destruct (String.eqb _ ""); [constructor|].
  destruct (PyStr.split _ _) as [|first rest]; [constructor|].
  destruct (String.eqb _ ""); repeat constructor.
Qed.

(** X12. The line-splitting fallback never fails: a file that does not
    decode or is empty gives no records; a text of a single line (a header
    and nothing else) gives no records; in every case the records are
    unvalidated copies of their raw text and [total_numbers] is their
    number. *)
Theorem fallback_extraction_edge_cases (file_data : string) :
  let r := _fallback_phone_extraction file_data in
  (decode_text file_data = None \/ decode_text file_data = Some "" -> r.1 = []) /\
  (forall text, decode_text file_data = Some text ->
     PyStr.all_chars (fun c => negb (Ascii.eqb c PyStr.newline)) (PyStr.strip text) = true ->
     r.1 = []) /\
  Forall (fun p => is_valid p = false /\ formatted p = raw p) r.1 /\
  total_numbers r.2 = length r.1 /\ valid_numbers r.2 = 0.
Proof.
  unfold _fallback_phone_extraction. cbv zeta.
  destruct (decode_text file_data) as [text|].
  2:{ cbn. repeat split; auto; try discriminate. }
  destruct (String.eqb text "") eqn:Hempty.
  { cbn. repeat split; auto. }
  cbn [fst snd]. split; [|split; [|split]].
  - intros [[=]|[= ->]]. discriminate.
  - intros text' [= <-] Hone. unfold PyStr.split.
    by rewrite (split_acc_no_separator _ _ [] Hone).
  - apply Forall_flat_map, Forall_forall. intros line _. apply fallback_line_unvalidated.
  - split; reflexivity.
Qed.
End FallbackFacts.

(** A header line alone, through the fallback. *)
Lemma fallback_extraction_edge_cases_witness :
  @decode_text Scripted.rejecting_parser "telefone" = Some "telefone" /\
  PyStr.all_chars (fun c => negb (Ascii.eqb c PyStr.newline)) (PyStr.strip "telefone") = true /\
  (@Base64FileHandler._fallback_phone_extraction Scripted.rejecting_parser "telefone").1 = [].
Proof.
  split; [reflexivity|]. split; [reflexivity|].
  exact (proj1 (proj2 (@fallback_extraction_edge_cases Scripted.rejecting_parser "telefone"))
           "telefone" eq_refl eq_refl).
Defined.

(** ** The upload step *)

Section UploadStep.
Context {P : Type} `{PhoneNumbersLib P} `{TabularParser} `{Base64Files}.

Lemma batch_counts (region : string) (phones : list string) :
  let r := PhoneValidator.validate_csv_phones_batch region phones in
  total_numbers r.2 = length r.1 /\
  valid_numbers r.2 = length (CampaignService.valid_recipients r.1).
Proof. split; reflexivity. Qed.

(** X13. [CSVUploadStep.handle] either leaves the session dict exactly as it
    was (no document, or the processing raised: the error is reported and
    the step does not move), or replaces the campaign data wholesale: the
    step becomes [csv_processed], the new data hold only the file, the
    validated records and statistics whose [valid_numbers] is the number of
    valid records, and any earlier context, selected copy or progress is
    gone. *)
Theorem upload_step_all_or_nothing (message : WhatsAppMessage) (s : Session) :
  let r := CSVUploadStepImpl.handle message s in
  (r.1 = s /\ exists text, r.2 = Some (OtherReply text)) \/
  (exists file_info phones st,
      r.1 = mkSession (user_phone s) csv_processed
              (CSVUploadStepImpl.uploaded_data file_info phones st)
              (conversation_history s) (last_interaction s) /\
      r.2 = Some (OptionsMenu (valid_numbers st)) /\
      valid_numbers st = length (CampaignService.valid_recipients phones) /\
      total_numbers st = length phones).
Proof.
  unfold CSVUploadStepImpl.handle. cbv zeta.
  destruct (if String.eqb _ "document" then _ else None) as [media|];
    [|left; split; [reflexivity | eexists; reflexivity]].
  unfold FileProcessing.process_csv_upload.
  destruct (media_base64 media) as [b64|];
    [|left; split; [reflexivity | eexists; reflexivity]].
  destruct (String.eqb b64 ""); [left; split; [reflexivity | eexists; reflexivity]|].
  destruct (process_base64_file _ _ _) as [file_info|e];
    [|left; split; [reflexivity | eexists; reflexivity]].
  destruct (file_data file_info) as [bytes| |];
    try (left; split; [reflexivity | eexists; reflexivity]).
  unfold ContactNormalizer.process_csv_upload.
  destruct (Base64FileHandler.extract_phone_numbers_from_csv bytes) as [objects st0].
  pose proof (batch_counts "BR" (raw <$> objects)) as (Ht & Hv).
  destruct (PhoneValidator.validate_csv_phones_batch "BR" (raw <$> objects))
    as [phones st]. cbn [fst snd] in *.
  right. exists file_info, phones, st. auto.
Qed.
End UploadStep.

(** ** The dispatcher and the completion check *)

Section DispatchFacts.
Context {G : Type} `{Gateway G} `{CSVUploadStep}.
Import CampaignService.

Lemma count_returned_all (l : list Outcome) :
  (length l <=? count_returned l)%nat = forallb returned l.
Proof.
  unfold count_returned. induction l as [|o l IH]; [reflexivity|].
  cbn [forallb List.filter]. pose proof (filter_length_le returned l) as Hle.
  destruct (returned o); cbn [andb length].
  - exact IH.
  - apply Nat.leb_gt. lia.
Qed.

(** X14. Completion compares [progress.sent] with the number of valid
    contacts, and a send that raised is never retried nor counted as sent:
    after a dispatch run the campaign counts as completed exactly when no
    gateway call raised.  After a run with a failure every later message
    that is not a status query is answered with the in-progress text and
    the session stays as it is, at [executing_campaign]. *)
Theorem failed_send_blocks_completion (now : Z) (message : WhatsAppMessage)
    (g : G) (s : Session) all msg st :
  phone_numbers (campaign_data s) = Some all ->
  selected_copy (campaign_data s) = Some msg ->
  stats (campaign_data s) = Some st ->
  valid_numbers st = length (valid_recipients all) ->
  let after := (execute_bulk_campaign g s).1.2 in
  let outs := outcomes msg (prepare_image (campaign_data s)) g (valid_recipients all) in
  BulkMessagingWorkflow.is_completed (campaign_data after) = forallb returned outs /\
  (PyStr.contains "status" (normalized_text message) = false ->
   forallb returned outs = false ->
   BulkMessagingWorkflow._handle_execution_status now message after
     = (after, Some CampaignRunning)).
Proof.
  intros Hall Hmsg Hst Hvalid after outs.
  assert (Hdone : BulkMessagingWorkflow.is_completed (campaign_data after)
                  = forallb returned outs).
  { subst after. rewrite (execute_bulk_campaign_run g s all msg Hall Hmsg). cbn [fst snd].
    pose proof (send_loop_final msg (prepare_image (campaign_data s))
                  (length (valid_recipients all)) (valid_recipients all)
                  g initial_progress 0) as (Hs & _ & _).
    cbv zeta in Hs. fold outs in Hs.
    unfold BulkMessagingWorkflow.is_completed, BulkMessagingWorkflow.stats_valid_numbers,
      BulkMessagingWorkflow.progress_sent.
    cbn [campaign_data with_campaign_data set_progress stats progress].
    rewrite Hst, Hvalid, Hs. cbn [initial_progress sent]. rewrite Nat.add_0_l.
    rewrite <- (outcomes_length msg (prepare_image (campaign_data s))
                  (valid_recipients all) g). fold outs.
    apply count_returned_all. }
  split; [exact Hdone|]. intros Hq Hfail.
  unfold BulkMessagingWorkflow._handle_execution_status. cbv zeta.
  unfold SessionService.get_campaign_data. by rewrite Hq, Hdone, Hfail.
Qed.

Lemma removelast_cons {A : Type} (x y : A) (l : list A) :
  removelast (x :: y :: l) = x :: removelast (y :: l).
Proof. reflexivity. Qed.

Lemma pauses_app (a b : list Observation) :
  DispatchTrace.pauses (a ++ b) = DispatchTrace.pauses a + DispatchTrace.pauses b.
Proof. unfold DispatchTrace.pauses. by rewrite List.filter_app, length_app. Qed.

Lemma send_loop_pauses (msg : string) (img : ImagePayload) (total : nat) phones :
  forall (g : G) p i, total = i + length phones ->
  let r := send_loop msg img total g p i phones in
  DispatchTrace.pauses r.2 = count_returned (removelast (outcomes msg img g phones)) /\
  (forall q, last r.2 <> Some (AwaitSleep q)).
Proof.
  induction phones as [|phone rest IH]; intros g p i Htotal; [by split|].
  rewrite send_loop_cons. cbn [outcomes].
  destruct (send_one msg img g phone) as [g1 r]. cbv zeta.
  set (p1 := match r with Returned => on_success p | Raised _ => on_failure p end).
  specialize (IH g1 p1 (S i)).
  destruct rest as [|phone' rest'].
  - cbn [send_loop outcomes removelast length] in *.
    assert (Hlast : (Z.of_nat i <? Z.of_nat total - 1)%Z = false)
      by (apply Z.ltb_ge; lia).
    rewrite Hlast. destruct r; cbn; split; try reflexivity; intros q [=].
  - destruct IH as [Hp Hl]; [cbn [length] in *; lia|].
    assert (Hmore : (Z.of_nat i <? Z.of_nat total - 1)%Z = true)
      by (apply Z.ltb_lt; cbn [length] in *; lia).
    rewrite Hmore.
    assert (Hne : exists o outs', outcomes msg img g1 (phone' :: rest') = o :: outs').
    { cbn [outcomes]. destruct (send_one msg img g1 phone') as [g2 r2]. eauto. }
    destruct Hne as (o & outs' & Houts). rewrite Houts in *. rewrite removelast_cons.
    assert (Htr : exists o' tr', (send_loop msg img total g1 p1 (S i) (phone' :: rest')).2
                                 = o' :: tr').
    { rewrite send_loop_cons. destruct (send_one msg img g1 phone') as [g2 r2]. cbv zeta.
      destruct (send_loop _ _ _ g2 _ _ rest') as [[g3 p3] tr3]. cbn [snd]. eauto. }
    destruct (send_loop msg img total g1 p1 (S i) (phone' :: rest')) as [[g2 p2] tr].
    cbn [fst snd] in *. destruct Htr as (o' & tr' & ->).
    unfold count_returned in *. cbn [List.filter].
    split.
    + change (AwaitSend (formatted phone) p :: ?x)
        with ([AwaitSend (formatted phone) p] ++ x).
      rewrite !pauses_app, Hp. destruct r; cbn; lia.
    + intros q. destruct r; cbn [app]; rewrite ?last_cons_cons; apply Hl.
Qed.

(** X15. The one-second pause of the dispatcher comes only after a send
    that returned and only when another recipient follows: the pauses of a
    run are as many as the returned calls among all recipients but the
    last, and a run never ends on a pause. *)
Theorem pause_only_between_sends (g : G) (s : Session) all msg :
  phone_numbers (campaign_data s) = Some all ->
  selected_copy (campaign_data s) = Some msg ->
  let run := execute_bulk_campaign g s in
  let outs := outcomes msg (prepare_image (campaign_data s)) g (valid_recipients all) in
  DispatchTrace.pauses run.2 = count_returned (removelast outs) /\
  (forall q, last run.2 <> Some (AwaitSleep q)).
Proof.
  intros Hall Hmsg run outs. subst run.
  rewrite (execute_bulk_campaign_run g s all msg Hall Hmsg). cbn [snd].
  apply send_loop_pauses. reflexivity.
Qed.
End DispatchFacts.

(** Three valid recipients, the second call raising: the campaign never
    counts as completed and a later message finds it still running. *)
Lemma failed_send_blocks_completion_witness :
  valid_numbers (mkStats 4 3 1 [("BR", 3)])
    = length (CampaignService.valid_recipients Scripted.contacts) /\
  PyStr.contains "status"
    (normalized_text (Scripted.text_message Scripted.owner "Obrigado")) = false /\
  let after := (CampaignService.execute_bulk_campaign Scripted.second_call_raises
                  (Scripted.executing None)).1.2 in
  BulkMessagingWorkflow.is_completed (campaign_data after) = false /\
  @BulkMessagingWorkflow._handle_execution_status Scripted.no_csv_upload 7
      (Scripted.text_message Scripted.owner "Obrigado") after
    = (after, Some CampaignRunning).
Proof.
  split; [reflexivity|]. split; [reflexivity|].
  pose proof (@failed_send_blocks_completion (list Outcome) Scripted.gateway
                Scripted.no_csv_upload 7
                (Scripted.text_message Scripted.owner "Obrigado")
                Scripted.second_call_raises (Scripted.executing None)
                Scripted.contacts "Oi {{name}}, novidades!" (mkStats 4 3 1 [("BR", 3)])
                eq_refl eq_refl eq_refl eq_refl) as [Hdone Hrunning].
  split.
  - etransitivity; [exact Hdone | reflexivity].
  - exact (Hrunning eq_refl eq_refl).
Defined.

(** The same run pauses once: after the first send, not after the failed
    second one nor after the last. *)
Lemma pause_only_between_sends_witness :
  DispatchTrace.pauses
    (CampaignService.execute_bulk_campaign Scripted.second_call_raises
       (Scripted.executing None)).2 = 1.
Proof.
  etransitivity.
  - exact (proj1 (@pause_only_between_sends (list Outcome) Scripted.gateway
                    Scripted.second_call_raises (Scripted.executing None)
                    Scripted.contacts "Oi {{name}}, novidades!" eq_refl eq_refl)).
  - reflexivity.
Defined.

(** ** The marker of a running generation *)

Section MarkerFacts.
Context {G : Type} `{Gateway G} `{GenerationService}.
Import BackgroundCopyService.

Lemma run_all_releases env now (queue : list string) : forall w : World G,
  scheduled (service w) = queue ->
  let w' := run_all env now (length queue) w in
  scheduled (service w') = [] /\
  active_generations (service w')
    = active_generations (service w) ∖ list_to_set queue.
Proof.
  induction queue as [|user rest IH]; intros w Hq.
  - cbn [length run_all]. split; [exact Hq|].
    by rewrite list_to_set_nil, difference_empty_L.
  - cbn [length run_all]. unfold run_next. rewrite Hq.
    set (w0 := mkWorld (user_sessions w) (gateway w)
                       (mkService (active_generations (service w)) rest) (events w)).
    destruct (task_frame env now user w0 user) as (_ & Hs & Ha).
    destruct (IH (_generate_and_deliver_copy env now user w0) Hs) as [Hs' Ha'].
    split; [exact Hs'|]. rewrite Ha', Ha. subst w0. cbn [service active_generations].
    by rewrite list_to_set_cons, difference_difference_l_L.
Qed.

(** X16. The marker of a user in [active_generations] never outlives the
    task: once the event loop has run the scheduled coroutines, whatever the
    gateway and the generation did, none of their users is marked any more
    and nothing is left scheduled; and when [asyncio.create_task] itself
    fails, the service is back as it was before the trigger. *)
Theorem marker_never_outlives_task env now (w : World G) (user : string) :
  let w' := run_all env now (length (scheduled (service w))) w in
  (scheduled (service w') = [] /\
   active_generations (service w')
     = active_generations (service w) ∖ list_to_set (scheduled (service w))) /\
  (user ∉ active_generations (service w) ->
   trigger false (service w) user = service w /\
   let w1 := trigger_background_copy_generation true w user in
   let w2 := run_all env now (length (scheduled (service w1))) w1 in
   user ∉ active_generations (service w2)).
Proof.
  split; [by apply run_all_releases|]. intros Hfree. split.
  - unfold trigger. destruct (decide _) as [Hin|_]; [done|].
    destruct (service w) as [active queue]. cbn [active_generations scheduled] in *.
    f_equal. rewrite difference_union_distr_l_L, difference_diag_L, union_empty_l_L.
    apply difference_disjoint_L. by apply disjoint_singleton_r.
  - cbv zeta.
    destruct (run_all_releases env now _
                (trigger_background_copy_generation true w user) eq_refl) as [_ Ha].
    rewrite Ha. cbn [trigger_background_copy_generation service].
    unfold trigger. destruct (decide _) as [Hin|_]; [done|].
    cbn [scheduled active_generations]. apply not_elem_of_difference. right.
    apply elem_of_list_to_set, elem_of_app. right. by apply list_elem_of_singleton.
Qed.
End MarkerFacts.

(** A trigger on the idle service, then the event loop: the owner is free
    again although every gateway call raised. *)
Lemma marker_never_outlives_task_witness :
  let w := BackgroundCopyService.mkWorld {[Scripted.owner := Scripted.generating]}
             [Raised "timeout"; Raised "timeout"; Raised "timeout"]
             BackgroundCopyService.fresh [] in
  let w1 := BackgroundCopyService.trigger_background_copy_generation true w Scripted.owner in
  let w2 := @BackgroundCopyService.run_all (list Outcome) Scripted.gateway
              Scripted.three_options BackgroundCopyService.quiet 7 1 w1 in
  (Scripted.owner ∉ BackgroundCopyService.active_generations (BackgroundCopyService.service w)) /\
  BackgroundCopyService.scheduled (BackgroundCopyService.service w1) = [Scripted.owner] /\
  (Scripted.owner ∉ BackgroundCopyService.active_generations (BackgroundCopyService.service w2)).
Proof.
  cbv zeta.
  assert (Hfree : Scripted.owner ∉ BackgroundCopyService.active_generations
                    BackgroundCopyService.fresh) by apply not_elem_of_empty.
  split; [exact Hfree|]. split; [reflexivity|].
  exact (proj2 (proj2 (@marker_never_outlives_task (list Outcome) Scripted.gateway
                         Scripted.three_options BackgroundCopyService.quiet 7
                         (BackgroundCopyService.mkWorld
                            {[Scripted.owner := Scripted.generating]}
                            [Raised "timeout"; Raised "timeout"; Raised "timeout"]
                            BackgroundCopyService.fresh [])
                         Scripted.owner) Hfree)).
Defined.

(** ** Options after the upload *)

Section PostCSVFacts.
Context `{FileProcessingService}.
Import PostCSVOptionsStep.

Lemma start_generation_shape now store r (s : Session) :
  let res := start_generation now store r s in
  spawned res = [user_phone s] /\
  workflow_step (session res) = generating_copy /\
  campaign_data (session res) = store (campaign_data s).
Proof.
  unfold start_generation, trigger_for, BackgroundCopyService.trigger. cbv zeta.
  destruct (decide _) as [Hin|_]; [by apply not_elem_of_empty in Hin|]. by cbn.
Qed.

Lemma has_context_spec (s : Session) :
  _has_context_for_ai_copy s = true <->
  is_Some (image_file_info (campaign_data s)) \/ is_Some (text_context (campaign_data s)).
Proof.
  unfold _has_context_for_ai_copy, SessionService.get_campaign_data.
  by rewrite orb_true_iff, !bool_decide_eq_true.
Qed.

(** X17. [PostCSVOptionsStep.handle] hands a generation to the event loop
    only together with the step [generating_copy] and with a context (an
    image or a text) in the campaign data, for the user of the session and
    keeping the contacts and their statistics; every other message leaves
    the campaign data exactly as they were. *)
Theorem generation_starts_only_with_context (now : Z) (message : WhatsAppMessage)
    (s : Session) :
  let r := handle now message s in
  (spawned r = [] /\ campaign_data (session r) = campaign_data s) \/
  (spawned r = [user_phone s] /\
   workflow_step (session r) = generating_copy /\
   _has_context_for_ai_copy (session r) = true /\
   phone_numbers (campaign_data (session r)) = phone_numbers (campaign_data s) /\
   stats (campaign_data (session r)) = stats (campaign_data s)).
Proof.
  assert (Hgen : forall store r,
            is_Some (image_file_info (store (campaign_data s)))
            \/ is_Some (text_context (store (campaign_data s))) ->
            phone_numbers (store (campaign_data s)) = phone_numbers (campaign_data s) ->
            stats (store (campaign_data s)) = stats (campaign_data s) ->
            let res := start_generation now store r s in
            (spawned res = [] /\ campaign_data (session res) = campaign_data s) \/
            (spawned res = [user_phone s] /\
             workflow_step (session res) = generating_copy /\
             _has_context_for_ai_copy (session res) = true /\
             phone_numbers (campaign_data (session res)) = phone_numbers (campaign_data s) /\
             stats (campaign_data (session res)) = stats (campaign_data s))).
  { intros store r Hctx Hp Hst.
    destruct (start_generation_shape now store r s) as (Hsp & Hstep & Hcd).
    cbv zeta. right. split; [exact Hsp|]. split; [exact Hstep|].
    rewrite has_context_spec, Hcd. auto. }
  unfold handle. cbv zeta.
  destruct (if String.eqb _ "image" then _ else None) as [media|].
  { destruct (process_image_upload media) as [file_info|err].
    - apply Hgen; [left; by eexists | reflexivity | reflexivity].
    - left. by split. }
  destruct (_is_custom_message_intent _); [left; by split|].
  destruct (_is_direct_send_intent _); [left; by split|].
  destruct (_is_ai_copy_intent _).
  { unfold on_ai. destruct (_extract_context_from_command _) as [ctx|].
    - apply Hgen; [right; by eexists | reflexivity | reflexivity].
    - destruct (_has_context_for_ai_copy s) eqn:Hctx; [|left; by split].
      apply Hgen; [by apply has_context_spec | reflexivity | reflexivity]. }
  destruct (long_enough _ && _);
    [apply Hgen; [right; by eexists | reflexivity | reflexivity]|].
  destruct (PyStr.contains _ _); [left; by split|].
  destruct (PyStr.any_in _ _); left; by split.
Qed.
End PostCSVFacts.

(** ** The orchestrator *)

Section OrchestratorFacts.
Context {P : Type} `{PhoneNumbersLib P} `{TabularParser} `{Base64Files}
        `{FileProcessingService} `{CampaignStore}.
Import Readiness.

Lemma upload_handle_ready (message : WhatsAppMessage) (s : Session) :
  ready s = true -> ready (CSVUploadStepImpl.handle message s).1 = true.
Proof.
  intros Hs. unfold CSVUploadStepImpl.handle.
  destruct (if String.eqb _ "document" then _ else None) as [media|]; [|exact Hs].
  destruct (FileProcessing.process_csv_upload media) as [[[file_info phones] st]|e];
    [reflexivity | exact Hs].
Qed.

Lemma welcome_handle_ready (message : WhatsAppMessage) (s : Session) :
  ready s = true ->
  ready (@WelcomeStep.handle CSVUploadStepImpl.step message s).1 = true.
Proof.
  intros Hs. unfold WelcomeStep.handle. cbv zeta.
  destruct (PyStr.any_in _ _); [reflexivity|].
  destruct (_ && _); [|exact Hs].
  cbn [csv_upload_handle CSVUploadStepImpl.step]. by apply upload_handle_ready.
Qed.

Lemma post_csv_ready now (message : WhatsAppMessage) (s : Session) :
  has_contacts (campaign_data s) = true ->
  workflow_step s = csv_processed ->
  ready (PostCSVOptionsStep.session (PostCSVOptionsStep.handle now message s)) = true.
Proof.
  intros Hc Hstep. unfold PostCSVOptionsStep.handle. cbv zeta.
  assert (Hs : ready s = true) by (unfold ready; by rewrite Hstep).
  destruct (if String.eqb _ "image" then _ else None) as [media|].
  { destruct (process_image_upload media); [exact Hc | exact Hs]. }
  destruct (PostCSVOptionsStep._is_custom_message_intent _); [exact Hc|].
  destruct (PostCSVOptionsStep._is_direct_send_intent _); [exact Hc|].
  destruct (PostCSVOptionsStep._is_ai_copy_intent _).
  { unfold PostCSVOptionsStep.on_ai.
    destruct (PostCSVOptionsStep._extract_context_from_command _); [exact Hc|].
    destruct (PostCSVOptionsStep._has_context_for_ai_copy s); [exact Hc | exact Hs]. }
  destruct (PostCSVOptionsStep.long_enough _ && _); [exact Hc|].
  destruct (PyStr.contains _ _); [exact Hs|].
  destruct (PyStr.any_in _ _); exact Hs.
Qed.

(** A step outcome that may be stored: the session is ready for its step,
    and a dispatch comes only with the step [executing_campaign]. *)
Lemma begin_execution_ready now (s : Session) :
  has_contacts (campaign_data s) = true ->
  present (selected_copy (campaign_data s)) = true ->
  ready (Steps.begin_execution now s) = true /\
  workflow_step (Steps.begin_execution now s) = executing_campaign.
Proof.
  intros Hc Hm. split; [|reflexivity].
  unfold ready, Steps.begin_execution, has_contacts in *.
  cbn. by rewrite Hc, Hm.
Qed.

Lemma copy_selection_ready now (message : WhatsAppMessage) (s : Session) :
  has_contacts (campaign_data s) = true ->
  workflow_step s = copy_selection ->
  let o := Steps.CopySelectionStep.handle now message s in
  ready (Steps.session o) = true /\
  (Steps.dispatch o = true -> workflow_step (Steps.session o) = executing_campaign).
Proof.
  intros Hc Hstep.
  assert (Hs : ready s = true) by (unfold ready; by rewrite Hstep).
  unfold Steps.CopySelectionStep.handle. cbv zeta.
  destruct (PyStr.startswith _ _ && _).
  - destruct (Steps.words _) as [|w1 [|w2 [|w3 ws]]]; try (split; [exact Hs | discriminate]).
    destruct (Steps.option_index w2); [|split; [exact Hs | discriminate]].
    destruct (nth_error _ _) as [selected|]; [|split; [exact Hs | discriminate]].
    cbn [Steps.session Steps.dispatch].
    destruct (begin_execution_ready now
                (SessionService.store_campaign_data (Steps.set_selected_copy selected) s))
      as [Hr Hx]; [exact Hc | reflexivity |].
    split; [exact Hr | intros _; exact Hx].
  - destruct (Steps.option_index _).
    + destruct (nth_error _ _) as [selected|]; [|split; [exact Hs | discriminate]].
      split; [|discriminate]. unfold ready, has_contacts in *. cbn. by rewrite Hc.
    + destruct (Steps.one_of _ _); [split; [exact Hc | discriminate]|].
      destruct (PyStr.contains _ _); [split; [exact Hc | discriminate]|].
      destruct (Steps.has_copy_options s); split; first [exact Hs | discriminate].
Qed.

Lemma approval_ready now (message : WhatsAppMessage) (s : Session) :
  ready s = true ->
  workflow_step s = awaiting_approval ->
  let o := Steps.ApprovalStep.handle now message s in
  ready (Steps.session o) = true /\
  (Steps.dispatch o = true -> workflow_step (Steps.session o) = executing_campaign).
Proof.
  intros Hs Hstep. pose proof Hs as Hs'. unfold ready in Hs'. rewrite Hstep in Hs'.
  apply andb_prop in Hs' as [Hc Hm].
  unfold Steps.ApprovalStep.handle. cbv zeta.
  destruct (Steps.one_of _ _).
  - destruct (begin_execution_ready now s Hc Hm) as [Hr Hx].
    split; [exact Hr | intros _; exact Hx].
  - destruct (Steps.one_of _ _); [|split; [exact Hs | discriminate]].
    destruct (Steps.has_copy_options s); split; first [exact Hc | discriminate].
Qed.

Lemma custom_message_ready now (message : WhatsAppMessage) (s : Session) :
  has_contacts (campaign_data s) = true ->
  workflow_step s = custom_message ->
  let o := Steps.CustomMessageStep.handle now message s in
  ready (Steps.session o) = true /\
  (Steps.dispatch o = true -> workflow_step (Steps.session o) = executing_campaign).
Proof.
  intros Hc Hstep.
  assert (Hs : ready s = true) by (unfold ready; by rewrite Hstep).
  unfold Steps.CustomMessageStep.handle. cbv zeta.
  destruct (String.eqb _ ""); split; try discriminate; [exact Hs|].
  unfold ready, has_contacts in *. cbn. by rewrite Hc.
Qed.

Lemma direct_send_ready now (message : WhatsAppMessage) (s : Session) :
  has_contacts (campaign_data s) = true ->
  workflow_step s = direct_send ->
  let o := Steps.DirectSendStep.handle now message s in
  ready (Steps.session o) = true /\
  (Steps.dispatch o = true -> workflow_step (Steps.session o) = executing_campaign).
Proof.
  intros Hc Hstep.
  assert (Hs : ready s = true) by (unfold ready; by rewrite Hstep).
  unfold Steps.DirectSendStep.handle. cbv zeta.
  destruct (String.eqb _ ""); [split; [exact Hs | discriminate]|].
  cbn [Steps.session Steps.dispatch].
  destruct (begin_execution_ready now
              (SessionService.store_campaign_data
                 (Steps.set_selected_copy (Steps.text_of message)) s))
    as [Hr Hx]; [exact Hc | reflexivity |].
  split; [exact Hr | intros _; exact Hx].
Qed.

Lemma execution_status_ready now (message : WhatsAppMessage) (s : Session) :
  ready s = true ->
  ready (@BulkMessagingWorkflow._handle_execution_status CSVUploadStepImpl.step
           now message s).1 = true.
Proof.
  intros Hs. unfold BulkMessagingWorkflow._handle_execution_status. cbv zeta.
  destruct (PyStr.contains _ _); [exact Hs|].
  destruct (BulkMessagingWorkflow.is_completed _); [|exact Hs].
  by apply welcome_handle_ready.
Qed.

Lemma route_ready now (message : WhatsAppMessage) (s : Session) :
  ready s = true ->
  let o := (Orchestrator.route now message s).1 in
  ready (Steps.session o) = true /\
  (Steps.dispatch o = true -> workflow_step (Steps.session o) = executing_campaign).
Proof.
  intros Hs. unfold Orchestrator.route. pose proof Hs as Hs'. unfold ready in Hs'.
  destruct (workflow_step s) eqn:Hstep; cbn [fst Orchestrator.of_handled Steps.session
                                             Steps.dispatch].
  - split; [by apply welcome_handle_ready | discriminate].
  - split; [by apply upload_handle_ready | discriminate].
  - split; [by apply post_csv_ready | discriminate].
  - split; [unfold ready; by rewrite Hstep | discriminate].
  - by apply copy_selection_ready.
  - by apply approval_ready.
  - split; [by apply execution_status_ready | discriminate].
  - by apply custom_message_ready.
  - by apply direct_send_ready.
Qed.

(** X18. Every turn of [process_message] stores, under the sender's key, a
    session that holds what its step needs: the contacts and their
    statistics from [csv_processed] on, and the message to send while the
    campaign waits for approval or runs.  [execute_bulk_campaign] is handed
    to the event loop only for the sender, with the step
    [executing_campaign], the contacts and the message in place, so that it
    finds the two keys it reads; no other user's session is touched. *)
Theorem turn_keeps_session_ready (now : Z) (message : WhatsAppMessage)
    (sessions : gmap string Session) :
  (forall s, sessions !! from_phone message = Some s -> ready s = true) ->
  let t := Orchestrator.process_message now message sessions in
  (forall u, u <> from_phone message ->
     Orchestrator.user_sessions t !! u = sessions !! u) /\
  exists s',
    Orchestrator.user_sessions t !! from_phone message = Some s' /\
    ready s' = true /\
    (Orchestrator.dispatches t = [] \/
     Orchestrator.dispatches t = [from_phone message] /\
     workflow_step s' = executing_campaign /\
     exists all msg,
       phone_numbers (campaign_data s') = Some all /\
       selected_copy (campaign_data s') = Some msg).
Proof.
  intros Hready. unfold Orchestrator.process_message. cbv zeta.
  unfold SessionService.initialize_session.
  set (s0 := default (SessionService.new_session (from_phone message) now)
                     (sessions !! from_phone message)).
  assert (Hs0 : ready s0 = true).
  { subst s0. destruct (sessions !! from_phone message) as [old|] eqn:Hold;
      [by apply Hready | reflexivity]. }
  set (s1 := SessionStore.add_message_to_history now _ _ _).
  assert (Hs1 : ready s1 = true) by exact Hs0.
  clearbody s1. pose proof (route_ready now message s1 Hs1) as [Hr Hd]. cbv zeta in Hr, Hd.
  destruct (Orchestrator.route now message s1) as [o gens]. cbn [fst] in Hr, Hd.
  cbn [Orchestrator.user_sessions Orchestrator.dispatches]. split.
  - intros u Hu. by rewrite !lookup_insert_ne.
  - exists (Steps.session o). split; [apply lookup_insert_eq|]. split; [exact Hr|].
    destruct (Steps.dispatch o); [right | by left].
    specialize (Hd eq_refl). split; [reflexivity|]. split; [exact Hd|].
    unfold ready in Hr. rewrite Hd in Hr. unfold has_contacts, present in Hr.
    destruct (phone_numbers _) as [all|]; [|discriminate].
    destruct (selected_copy _) as [msg|]; [eauto|].
    by rewrite andb_false_r in Hr.
Qed.
End OrchestratorFacts.

(** The owner approves a campaign: the turn hands the dispatch over with
    the step, the contacts and the message in place. *)
Lemma turn_keeps_session_ready_witness :
  let sessions : gmap string Session :=
    {[Scripted.owner := mkSession Scripted.owner awaiting_approval
                          (Scripted.campaign None) [] 0]} in
  let message := Scripted.text_message Scripted.owner "ENVIAR" in
  let t := @Orchestrator.process_message string Scripted.br_numbers
             Scripted.rejecting_parser Fixtures.plain_files Scripted.no_images
             Fixtures.store_42 7 message sessions in
  (forall s, sessions !! from_phone message = Some s -> Readiness.ready s = true) /\
  Orchestrator.dispatches t = [Scripted.owner] /\
  exists s', Orchestrator.user_sessions t !! Scripted.owner = Some s' /\
             Readiness.ready s' = true /\
             workflow_step s' = executing_campaign.
Proof.
  cbv zeta.
  assert (Hyp : forall s,
             ({[Scripted.owner := mkSession Scripted.owner awaiting_approval
                                    (Scripted.campaign None) [] 0]}
                : gmap string Session)
               !! from_phone (Scripted.text_message Scripted.owner "ENVIAR") = Some s ->
             Readiness.ready s = true).
  { intros s Hs. vm_compute in Hs. injection Hs as <-. reflexivity. }
  split; [exact Hyp|]. split; [reflexivity|].
  destruct (@turn_keeps_session_ready string Scripted.br_numbers
              Scripted.rejecting_parser Fixtures.plain_files Scripted.no_images
              Fixtures.store_42 7 (Scripted.text_message Scripted.owner "ENVIAR")
              _ Hyp) as [_ (s' & Hl & Hr & [Hd | (_ & Hx & _)])].
  - vm_compute in Hd. discriminate.
  - exists s'. split; [exact Hl|]. split; [exact Hr | exact Hx].
Defined.

(** ** What a turn never loses *)

Section HistoryFacts.
Context {P : Type} `{PhoneNumbersLib P} `{TabularParser} `{Base64Files}
        `{FileProcessingService} `{CampaignStore}.

Lemma upload_handle_keeps (message : WhatsAppMessage) (s : Session) :
  SessionFrame.same_owner_and_history s (CSVUploadStepImpl.handle message s).1.
Proof.
  unfold CSVUploadStepImpl.handle.
  destruct (if String.eqb _ "document" then _ else None) as [media|]; [|by split].
  by destruct (FileProcessing.process_csv_upload media) as [[[file_info phones] st]|e].
Qed.

Lemma welcome_handle_keeps (message : WhatsAppMessage) (s : Session) :
  SessionFrame.same_owner_and_history s (@WelcomeStep.handle CSVUploadStepImpl.step message s).1.
Proof.
  unfold WelcomeStep.handle. cbv zeta.
  destruct (PyStr.any_in _ _); [by split|].
  destruct (_ && _); [|by split].
  cbn [csv_upload_handle CSVUploadStepImpl.step].
  exact (upload_handle_keeps message (WelcomeStep.set_step_raw awaiting_csv s)).
Qed.

Lemma post_csv_keeps now (message : WhatsAppMessage) (s : Session) :
  SessionFrame.same_owner_and_history s
    (PostCSVOptionsStep.session (PostCSVOptionsStep.handle now message s)).
Proof.
  unfold PostCSVOptionsStep.handle. cbv zeta.
  destruct (if String.eqb _ "image" then _ else None) as [media|].
  { by destruct (process_image_upload media). }
  destruct (PostCSVOptionsStep._is_custom_message_intent _); [by split|].
  destruct (PostCSVOptionsStep._is_direct_send_intent _); [by split|].
  destruct (PostCSVOptionsStep._is_ai_copy_intent _).
  { unfold PostCSVOptionsStep.on_ai.
    destruct (PostCSVOptionsStep._extract_context_from_command _); [by split|].
    by destruct (PostCSVOptionsStep._has_context_for_ai_copy s). }
  destruct (PostCSVOptionsStep.long_enough _ && _); [by split|].
  destruct (PyStr.contains _ _); [by split|].
  by destruct (PyStr.any_in _ _).
Qed.

Lemma route_keeps now (message : WhatsAppMessage) (s : Session) :
  SessionFrame.same_owner_and_history s (Steps.session (Orchestrator.route now message s).1).
Proof.
  unfold Orchestrator.route.
  destruct (workflow_step s); cbn [fst Orchestrator.of_handled Steps.session].
  - apply welcome_handle_keeps.
  - apply upload_handle_keeps.
  - apply post_csv_keeps.
  - by split.
  - unfold Steps.CopySelectionStep.handle. cbv zeta.
    destruct (PyStr.startswith _ _ && _).
    + destruct (Steps.words _) as [|w1 [|w2 [|w3 ws]]]; try by split.
      destruct (Steps.option_index w2); [|by split].
      by destruct (nth_error _ _).
    + destruct (Steps.option_index _); [by destruct (nth_error _ _)|].
      destruct (Steps.one_of _ _); [by split|].
      destruct (PyStr.contains _ _); [by split|].
      by destruct (Steps.has_copy_options s).
  - unfold Steps.ApprovalStep.handle. cbv zeta.
    destruct (Steps.one_of _ _); [by split|].
    destruct (Steps.one_of _ _); [|by split].
    by destruct (Steps.has_copy_options s).
  - unfold BulkMessagingWorkflow._handle_execution_status. cbv zeta.
    destruct (PyStr.contains _ _); [by split|].
    destruct (BulkMessagingWorkflow.is_completed _); [|by split].
    exact (welcome_handle_keeps message (SessionService.reset_workflow now s)).
  - unfold Steps.CustomMessageStep.handle. cbv zeta.
    by destruct (String.eqb _ "").
  - unfold Steps.DirectSendStep.handle. cbv zeta.
    by destruct (String.eqb _ "").
Qed.

(** X19. The conversation history only grows: whatever the step and the
    message, a turn of [process_message] leaves the sender's session with
    its earlier history followed by exactly one new entry for this message
    (the text, or ["[Media]"] when there is none), under the same
    [user_phone]; neither a new upload nor the reset after a finished
    campaign drops it. *)
Theorem history_only_grows (now : Z) (message : WhatsAppMessage)
    (sessions : gmap string Session) :
  let user := from_phone message in
  let before := default (SessionService.new_session user now) (sessions !! user) in
  let t := Orchestrator.process_message now message sessions in
  exists s' entry,
    Orchestrator.user_sessions t !! user = Some s' /\
    user_phone s' = user_phone before /\
    conversation_history s' = conversation_history before ++ [entry] /\
    h_timestamp entry = now /\
    h_message_type entry = message_type message /\
    h_user_message entry
      = match m_text message with
        | Some text => if String.eqb text "" then "[Media]" else text
        | None => "[Media]"
        end.
Proof.
  cbv zeta. unfold Orchestrator.process_message, SessionService.initialize_session.
  set (before := default _ (sessions !! from_phone message)).
  set (s1 := SessionStore.add_message_to_history now _ _ _).
  pose proof (route_keeps now message s1) as [Hu Hh].
  destruct (Orchestrator.route now message s1) as [o gens]. cbn [fst] in Hu, Hh.
  cbn [Orchestrator.user_sessions].
  eexists (Steps.session o), _. split; [apply lookup_insert_eq|].
  split; [exact Hu|]. split; [exact Hh|]. by cbn.
Qed.
End HistoryFacts.

(** ** Personalisation and file names *)

Section Personalisation.
Context {G : Type} `{Gateway G}.
Import CampaignService.

Lemma replace_without (old new s : string) :
  PyStr.contains old s = false -> PyStr.replace old new s = s.
Proof.
  unfold PyStr.replace. induction s as [|c t IH]; intros Hs; [reflexivity|].
  cbn [PyStr.contains] in Hs. cbn [PyStr.replace_from].
  destruct (PyStr.startswith old (String c t)); [discriminate|].
  by rewrite (IH Hs).
Qed.

Lemma outcomes_without_placeholder (msg : string) (img : ImagePayload) phones :
  PyStr.contains "{{name}}" msg = false ->
  forall g : G,
    outcomes msg img g phones
    = outcomes msg img g ((fun p => mkPhoneNumber "" (formatted p) (country_code p)
                                      (is_valid p) (error_message p)) <$> phones).
Proof.
  intros Hmsg. induction phones as [|phone rest IH]; intros g; [reflexivity|].
  rewrite fmap_cons. cbn [outcomes]. unfold send_one.
  rewrite !(replace_without _ _ _ Hmsg). cbn [formatted].
  destruct (sends_media img) as [[d info]|].
  - destruct (send_media_message _ _ _ _ _ _ _) as [g1 r]. by rewrite IH.
  - destruct (send_text_message _ _ _) as [g1 r]. by rewrite IH.
Qed.

(** X20. A campaign text without the placeholder [{{name}}] is sent as it
    is: each gateway call carries the text itself, and the raw entries of
    the contact list have no influence on what the run sends. *)
Theorem text_without_placeholder_is_sent_verbatim (msg : string) (img : ImagePayload)
    (g : G) (phone : PhoneNumber) (phones : list PhoneNumber) :
  PyStr.contains "{{name}}" msg = false ->
  send_one msg img g phone
    = match sends_media img with
      | Some (d, info) =>
          send_media_message g (formatted phone) d (CampaignMessage msg) "image"
            (image_filename img) (default "image/jpeg" (image_mime_type info))
      | None => send_text_message g (formatted phone) (CampaignMessage msg)
      end /\
  outcomes msg img g phones
    = outcomes msg img g ((fun p => mkPhoneNumber "" (formatted p) (country_code p)
                                      (is_valid p) (error_message p)) <$> phones).
Proof.
  intros Hmsg. split; [|by apply outcomes_without_placeholder].
  unfold send_one. by rewrite (replace_without _ _ _ Hmsg).
Qed.
End Personalisation.

(** A fixed announcement to one contact. *)
Lemma text_without_placeholder_is_sent_verbatim_witness :
  PyStr.contains "{{name}}" "Novidades na loja!" = false /\
  CampaignService.send_one "Novidades na loja!" CampaignService.no_image
    Scripted.second_call_raises (Scripted.contact "11987650001" true)
  = send_text_message Scripted.second_call_raises "+5511987650001"
      (CampaignMessage "Novidades na loja!").
Proof.
  split; [reflexivity|].
  exact (proj1 (@text_without_placeholder_is_sent_verbatim (list Outcome) Scripted.gateway
                  "Novidades na loja!" CampaignService.no_image
                  Scripted.second_call_raises (Scripted.contact "11987650001" true) []
                  eq_refl)).
Defined.

Section FileNames.
Import FileProcessing.

Lemma endswith_chars_suffix (suffix s : list ascii) :
  endswith_chars suffix s = true <-> exists pre, s = pre ++ suffix.
Proof.
  induction s as [|c t IH].
  - cbn. destruct suffix as [|x suffix]; split.
    + intros _. by exists [].
    + done.
    + discriminate.
    + intros [pre Hpre]. by destruct pre.
  - cbn [endswith_chars]. destruct (Nat.eqb_spec (length suffix) (length (c :: t))) as [Hlen|Hlen].
    + rewrite bool_decide_eq_true. split.
      * intros ->. by exists [].
      * intros [pre Hpre]. rewrite Hpre, length_app in Hlen.
        destruct pre; [done | cbn in Hlen; lia].
    + rewrite IH. split.
      * intros [pre ->]. by exists (c :: pre).
      * intros [pre Hpre]. destruct pre as [|c' pre].
        -- cbn in Hpre. by rewrite Hpre in Hlen.
        -- injection Hpre as _ ->. by exists pre.
Qed.

Lemma endswith_last (ext s : string) (x : ascii) :
  endswith ext s = true ->
  last (list_ascii_of_string ext) = Some x ->
  last (list_ascii_of_string s) = Some x.
Proof.
  unfold endswith. rewrite endswith_chars_suffix. intros [pre ->] Hx.
  destruct (list_ascii_of_string ext) as [|e es]; [discriminate|].
  by rewrite last_app_cons.
Qed.

Lemma lower_ascii_idemp (c : ascii) :
  PyStr.lower_ascii (PyStr.lower_ascii c) = PyStr.lower_ascii c.
Proof. destruct c as [[] [] [] [] [] [] [] []]; reflexivity. Qed.

Lemma lower_idemp (s : string) : PyStr.lower (PyStr.lower s) = PyStr.lower s.
Proof.
  induction s as [|c t IH]; [reflexivity|]. cbn [PyStr.lower].
  by rewrite lower_ascii_idemp, IH.
Qed.

Lemma lower_empty (s : string) :
  String.eqb (PyStr.lower s) "" = String.eqb s "".
Proof. by destruct s. Qed.

(** X21. The two file-name checks look at the extension only, whatever the
    case of its letters, and never both accept the same name: a name that
    passes [validate_csv_requirements] fails [validate_image_requirements]. *)
Theorem file_name_checks_are_exclusive (filename : string) :
  validate_csv_requirements (PyStr.lower filename) = validate_csv_requirements filename /\
  validate_image_requirements (PyStr.lower filename)
    = validate_image_requirements filename /\
  (validate_csv_requirements filename = true ->
   validate_image_requirements filename = false).
Proof.
  unfold validate_csv_requirements, validate_image_requirements.
  rewrite lower_idemp, lower_empty. split; [reflexivity|]. split; [reflexivity|].
  intros Hcsv. apply andb_prop in Hcsv as [_ Hcsv].
  apply andb_false_intro2. apply not_true_is_false. intros Himg.
  apply existsb_exists in Hcsv as (e1 & He1 & H1).
  apply existsb_exists in Himg as (e2 & He2 & H2).
  assert (Hlast1 : exists x, last (list_ascii_of_string e1) = Some x /\
                             In x ["v"; "x"; "s"]%char).
  { cbn in He1. destruct He1 as [<-|[<-|[<-|[]]]]; eexists; (split; [reflexivity|]);
      cbn; auto. }
  assert (Hlast2 : exists x, last (list_ascii_of_string e2) = Some x /\
                             In x ["g"; "f"; "p"]%char).
  { cbn in He2. destruct He2 as [<-|[<-|[<-|[<-|[<-|[]]]]]]; eexists;
      (split; [reflexivity|]); cbn; auto. }
  destruct Hlast1 as (x1 & Hx1 & Hin1). destruct Hlast2 as (x2 & Hx2 & Hin2).
  pose proof (endswith_last _ _ _ H1 Hx1) as L1.
  pose proof (endswith_last _ _ _ H2 Hx2) as L2.
  rewrite L1 in L2. injection L2 as <-.
  cbn in Hin1, Hin2.
  destruct Hin1 as [<-|[<-|[<-|[]]]]; destruct Hin2 as [Heq|[Heq|[Heq|[]]]]; discriminate.
Qed.
End FileNames.

(** ** The background task and the session it works on *)

Section TaskFacts.
Context {G : Type} `{Gateway G} `{GenerationService}.
Import BackgroundCopyService Readiness StoreReadiness.

Lemma ready_with_contacts (s : Session) all st :
  phone_numbers (campaign_data s) = Some all ->
  stats (campaign_data s) = Some st ->
  workflow_step s <> awaiting_approval ->
  workflow_step s <> executing_campaign ->
  ready s = true.
Proof.
  intros Hp Hst Ha He. unfold ready, has_contacts. rewrite Hp, Hst.
  by destruct (workflow_step s).
Qed.

Lemma stamped_holds now user all st (m : gmap string Session) :
  holds user all st m ->
  let r := SessionService.initialize_session now user m in
  holds user all st r.1 /\
  phone_numbers (campaign_data r.2) = Some all /\
  stats (campaign_data r.2) = Some st.
Proof.
  intros (s & Hl & Hp & Hst & Hr). unfold SessionService.initialize_session.
  rewrite Hl. cbn [default fst snd campaign_data]. split; [|by split].
  eexists. split; [apply lookup_insert_eq|]. by cbn.
Qed.

Lemma on_exception_holds now user all st (w : World G) :
  holds user all st (user_sessions w) ->
  holds user all st (user_sessions (on_exception quiet now user w)).
Proof.
  intros Hw. unfold on_exception.
  destruct (deliver user (gateway w) GenerationRetry) as [[g' o] e].
  cbn [quiet during_retry id]. destruct o as [|err]; [|exact Hw].
  destruct (stamped_holds now user all st _ Hw) as (_ & Hp & Hst).
  destruct (SessionService.initialize_session now user (user_sessions w))
    as [sessions2 current]. cbn [fst snd user_sessions] in *.
  eexists. split; [apply lookup_insert_eq|]. split; [exact Hp|]. split; [exact Hst|].
  by apply (ready_with_contacts _ all st).
Qed.

Lemma generated_holds (s : Session) all st :
  phone_numbers (campaign_data s) = Some all ->
  stats (campaign_data s) = Some st ->
  workflow_step s = generating_copy ->
  let s' := (CopyGenerationStep.handle s).1.1 in
  phone_numbers (campaign_data s') = Some all /\
  stats (campaign_data s') = Some st /\
  ready s' = true.
Proof.
  intros Hp Hst Hstep.
  assert (Hs : ready s = true)
    by (apply (ready_with_contacts _ all st); auto; rewrite Hstep; discriminate).
  unfold CopyGenerationStep.handle. rewrite Hst.
  destruct (negb _); [by cbn|].
  destruct (generate_copy_options _ _ _) as [options|err]; [|by cbn].
  assert (Hgen : let s3 := CopyGenerationStep.set_copy_selection
                   (SessionService.store_campaign_data
                      (set_copy_styles (fst <$> options))
                      (SessionService.store_campaign_data
                         (set_copy_options (snd <$> options)) s)) in
                 phone_numbers (campaign_data s3) = Some all /\
                 stats (campaign_data s3) = Some st /\ ready s3 = true).
  { cbv zeta. split; [exact Hp|]. split; [exact Hst|].
    apply (ready_with_contacts _ all st); [exact Hp | exact Hst | discriminate..]. }
  by destruct options as [|? [|? [|? ?]]].
Qed.

(** X22. A background generation task never loses the campaign: when the
    store holds, for the user, a session with its contacts and statistics
    that is ready for its step, it still does after the task has run to its
    end, with the same contacts and statistics, whether the generation
    succeeded, failed or the gateway raised at any of the three sends. *)
Theorem generation_task_keeps_campaign now user all st (w : World G) :
  holds user all st (user_sessions w) ->
  holds user all st (user_sessions (_generate_and_deliver_copy quiet now user w)).
Proof.
  intros Hw. unfold _generate_and_deliver_copy. rewrite release_sessions.
  cbn [user_sessions gateway service events].
  destruct (user_sessions w !! user) as [session|].
  2:{ by apply on_exception_holds. }
  destruct (deliver user (gateway w) _) as [[g1 o1] e1].
  cbn [quiet during_ack during_result id user_sessions gateway service events].
  destruct o1 as [|err1]; [|by apply on_exception_holds].
  destruct (stamped_holds now user all st _ Hw) as (Hst2 & Hp & Hst).
  destruct (SessionService.initialize_session now user (user_sessions w))
    as [sessions2 current]. cbn [fst snd] in *.
  destruct (decide (workflow_step current = generating_copy)) as [Hstep|_];
    [|exact Hst2].
  destruct (CopyGenerationRequest.has_valid_context _);
    [|by apply on_exception_holds].
  destruct (generated_holds current all st Hp Hst Hstep) as (Hp' & Hst' & Hr').
  destruct (CopyGenerationStep.handle current) as [[s' result] wrote].
  cbn [fst] in Hp', Hst', Hr'.
  destruct (deliver user g1 result) as [[g3 o3] e3].
  assert (Hw3 : holds user all st (<[user := s']> sessions2)).
  { exists s'. split; [apply lookup_insert_eq|]. auto. }
  destruct o3 as [|err3]; [exact Hw3 | by apply on_exception_holds].
Qed.
End TaskFacts.

(** The owner's session while generating, every send raising. *)
Lemma generation_task_keeps_campaign_witness :
  let w := BackgroundCopyService.mkWorld
             ({[Scripted.owner := Scripted.generating]} : gmap string Session)
             [Raised "timeout"; Raised "timeout"; Raised "timeout"]
             BackgroundCopyService.fresh [] in
  StoreReadiness.holds Scripted.owner Scripted.contacts (mkStats 4 3 1 [("BR", 3)])
    (BackgroundCopyService.user_sessions w) /\
  StoreReadiness.holds Scripted.owner Scripted.contacts (mkStats 4 3 1 [("BR", 3)])
    (BackgroundCopyService.user_sessions
       (@BackgroundCopyService._generate_and_deliver_copy (list Outcome) Scripted.gateway
          Scripted.three_options BackgroundCopyService.quiet 7 Scripted.owner w)).
Proof.
  cbv zeta.
  assert (Hyp : StoreReadiness.holds Scripted.owner Scripted.contacts
                  (mkStats 4 3 1 [("BR", 3)])
                  ({[Scripted.owner := Scripted.generating]} : gmap string Session)).
  { exists Scripted.generating. split; [apply lookup_singleton_eq|]. by cbn. }
  split; [exact Hyp|].
  exact (@generation_task_keeps_campaign (list Outcome) Scripted.gateway
           Scripted.three_options 7 Scripted.owner Scripted.contacts
           (mkStats 4 3 1 [("BR", 3)])
           (BackgroundCopyService.mkWorld
              ({[Scripted.owner := Scripted.generating]} : gmap string Session)
              [Raised "timeout"; Raised "timeout"; Raised "timeout"]
              BackgroundCopyService.fresh []) Hyp).
Defined.

(** An upper-case spreadsheet name. *)
Lemma file_name_checks_are_exclusive_witness :
  FileProcessing.validate_csv_requirements "Contatos.XLSX" = true /\
  FileProcessing.validate_image_requirements "Contatos.XLSX" = false.
Proof.
  split; [reflexivity|].
  exact (proj2 (proj2 (file_name_checks_are_exclusive "Contatos.XLSX")) eq_refl).
Defined.
